(** * foodcourtio-back: order, payment and shift services

    A shallow embedding of the three NestJS services that carry the core
    of the back end (OrdersService, PaymentsService, EmployeesService) and
    the properties of the specification that concern them.

    Conventions of the embedding.
    - A Prisma table is the list of its rows in insertion order;
      [findUnique]/[findFirst] are [find], [update] rewrites the rows with
      the given id, [create] appends a row.
    - A service method is a function of the database, its arguments, and
      the readings of the environment it makes (the clock [now], the id the
      database gives a new row, the answers of the payment providers).  It
      returns a result or the exception thrown, together with the database
      it leaves behind.
    - A JavaScript [Date] is its time value, a [Z] of milliseconds since
      the epoch.  Integer money (cents) is a [Z].  Other JavaScript
      numbers are exact rationals ([Q]); [Math.round] is rounding to the
      nearest integer with halves going up.
    - A JSON object (the [metadata] column) is a [gmap string MetaValue]. *)

From Stdlib Require Import ZArith QArith Qround Qminmax Lia Bool.
From Stdlib Require Import Ascii String List DecimalString.
From stdpp Require Import gmap strings fin_maps.
Import ListNotations.

Local Open Scope string_scope.
Local Open Scope Z_scope.

(** ** Exceptions and the service monad *)

Inductive HttpException : Type :=
| NotFoundException (message : string)
| ForbiddenException (message : string)
| BadRequestException (message : string)
| TypeError (message : string).

Inductive Result (A : Type) : Type :=
| Ok (value : A)
| Throw (error : HttpException).
Arguments Ok {A} value.
Arguments Throw {A} error.

(** ** Prisma enums *)

Inductive Role : Type := SUPERADMIN | RESTAURANT_OWNER | EMPLOYEE | CUSTOMER.

Module OrderStatus.
Inductive t : Type := PENDING | PREPARING | READY | COMPLETED | CANCELLED.

Definition eqb (a b : t) : bool :=
  match a, b with
  | PENDING, PENDING | PREPARING, PREPARING | READY, READY
  | COMPLETED, COMPLETED | CANCELLED, CANCELLED => true
  | _, _ => false
  end.

(** The enum's values are their own names. *)
Definition toString (s : t) : string :=
  match s with
  | PENDING => "PENDING" | PREPARING => "PREPARING" | READY => "READY"
  | COMPLETED => "COMPLETED" | CANCELLED => "CANCELLED"
  end.
End OrderStatus.

Module PaymentStatus.
Inductive t : Type := PENDING | COMPLETED | FAILED | REFUNDED.
End PaymentStatus.

Module PaymentMethod.
Inductive t : Type := STRIPE | YOOKASSA | CASH | CARD_TERMINAL.
End PaymentMethod.

Module ShiftStatus.
Inductive t : Type := SCHEDULED | ACTIVE | COMPLETED | CANCELLED.
End ShiftStatus.

Definition Role_eqb (a b : Role) : bool :=
  match a, b with
  | SUPERADMIN, SUPERADMIN | RESTAURANT_OWNER, RESTAURANT_OWNER
  | EMPLOYEE, EMPLOYEE | CUSTOMER, CUSTOMER => true
  | _, _ => false
  end.

(** ** Rows *)

Record User : Type := mkUser {
  user_id : string;
  user_role : Role;
  user_name : string;
}.

Record Restaurant : Type := mkRestaurant {
  restaurant_id : string;
  restaurant_name : string;
  restaurant_ownerId : string;
  restaurant_status : string;
  restaurant_foodcourtId : string;
}.

Record Table : Type := mkTable {
  table_id : string;
  table_foodcourtId : string;
}.

Record Variant : Type := mkVariant {
  variant_name : string;
  variant_priceModifier : option Z;
}.

(** A product with the [restaurantId] of its category, the one field
    [include: { category: true }] is read for. *)
Record Product : Type := mkProduct {
  product_id : string;
  product_name : string;
  product_price : Z;
  product_isAvailable : bool;
  product_variants : option (list Variant);
  product_category_restaurantId : string;
}.

(** A value stored under a key of [Payment.metadata]. *)
Inductive MetaValue : Type :=
| MUndefined
| MNumber (n : Z)
| MString (s : string)
| MInstant (t : Z)        (* an ISO-8601 rendering of the instant [t] *)
| MProviderObject (raw : string)  (* a provider's object, kept opaque *)
| MRefund (amount : Z) (reason : string) (externalRefundId : option string)
          (refundedBy : string) (refundedAt : Z).

Record Payment : Type := mkPayment {
  payment_id : string;
  payment_orderId : string;
  payment_amount : Z;
  payment_currency : string;
  payment_method : PaymentMethod.t;
  payment_status : PaymentStatus.t;
  payment_commission : Z;
  payment_commissionAmount : Z;
  payment_netAmount : Z;
  payment_provider : string;
  payment_externalPaymentId : option string;
  payment_paymentUrl : option string;
  payment_metadata : gmap string MetaValue;
}.

(** The columns of [Order] that the modelled methods read or compute;
    the customer's name and phone, the delivery type and the payment
    method are copied from the request and never looked at again. *)
Record Order : Type := mkOrder {
  order_id : string;
  order_orderNumber : string;
  order_status : OrderStatus.t;
  order_totalAmount : Z;
  order_specialInstructions : option string;
  order_estimatedTime : option Z;
  order_restaurantId : string;
  order_tableId : option string;
  order_customerId : option string;
  order_createdAt : Z;
  order_updatedAt : Z;
}.

Record OrderItem : Type := mkOrderItem {
  item_orderId : string;
  item_productId : string;
  item_variant : option string;
  item_quantity : Z;
  item_unitPrice : Z;
  item_totalPrice : Z;
  item_specialInstructions : option string;
}.

Record Employee : Type := mkEmployee {
  employee_id : string;
  employee_name : string;
  employee_userId : option string;
  employee_restaurantId : string;
  employee_hourlyWage : option Z;
}.

Record Shift : Type := mkShift {
  shift_id : string;
  shift_employeeId : string;
  shift_startTime : Z;
  shift_endTime : Z;
  shift_actualStartTime : option Z;
  shift_actualEndTime : option Z;
  shift_breakDuration : option Z;
  shift_notes : option string;
  shift_status : ShiftStatus.t;
}.

(** ** The database *)

Record Db : Type := mkDb {
  restaurants : list Restaurant;
  tables : list Table;
  products : list Product;
  orders : list Order;
  orderItems : list OrderItem;
  payments : list Payment;
  employees : list Employee;
  shifts : list Shift;
}.

Definition set_orders (db : Db) (os : list Order) : Db :=
  mkDb (restaurants db) (tables db) (products db) os (orderItems db)
       (payments db) (employees db) (shifts db).
Definition set_orderItems (db : Db) (its : list OrderItem) : Db :=
  mkDb (restaurants db) (tables db) (products db) (orders db) its
       (payments db) (employees db) (shifts db).
Definition set_payments (db : Db) (ps : list Payment) : Db :=
  mkDb (restaurants db) (tables db) (products db) (orders db) (orderItems db)
       ps (employees db) (shifts db).
Definition set_shifts (db : Db) (ss : list Shift) : Db :=
  mkDb (restaurants db) (tables db) (products db) (orders db) (orderItems db)
       (payments db) (employees db) ss.

(** [prisma.X.update({ where: { id }, data })]: the rows selected by
    [sel] are replaced by their image under [f]. *)
Definition updateWhere {A : Type} (sel : A -> bool) (f : A -> A)
    (rows : list A) : list A :=
  map (fun r => if sel r then f r else r) rows.

(** A service method: a computation over the database that returns a
    value or throws. *)
Definition Service (A : Type) : Type := Db -> Result A * Db.

Definition ret {A : Type} (a : A) : Service A := fun db => (Ok a, db).
Definition throw {A : Type} (e : HttpException) : Service A :=
  fun db => (Throw e, db).
Definition bind {A B : Type} (m : Service A) (k : A -> Service B)
    : Service B :=
  fun db =>
    match m db with
    | (Ok a, db') => k a db'
    | (Throw e, db') => (Throw e, db')
    end.
Definition query {A : Type} (q : Db -> A) : Service A :=
  fun db => (Ok (q db), db).
Definition write (f : Db -> Db) : Service unit :=
  fun db => (Ok tt, f db).
(** [if (c) throw e;] *)
Definition throwIf (c : bool) (e : HttpException) : Service unit :=
  if c then throw e else ret tt.

Declare Scope service_scope.
Delimit Scope service_scope with service.
Notation "'do' x <- m ; k" := (bind m (fun x => k))
  (at level 10, x name, m at level 100, k at level 200) : service_scope.

(** The newline of a template literal. *)
Definition nl : string := String (ascii_of_nat 10) EmptyString.

(** [x !== y] for a nullable string column against a string. *)
Definition isNot (x : option string) (y : string) : bool :=
  match x with
  | Some s => negb (String.eqb s y)
  | None => true
  end.

(** ** JavaScript dates and number formatting *)

Definition msPerDay : Z := 86400000.

(** The day number of a time value (ECMAScript's [Day(t)]). *)
Definition Day (t : Z) : Z := t / msPerDay.

(** Year, month (1 to 12) and day of the month of a day number, in the
    proleptic Gregorian calendar, as [getUTCFullYear], [getUTCMonth] + 1
    and [getUTCDate] give them. *)
Definition civil (day : Z) : Z * Z * Z :=
  let z := day + 719468 in
  let era := z / 146097 in
  let doe := z - era * 146097 in
  let yoe := (doe - doe / 1460 + doe / 36524 - doe / 146096) / 365 in
  let doy := doe - (365 * yoe + yoe / 4 - yoe / 100) in
  let mp := (5 * doy + 2) / 153 in
  let d := doy - (153 * mp + 2) / 5 + 1 in
  let m := if mp <? 10 then mp + 3 else mp - 9 in
  let y := yoe + era * 400 in
  (if m <=? 2 then y + 1 else y, m, d).

(** [String(n)] for an integer. *)
Definition String_ (n : Z) : string := NilZero.string_of_int (Z.to_int n).

Fixpoint zeros (n : nat) : string :=
  match n with
  | O => ""
  | S k => "0" ++ zeros k
  end.

(** [s.padStart(width, '0')] *)
Definition padStart (s : string) (width : nat) : string :=
  zeros (width - String.length s) ++ s.

(** [date.toISOString().slice(0, 10).replace(/-/g, '')]: the UTC date
    as YYYYMMDD (years 0 to 9999). *)
Definition isoDateDigits (t : Z) : string :=
  let '(y, m, d) := civil (Day t) in
  padStart (String_ y) 4 ++ padStart (String_ m) 2 ++ padStart (String_ d) 2.

(** [new Date(d.getFullYear(), d.getMonth(), d.getDate() + k)]: midnight
    of the local day of [t], [k] days on, for a server whose local time
    is UTC + [tz] milliseconds. *)
Definition localMidnight (tz : Z) (t : Z) (k : Z) : Z :=
  (Day (t + tz) + k) * msPerDay - tz.

(** ** OrdersService (src/unnamed/part_005) *)

Module OrdersService.
Import OrderStatus.
Local Open Scope service_scope.

(** The order with the relations [findOne] includes. *)
Record OrderWithRelations : Type := mkOrderWithRelations {
  row : Order;
  restaurant : option Restaurant;
  payment : option Payment;
}.

Definition include (db : Db) (o : Order) : OrderWithRelations :=
  {| row := o;
     restaurant :=
       find (fun r => String.eqb (restaurant_id r) (order_restaurantId o))
            (restaurants db);
     payment :=
       find (fun p => String.eqb (payment_orderId p) (order_id o))
            (payments db) |}.

Definition findUnique (id : string) (db : Db) : option OrderWithRelations :=
  option_map (include db)
    (find (fun o => String.eqb (order_id o) id) (orders db)).

Definition verifyOrderAccess (order : OrderWithRelations)
    (currentUser : User) : Service unit :=
  match user_role currentUser with
  | SUPERADMIN => ret tt
  | RESTAURANT_OWNER =>
      match restaurant order with
      | None => throw (TypeError "Cannot read properties of null")
      | Some r =>
          throwIf (negb (String.eqb (restaurant_ownerId r)
                                    (user_id currentUser)))
            (ForbiddenException
               "You can only access orders from your own restaurants")
      end
  | EMPLOYEE => ret tt
  | CUSTOMER =>
      throwIf (isNot (order_customerId (row order)) (user_id currentUser))
        (ForbiddenException "You can only access your own orders")
  end.

Definition findOne (id : string) (currentUser : User)
    : Service OrderWithRelations :=
  do found <- query (findUnique id);
  match found with
  | None => throw (NotFoundException ("Order with ID " ++ id ++ " not found"))
  | Some order =>
      do _ <- verifyOrderAccess order currentUser;
      ret order
  end.

Record OrderItemDto : Type := mkOrderItemDto {
  productId : string;
  variant : option string;
  quantity : Z;
  specialInstructions : option string;
}.

Record CreateOrderDto : Type := mkCreateOrderDto {
  restaurantId : string;
  tableId : option string;
  items : list OrderItemDto;
  dto_specialInstructions : option string;
}.

(** The price of one unit: the base price plus the modifier of the
    selected variant, when the item names one and the product has it. *)
Definition itemPriceOf (product : Product) (item : OrderItemDto) : Z :=
  match variant item, product_variants product with
  | Some v, Some variants =>
      if negb (String.eqb v "") then
        match find (fun x => String.eqb (variant_name x) v) variants with
        | Some selectedVariant =>
            product_price product
            + match variant_priceModifier selectedVariant with
              | Some m => m
              | None => 0
              end
        | None => product_price product
        end
      else product_price product
  | _, _ => product_price product
  end.

(** The loop over [createOrderDto.items]: the validated items (their
    [orderId] is filled in when they are inserted) and the total. *)
Fixpoint validateItems (restaurantId : string) (items : list OrderItemDto)
    (totalAmount : Z) (validatedItems : list OrderItem)
    : Service (Z * list OrderItem) :=
  match items with
  | [] => ret (totalAmount, validatedItems)
  | item :: rest =>
      do found <- query (fun db =>
        find (fun p => String.eqb (product_id p) (productId item))
             (products db));
      match found with
      | None =>
          throw (NotFoundException
                   ("Product with ID " ++ productId item ++ " not found"))
      | Some product =>
          do _ <- throwIf
                    (negb (String.eqb (product_category_restaurantId product)
                                      restaurantId))
                    (BadRequestException
                       "Product does not belong to this restaurant");
          do _ <- throwIf (negb (product_isAvailable product))
                    (BadRequestException
                       ("Product " ++ String (ascii_of_nat 34) ""
                        ++ product_name product ++ String (ascii_of_nat 34) ""
                        ++ " is currently unavailable"));
          let itemPrice := itemPriceOf product item in
          let itemTotal := itemPrice * quantity item in
          validateItems restaurantId rest (totalAmount + itemTotal)
            (validatedItems ++
             [ {| item_orderId := "";
                  item_productId := productId item;
                  item_variant := variant item;
                  item_quantity := quantity item;
                  item_unitPrice := itemPrice;
                  item_totalPrice := itemTotal;
                  item_specialInstructions := specialInstructions item |} ])
      end
  end.

(** [generateOrderNumber]: the UTC date of [today], a dash, and one
    more than the number of the restaurant's orders created in the
    server-local day of [today], padded to three digits. *)
Definition createdOn (tz today : Z) (restaurantId : string) (o : Order)
    : bool :=
  String.eqb (order_restaurantId o) restaurantId
  && (localMidnight tz today 0 <=? order_createdAt o)
  && (order_createdAt o <? localMidnight tz today 1).

(** [prisma.order.count] over that day. *)
Definition countCreatedOn (tz today : Z) (restaurantId : string) (db : Db)
    : Z :=
  Z.of_nat (List.length (List.filter (createdOn tz today restaurantId)
                                     (orders db))).

Definition generateOrderNumber (tz : Z) (restaurantId : string) (today : Z)
    : Service string :=
  let dateStr := isoDateDigits today in
  do dailyCount <- query (countCreatedOn tz today restaurantId);
  ret (dateStr ++ "-" ++ padStart (String_ (dailyCount + 1)) 3).

Definition withOrderId (id : string) (it : OrderItem) : OrderItem :=
  {| item_orderId := id;
     item_productId := item_productId it;
     item_variant := item_variant it;
     item_quantity := item_quantity it;
     item_unitPrice := item_unitPrice it;
     item_totalPrice := item_totalPrice it;
     item_specialInstructions := item_specialInstructions it |}.

(** [create].  [tz] is the server's time zone, [now] the clock (read
    by [generateOrderNumber] and by the database for [createdAt] and
    [updatedAt]), [newId] the id the database gives the order. *)
Definition create (tz : Z) (createOrderDto : CreateOrderDto)
    (currentUser : User) (now : Z) (newId : string) : Service Order :=
  do found <- query (fun db =>
    find (fun r => String.eqb (restaurant_id r)
                              (restaurantId createOrderDto))
         (restaurants db));
  match found with
  | None =>
      throw (NotFoundException
               ("Restaurant with ID " ++ restaurantId createOrderDto
                ++ " not found"))
  | Some restaurant =>
      do _ <- throwIf (negb (String.eqb (restaurant_status restaurant)
                                        "ACTIVE"))
                (BadRequestException
                   "Restaurant is not currently accepting orders");
      do _ <- match tableId createOrderDto with
              | Some tid =>
                  if String.eqb tid "" then ret tt
                  else
                    do table <- query (fun db =>
                      find (fun t =>
                              String.eqb (table_id t) tid
                              && String.eqb (table_foodcourtId t)
                                   (restaurant_foodcourtId restaurant))
                           (tables db));
                    match table with
                    | None =>
                        throw (NotFoundException
                                 "Table not found in this foodcourt")
                    | Some _ => ret tt
                    end
              | None => ret tt
              end;
      do validated <- validateItems (restaurantId createOrderDto)
                        (items createOrderDto) 0 [];
      do orderNumber <- generateOrderNumber tz (restaurant_id restaurant) now;
      let newOrder :=
        {| order_id := newId;
           order_orderNumber := orderNumber;
           order_status := PENDING;
           order_totalAmount := fst validated;
           order_specialInstructions :=
             dto_specialInstructions createOrderDto;
           order_estimatedTime := None;
           order_restaurantId := restaurantId createOrderDto;
           order_tableId := tableId createOrderDto;
           order_customerId :=
             if Role_eqb (user_role currentUser) CUSTOMER
             then Some (user_id currentUser) else None;
           order_createdAt := now;
           order_updatedAt := now |} in
      do _ <- write (fun db =>
        set_orderItems (set_orders db (orders db ++ [newOrder]))
          (orderItems db ++ map (withOrderId newId) (snd validated)));
      ret newOrder
  end.

Definition validTransitions (s : OrderStatus.t) : list OrderStatus.t :=
  match s with
  | PENDING => [PREPARING; CANCELLED]
  | PREPARING => [READY; CANCELLED]
  | READY => [COMPLETED; CANCELLED]
  | COMPLETED => []
  | CANCELLED => []
  end.

(** [Array.prototype.includes] on a list of statuses. *)
Definition includes (l : list OrderStatus.t) (s : OrderStatus.t) : bool :=
  existsb (OrderStatus.eqb s) l.

Definition validateStatusTransition (currentStatus newStatus : OrderStatus.t)
    : Service unit :=
  throwIf (negb (includes (validTransitions currentStatus) newStatus))
    (BadRequestException
       ("Invalid status transition from " ++ toString currentStatus
        ++ " to " ++ toString newStatus)).

Record UpdateOrderStatusDto : Type := mkUpdateOrderStatusDto {
  status : OrderStatus.t;
  estimatedTime : option Z;
}.

Definition isStaff (r : Role) : bool :=
  match r with
  | SUPERADMIN | RESTAURANT_OWNER | EMPLOYEE => true
  | CUSTOMER => false
  end.

Definition hasId (id : string) (o : Order) : bool :=
  String.eqb (order_id o) id.

Definition applyStatus (dto : UpdateOrderStatusDto) (now : Z) (o : Order)
    : Order :=
  {| order_id := order_id o;
     order_orderNumber := order_orderNumber o;
     order_status := status dto;
     order_totalAmount := order_totalAmount o;
     order_specialInstructions := order_specialInstructions o;
     order_estimatedTime :=
       match estimatedTime dto with
       | Some e => Some e
       | None => order_estimatedTime o
       end;
     order_restaurantId := order_restaurantId o;
     order_tableId := order_tableId o;
     order_customerId := order_customerId o;
     order_createdAt := order_createdAt o;
     order_updatedAt := now |}.

Definition updateStatus (id : string) (updateStatusDto : UpdateOrderStatusDto)
    (currentUser : User) (now : Z) : Service Order :=
  do order <- findOne id currentUser;
  do _ <- validateStatusTransition (order_status (row order))
                              (status updateStatusDto);
  do _ <- throwIf (negb (isStaff (user_role currentUser)))
       (ForbiddenException "Only restaurant staff can update order status");
  do _ <- write (fun db =>
       set_orders db
         (updateWhere (hasId id) (applyStatus updateStatusDto now)
                      (orders db)));
  ret (applyStatus updateStatusDto now (row order)).

Record CancelOrderDto : Type := mkCancelOrderDto {
  reason : string;
  refund : option bool;
}.

(** The [specialInstructions] written by [cancel]; an empty string is
    falsy, like [null]. *)
Definition cancelledInstructions (old : option string) (reason : string)
    : string :=
  match old with
  | Some s =>
      if String.eqb s "" then "CANCELLED: " ++ reason
      else s ++ nl ++ nl ++ "CANCELLED: " ++ reason
  | None => "CANCELLED: " ++ reason
  end.

Definition applyCancel (cancelDto : CancelOrderDto) (now : Z)
    (old : option string) (o : Order) : Order :=
  {| order_id := order_id o;
     order_orderNumber := order_orderNumber o;
     order_status := CANCELLED;
     order_totalAmount := order_totalAmount o;
     order_specialInstructions :=
       Some (cancelledInstructions old (reason cancelDto));
     order_estimatedTime := order_estimatedTime o;
     order_restaurantId := order_restaurantId o;
     order_tableId := order_tableId o;
     order_customerId := order_customerId o;
     order_createdAt := order_createdAt o;
     order_updatedAt := now |}.

(** The value of [prisma.order.update] in [cancel]: the updated row
    with the relations it includes. *)
Definition cancelled (cancelDto : CancelOrderDto) (now : Z)
    (order : OrderWithRelations) : OrderWithRelations :=
  {| row := applyCancel cancelDto now
              (order_specialInstructions (row order)) (row order);
     restaurant := restaurant order;
     payment := payment order |}.

(** [cancel].  The refund branch of the source has an empty body (the
    call to the payment service is commented out), so it is [ret tt]
    on both sides of the test. *)
Definition cancel (id : string) (cancelDto : CancelOrderDto)
    (currentUser : User) (now : Z) : Service OrderWithRelations :=
  do order <- findOne id currentUser;
  do _ <- throwIf (OrderStatus.eqb (order_status (row order)) COMPLETED)
       (BadRequestException "Cannot cancel a completed order");
  do _ <- throwIf (OrderStatus.eqb (order_status (row order)) CANCELLED)
       (BadRequestException "Order is already cancelled");
  do _ <- write (fun db =>
       set_orders db
         (updateWhere (hasId id)
            (applyCancel cancelDto now
               (order_specialInstructions (row order)))
            (orders db)));
  let cancelledOrder := cancelled cancelDto now order in
  do _ <- (if match refund cancelDto with Some true => true | _ => false end
         && match payment cancelledOrder with
            | Some _ => true
            | None => false
            end
      then ret tt
      else ret tt);
  ret cancelledOrder.

End OrdersService.

(** ** JavaScript numbers *)

(** [Math.round]: the nearest integer, a half going towards +infinity. *)
Definition Math_round (x : Q) : Z := Qfloor (x + (1 # 2))%Q.

(** A string is truthy when it is not empty. *)
Definition truthy (s : string) : bool := negb (String.eqb s "").

(** [a || b] on an optional string. *)
Definition orElse (a : option string) (b : string) : string :=
  match a with
  | Some s => if truthy s then s else b
  | None => b
  end.

(** ** PaymentsService (src/src/payments/dto/payment.dto.ts) *)

Module PaymentsService.
Import PaymentStatus PaymentMethod.
Local Open Scope service_scope.

(** What a call to a payment provider comes to: the promise resolves
    with the provider's answer or rejects with an error message. *)
Inductive Response (A : Type) : Type :=
| Resolved (answer : A)
| Rejected (message : string).
Arguments Resolved {A} answer.
Arguments Rejected {A} message.

Record StripePaymentIntent : Type := mkStripePaymentIntent {
  intent_id : string;
  intent_client_secret : string;
}.

Record StripeClient : Type := mkStripeClient {
  paymentIntents_create : Payment -> string -> Response StripePaymentIntent;
  refunds_create : string -> Z -> Response string;
}.

Record YookassaPayment : Type := mkYookassaPayment {
  yk_id : string;
  yk_confirmation_url : string;
  yk_status : string;
}.

(** The service object: its configuration and the outside world it
    talks to.  [stripe] is left undefined by the constructor when no
    secret key is configured. *)
Record Config : Type := mkConfig {
  stripe : option StripeClient;
  yookassaShopId : string;
  yookassaSecretKey : string;
  axios_post_payments : Payment -> string -> Response YookassaPayment;
  axios_post_refunds : string -> Z -> Response string;
}.

(** [private readonly commissionRate: number = 0.05; // 5% commission] *)
Definition commissionRate : Q := 5 # 100.

(** [Math.round(amount * this.commissionRate)].  The product is taken
    exactly.  For an integer amount this is also what the double
    arithmetic gives: the double nearest to 0.05 is 0.05 (1 + 2^-54), so
    the computed product of an amount of the form 20 k + 10 is exactly
    k + 1/2, and any other amount is at least 0.05 away from a half,
    far more than the rounding error of the product. *)
Definition commissionOf (amount : Z) : Z :=
  Math_round (inject_Z amount * commissionRate)%Q.

Record CreatePaymentDto : Type := mkCreatePaymentDto {
  orderId : string;
  amount : Z;
  method : PaymentMethod.t;
  currency : option string;
  customerEmail : option string;
  description : option string;
  returnUrl : option string;
  cancelUrl : option string;
}.

(** A property whose value is [undefined] is dropped when the object
    is stored as JSON. *)
Definition setString (k : string) (v : option string)
    (m : gmap string MetaValue) : gmap string MetaValue :=
  match v with
  | Some s => <[k := MString s]> m
  | None => m
  end.

Definition findOrder (id : string) (db : Db) : option Order :=
  find (fun o => String.eqb (order_id o) id) (orders db).

Definition paymentOf (o : Order) (db : Db) : option Payment :=
  find (fun p => String.eqb (payment_orderId p) (order_id o)) (payments db).

Definition isSome {A : Type} (o : option A) : bool :=
  match o with Some _ => true | None => false end.

Definition hasId (id : string) (p : Payment) : bool :=
  String.eqb (payment_id p) id.

(** [prisma.payment.create]: the row is appended and returned. *)
Definition insertPayment (p : Payment) : Service Payment :=
  fun db => (Ok p, set_payments db (payments db ++ [p])).

(** [prisma.payment.update({ where: { id }, data })] with [data]
    applied by [f]; returns the updated row [f p]. *)
Definition updatePayment (p : Payment) (f : Payment -> Payment)
    : Service Payment :=
  fun db =>
    (Ok (f p),
     set_payments db (updateWhere (hasId (payment_id p)) f (payments db))).

Definition withExternal (ext url : string) (md : gmap string MetaValue)
    (p : Payment) : Payment :=
  {| payment_id := payment_id p;
     payment_orderId := payment_orderId p;
     payment_amount := payment_amount p;
     payment_currency := payment_currency p;
     payment_method := payment_method p;
     payment_status := payment_status p;
     payment_commission := payment_commission p;
     payment_commissionAmount := payment_commissionAmount p;
     payment_netAmount := payment_netAmount p;
     payment_provider := payment_provider p;
     payment_externalPaymentId := Some ext;
     payment_paymentUrl := Some url;
     payment_metadata := md |}.

Definition withStatus (s : PaymentStatus.t) (md : gmap string MetaValue)
    (p : Payment) : Payment :=
  {| payment_id := payment_id p;
     payment_orderId := payment_orderId p;
     payment_amount := payment_amount p;
     payment_currency := payment_currency p;
     payment_method := payment_method p;
     payment_status := s;
     payment_commission := payment_commission p;
     payment_commissionAmount := payment_commissionAmount p;
     payment_netAmount := payment_netAmount p;
     payment_provider := payment_provider p;
     payment_externalPaymentId := payment_externalPaymentId p;
     payment_paymentUrl := payment_paymentUrl p;
     payment_metadata := md |}.

Definition descriptionFor (dto : CreatePaymentDto) (order : Order) : string :=
  orElse (description dto) ("Payment for order " ++ order_orderNumber order).

Definition processStripePayment (cfg : Config) (payment : Payment)
    (createPaymentDto : CreatePaymentDto) (order : Order)
    : Service Payment :=
  match stripe cfg with
  | None => throw (BadRequestException "Stripe is not configured")
  | Some client =>
      match paymentIntents_create client payment
              (descriptionFor createPaymentDto order) with
      | Rejected message =>
          throw (BadRequestException ("Stripe payment failed: " ++ message))
      | Resolved paymentIntent =>
          updatePayment payment
            (withExternal (intent_id paymentIntent)
               ("https://checkout.stripe.com/pay/"
                ++ intent_client_secret paymentIntent)
               (<["clientSecret" :=
                    MString (intent_client_secret paymentIntent)]>
                  (<["stripePaymentIntentId" :=
                       MString (intent_id paymentIntent)]>
                     (payment_metadata payment))))
      end
  end.

Definition processYookassaPayment (cfg : Config) (payment : Payment)
    (createPaymentDto : CreatePaymentDto) (order : Order)
    : Service Payment :=
  if negb (truthy (yookassaShopId cfg))
     || negb (truthy (yookassaSecretKey cfg))
  then throw (BadRequestException "YooKassa is not configured")
  else
    match axios_post_payments cfg payment
            (descriptionFor createPaymentDto order) with
    | Rejected message =>
        throw (BadRequestException ("YooKassa payment failed: " ++ message))
    | Resolved yookassaPayment =>
        updatePayment payment
          (withExternal (yk_id yookassaPayment)
             (yk_confirmation_url yookassaPayment)
             (<["yookassaStatus" := MString (yk_status yookassaPayment)]>
                (<["yookassaPaymentId" := MString (yk_id yookassaPayment)]>
                   (payment_metadata payment))))
    end.

Definition create (cfg : Config) (createPaymentDto : CreatePaymentDto)
    (currentUser : User) (newId : string) : Service Payment :=
  do found <- query (findOrder (orderId createPaymentDto));
  match found with
  | None =>
      throw (NotFoundException
               ("Order with ID " ++ orderId createPaymentDto ++ " not found"))
  | Some order =>
      do existing <- query (paymentOf order);
      do _ <- throwIf (isSome existing)
                (BadRequestException "Order already has a payment");
      do _ <- throwIf (Role_eqb (user_role currentUser) CUSTOMER
                       && isNot (order_customerId order)
                                (user_id currentUser))
                (ForbiddenException
                   "You can only create payments for your own orders");
      let commissionAmount := commissionOf (amount createPaymentDto) in
      let netAmount := amount createPaymentDto - commissionAmount in
      do payment <- insertPayment
        {| payment_id := newId;
           payment_orderId := orderId createPaymentDto;
           payment_amount := amount createPaymentDto;
           payment_currency := orElse (currency createPaymentDto) "USD";
           payment_method := method createPaymentDto;
           payment_status := PENDING;
           payment_commission := commissionAmount;
           payment_commissionAmount := commissionAmount;
           payment_netAmount := netAmount;
           payment_provider := "stripe";
           payment_externalPaymentId := None;
           payment_paymentUrl := None;
           payment_metadata :=
             setString "cancelUrl" (cancelUrl createPaymentDto)
               (setString "returnUrl" (returnUrl createPaymentDto)
                  (setString "description" (description createPaymentDto)
                     (setString "customerEmail"
                        (customerEmail createPaymentDto) ∅))) |};
      match method createPaymentDto with
      | STRIPE => processStripePayment cfg payment createPaymentDto order
      | YOOKASSA => processYookassaPayment cfg payment createPaymentDto order
      | CASH | CARD_TERMINAL => ret payment
      end
  end.

Definition isStaff (r : Role) : bool :=
  match r with
  | SUPERADMIN | RESTAURANT_OWNER | EMPLOYEE => true
  | CUSTOMER => false
  end.

Record CashPaymentDto : Type := mkCashPaymentDto {
  cash_orderId : string;
  amountReceived : Z;
  changeGiven : option Z;
  processedBy : option string;
}.

(** [changeGiven || 0] *)
Definition orZero (z : option Z) : Z :=
  match z with Some n => n | None => 0 end.

Definition processCashPayment (cashPaymentDto : CashPaymentDto)
    (currentUser : User) (now : Z) (newId : string) : Service Payment :=
  do _ <- throwIf (negb (isStaff (user_role currentUser)))
            (ForbiddenException
               "Only restaurant staff can process cash payments");
  do found <- query (findOrder (cash_orderId cashPaymentDto));
  match found with
  | None => throw (NotFoundException "Order not found")
  | Some order =>
      do existing <- query (paymentOf order);
      do _ <- throwIf (isSome existing)
                (BadRequestException "Order already has a payment");
      let commissionAmount := commissionOf (order_totalAmount order) in
      let netAmount := order_totalAmount order - commissionAmount in
      insertPayment
        {| payment_id := newId;
           payment_orderId := cash_orderId cashPaymentDto;
           payment_amount := order_totalAmount order;
           payment_currency := "USD";
           payment_method := CASH;
           payment_status := COMPLETED;
           payment_commission := commissionAmount;
           payment_commissionAmount := commissionAmount;
           payment_netAmount := netAmount;
           payment_provider := "cash";
           payment_externalPaymentId := None;
           payment_paymentUrl := None;
           payment_metadata :=
             <["processedAt" := MInstant now]>
               (<["processedBy" :=
                    MString (orElse (processedBy cashPaymentDto)
                                    (user_name currentUser))]>
                  (<["changeGiven" :=
                       MNumber (orZero (changeGiven cashPaymentDto))]>
                     (<["amountReceived" :=
                          MNumber (amountReceived cashPaymentDto)]> ∅))) |}
  end.

Record CardTerminalPaymentDto : Type := mkCardTerminalPaymentDto {
  terminal_orderId : string;
  terminalTransactionId : string;
  terminalId : string;
  cardLast4 : option string;
  cardType : option string;
}.

Definition processCardTerminalPayment
    (terminalPaymentDto : CardTerminalPaymentDto)
    (currentUser : User) (now : Z) (newId : string) : Service Payment :=
  do _ <- throwIf (negb (isStaff (user_role currentUser)))
            (ForbiddenException
               "Only restaurant staff can process terminal payments");
  do found <- query (findOrder (terminal_orderId terminalPaymentDto));
  match found with
  | None => throw (NotFoundException "Order not found")
  | Some order =>
      do existing <- query (paymentOf order);
      do _ <- throwIf (isSome existing)
                (BadRequestException "Order already has a payment");
      let commissionAmount := commissionOf (order_totalAmount order) in
      let netAmount := order_totalAmount order - commissionAmount in
      insertPayment
        {| payment_id := newId;
           payment_orderId := terminal_orderId terminalPaymentDto;
           payment_amount := order_totalAmount order;
           payment_currency := "USD";
           payment_method := CARD_TERMINAL;
           payment_status := COMPLETED;
           payment_commission := commissionAmount;
           payment_commissionAmount := commissionAmount;
           payment_netAmount := netAmount;
           payment_provider := "terminal";
           payment_externalPaymentId :=
             Some (terminalTransactionId terminalPaymentDto);
           payment_paymentUrl := None;
           payment_metadata :=
             <["processedAt" := MInstant now]>
               (<["processedBy" := MString (user_name currentUser)]>
                  (setString "cardType" (cardType terminalPaymentDto)
                     (setString "cardLast4" (cardLast4 terminalPaymentDto)
                        (<["terminalTransactionId" :=
                             MString
                               (terminalTransactionId terminalPaymentDto)]>
                           (<["terminalId" :=
                                MString (terminalId terminalPaymentDto)]>
                              ∅))))) |}
  end.

(** *** Webhooks *)

(** [event.data.object] (Stripe) or [event.object] (YooKassa): the
    provider's payment object, of which the handlers read the id and
    the failure reason, and which they store whole. *)
Record ProviderObject : Type := mkProviderObject {
  object_id : string;
  object_raw : string;
  object_failureReason : option string;
}.

(** The parsed payload: [kind] is [event.type] for Stripe and
    [event.event] for YooKassa. *)
Record WebhookPayload : Type := mkWebhookPayload {
  kind : string;
  object : ProviderObject;
}.

Record PaymentWebhookDto : Type := mkPaymentWebhookDto {
  provider : string;
  payload : WebhookPayload;
}.

Definition findByExternalId (ext : string) (db : Db) : option Payment :=
  find (fun p =>
          match payment_externalPaymentId p with
          | Some e => String.eqb e ext
          | None => false
          end)
       (payments db).

(** The four handlers differ in the status they write and in the
    metadata keys; each is written out below. *)
Definition handleStripePaymentSuccess (paymentIntent : ProviderObject)
    (now : Z) : Service unit :=
  do found <- query (findByExternalId (object_id paymentIntent));
  match found with
  | Some payment =>
      do _ <- updatePayment payment
        (withStatus COMPLETED
           (<["completedAt" := MInstant now]>
              (<["stripePaymentIntent" :=
                   MProviderObject (object_raw paymentIntent)]>
                 (payment_metadata payment))));
      ret tt
  | None => ret tt
  end.

Definition handleStripePaymentFailed (paymentIntent : ProviderObject)
    (now : Z) : Service unit :=
  do found <- query (findByExternalId (object_id paymentIntent));
  match found with
  | Some payment =>
      do _ <- updatePayment payment
        (withStatus FAILED
           (<["failureReason" :=
                MString (orElse (object_failureReason paymentIntent)
                                "Payment failed")]>
              (<["failedAt" := MInstant now]>
                 (<["stripePaymentIntent" :=
                      MProviderObject (object_raw paymentIntent)]>
                    (payment_metadata payment)))));
      ret tt
  | None => ret tt
  end.

Definition handleYookassaPaymentSuccess (yookassaPayment : ProviderObject)
    (now : Z) : Service unit :=
  do found <- query (findByExternalId (object_id yookassaPayment));
  match found with
  | Some payment =>
      do _ <- updatePayment payment
        (withStatus COMPLETED
           (<["completedAt" := MInstant now]>
              (<["yookassaPayment" :=
                   MProviderObject (object_raw yookassaPayment)]>
                 (payment_metadata payment))));
      ret tt
  | None => ret tt
  end.

Definition handleYookassaPaymentFailed (yookassaPayment : ProviderObject)
    (now : Z) : Service unit :=
  do found <- query (findByExternalId (object_id yookassaPayment));
  match found with
  | Some payment =>
      do _ <- updatePayment payment
        (withStatus FAILED
           (<["failureReason" :=
                MString (orElse (object_failureReason yookassaPayment)
                                "Payment failed")]>
              (<["failedAt" := MInstant now]>
                 (<["yookassaPayment" :=
                      MProviderObject (object_raw yookassaPayment)]>
                    (payment_metadata payment)))));
      ret tt
  | None => ret tt
  end.

Definition handleStripeWebhook (webhookDto : PaymentWebhookDto) (now : Z)
    : Service unit :=
  let event := payload webhookDto in
  if String.eqb (kind event) "payment_intent.succeeded"
  then handleStripePaymentSuccess (object event) now
  else if String.eqb (kind event) "payment_intent.payment_failed"
  then handleStripePaymentFailed (object event) now
  else ret tt.

Definition handleYookassaWebhook (webhookDto : PaymentWebhookDto) (now : Z)
    : Service unit :=
  let event := payload webhookDto in
  if String.eqb (kind event) "payment.succeeded"
  then handleYookassaPaymentSuccess (object event) now
  else if String.eqb (kind event) "payment.canceled"
  then handleYookassaPaymentFailed (object event) now
  else ret tt.

Definition handleWebhook (webhookDto : PaymentWebhookDto) (now : Z)
    : Service unit :=
  if String.eqb (provider webhookDto) "stripe"
  then handleStripeWebhook webhookDto now
  else if String.eqb (provider webhookDto) "yookassa"
  then handleYookassaWebhook webhookDto now
  else throw (BadRequestException "Unknown payment provider").

(** The status an event makes the handlers write, read off the
    switches of [handleWebhook], [handleStripeWebhook] and
    [handleYookassaWebhook]; [None] for an event they ignore. *)
Definition writes (webhookDto : PaymentWebhookDto)
    : option PaymentStatus.t :=
  let event := payload webhookDto in
  if String.eqb (provider webhookDto) "stripe" then
    if String.eqb (kind event) "payment_intent.succeeded"
    then Some COMPLETED
    else if String.eqb (kind event) "payment_intent.payment_failed"
    then Some FAILED
    else None
  else if String.eqb (provider webhookDto) "yookassa" then
    if String.eqb (kind event) "payment.succeeded" then Some COMPLETED
    else if String.eqb (kind event) "payment.canceled" then Some FAILED
    else None
  else None.



(** *** Refund *)

Record RefundPaymentDto : Type := mkRefundPaymentDto {
  refund_amount : option Z;
  refund_reason : string;
}.

(** [refundDto.amount || payment.amount] *)
Definition refundAmountOf (refundDto : RefundPaymentDto) (payment : Payment)
    : Z :=
  match refund_amount refundDto with
  | Some a => if Z.eqb a 0 then payment_amount payment else a
  | None => payment_amount payment
  end.

Definition status_eqb (a b : PaymentStatus.t) : bool :=
  match a, b with
  | PENDING, PENDING | COMPLETED, COMPLETED
  | FAILED, FAILED | REFUNDED, REFUNDED => true
  | _, _ => false
  end.

(** The restaurant owner of the payment's order, through the two
    required relations [payment.order.restaurant]. *)
Definition ownerOf (payment : Payment) (db : Db) : option string :=
  match findOrder (payment_orderId payment) db with
  | Some o =>
      option_map restaurant_ownerId
        (find (fun r => String.eqb (restaurant_id r) (order_restaurantId o))
              (restaurants db))
  | None => None
  end.

(** The provider call of [refund]'s switch: the refund id when a call
    was made, [undefined] when the method needs none or the provider
    is not configured. *)
Definition callRefundProvider (cfg : Config) (payment : Payment)
    (refundAmount : Z) : Response (option string) :=
  match payment_method payment, payment_externalPaymentId payment with
  | STRIPE, Some ext =>
      match stripe cfg with
      | Some client =>
          if truthy ext then
            match refunds_create client ext refundAmount with
            | Resolved rid => Resolved (Some rid)
            | Rejected m => Rejected m
            end
          else Resolved None
      | None => Resolved None
      end
  | YOOKASSA, Some ext =>
      if truthy (yookassaShopId cfg) && truthy (yookassaSecretKey cfg)
         && truthy ext
      then
        match axios_post_refunds cfg ext refundAmount with
        | Resolved rid => Resolved (Some rid)
        | Rejected m => Rejected m
        end
      else Resolved None
  | _, _ => Resolved None
  end.

Definition refund (cfg : Config) (id : string) (refundDto : RefundPaymentDto)
    (currentUser : User) (now : Z) : Service Payment :=
  do found <- query (fun db => find (hasId id) (payments db));
  match found with
  | None =>
      throw (NotFoundException ("Payment with ID " ++ id ++ " not found"))
  | Some payment =>
      do _ <- throwIf (negb (status_eqb (payment_status payment) COMPLETED))
                (BadRequestException "Can only refund completed payments");
      do owner <- query (ownerOf payment);
      do _ <- (if Role_eqb (user_role currentUser) RESTAURANT_OWNER
               then match owner with
                    | None => throw (TypeError "Cannot read properties of null")
                    | Some ownerId =>
                        throwIf (negb (String.eqb ownerId
                                                  (user_id currentUser)))
                          (ForbiddenException
                             "You can only refund payments from your own restaurants")
                    end
               else ret tt);
      let refundAmount := refundAmountOf refundDto payment in
      match callRefundProvider cfg payment refundAmount with
      | Rejected message =>
          throw (BadRequestException ("Refund failed: " ++ message))
      | Resolved externalRefundId =>
          updatePayment payment
            (withStatus REFUNDED
               (<["refund" :=
                    MRefund refundAmount (refund_reason refundDto)
                            externalRefundId (user_name currentUser) now]>
                  (payment_metadata payment)))
      end
  end.

End PaymentsService.

(** ** EmployeesService (src/src/employees/employees.service.ts) *)

Module EmployeesService.
Import ShiftStatus.
Local Open Scope service_scope.

(** The employee with the owner of its restaurant, as the queries
    include it.  The relation is required: a missing restaurant can
    only be a broken foreign key, and reading through it throws. *)
Record EmployeeWithRestaurant : Type := mkEmployeeWithRestaurant {
  employee : Employee;
  restaurant_owner : option string;
}.

Definition includeRestaurant (db : Db) (e : Employee)
    : EmployeeWithRestaurant :=
  {| employee := e;
     restaurant_owner :=
       option_map restaurant_ownerId
         (find (fun r => String.eqb (restaurant_id r)
                                    (employee_restaurantId e))
               (restaurants db)) |}.

Definition findEmployee (id : string) (db : Db)
    : option EmployeeWithRestaurant :=
  option_map (includeRestaurant db)
    (find (fun e => String.eqb (employee_id e) id) (employees db)).

(** [role === RESTAURANT_OWNER && owner !== currentUser.id] *)
Definition ownerMismatch (currentUser : User) (e : EmployeeWithRestaurant)
    (message : string) : Service unit :=
  if Role_eqb (user_role currentUser) RESTAURANT_OWNER then
    match restaurant_owner e with
    | None => throw (TypeError "Cannot read properties of null")
    | Some ownerId =>
        throwIf (negb (String.eqb ownerId (user_id currentUser)))
                (ForbiddenException message)
    end
  else ret tt.

(** [role === EMPLOYEE && employee.userId !== currentUser.id] *)
Definition selfMismatch (currentUser : User) (e : EmployeeWithRestaurant)
    (message : string) : Service unit :=
  throwIf (Role_eqb (user_role currentUser) EMPLOYEE
           && isNot (employee_userId (employee e)) (user_id currentUser))
          (ForbiddenException message).

Definition findOne (id : string) (currentUser : User)
    : Service EmployeeWithRestaurant :=
  do found <- query (findEmployee id);
  match found with
  | None =>
      throw (NotFoundException ("Employee with ID " ++ id ++ " not found"))
  | Some e =>
      do _ <- ownerMismatch currentUser e
                "You can only access employees from your own restaurants";
      do _ <- selfMismatch currentUser e
                "You can only access your own employee profile";
      ret e
  end.

Record CreateShiftDto : Type := mkCreateShiftDto {
  employeeId : string;
  startTime : Z;
  endTime : Z;
  breakDuration : option Z;
  notes : option string;
}.

Definition isOpen (s : ShiftStatus.t) : bool :=
  match s with
  | SCHEDULED | ACTIVE => true
  | COMPLETED | CANCELLED => false
  end.

(** The three-way test of the raw SQL query, for a stored shift
    against the requested [startTime] and [endTime]. *)
Definition timesOverlap (s : Shift) (startTime endTime : Z) : bool :=
  ((shift_startTime s <=? startTime) && (shift_endTime s >? startTime))
  || ((shift_startTime s <? endTime) && (shift_endTime s >=? endTime))
  || ((shift_startTime s >=? startTime) && (shift_endTime s <=? endTime)).

(** The WHERE clause of the overlap query. *)
Definition overlapping (employeeId : string) (startTime endTime : Z)
    (s : Shift) : bool :=
  String.eqb (shift_employeeId s) employeeId
  && isOpen (shift_status s)
  && timesOverlap s startTime endTime.

(** [SELECT id ... LIMIT 1] *)
Definition overlappingShift (employeeId : string) (startTime endTime : Z)
    (db : Db) : list string :=
  firstn 1 (map shift_id
                (List.filter (overlapping employeeId startTime endTime)
                        (shifts db))).

Definition createShift (createShiftDto : CreateShiftDto) (currentUser : User)
    (newId : string) : Service Shift :=
  do _ <- findOne (employeeId createShiftDto) currentUser;
  do _ <- throwIf (startTime createShiftDto >=? endTime createShiftDto)
            (BadRequestException "Start time must be before end time");
  do rows <- query (overlappingShift (employeeId createShiftDto)
                      (startTime createShiftDto) (endTime createShiftDto));
  do _ <- throwIf (0 <? Z.of_nat (List.length rows))
            (BadRequestException "Employee has overlapping shift scheduled");
  let shift :=
    {| shift_id := newId;
       shift_employeeId := employeeId createShiftDto;
       shift_startTime := startTime createShiftDto;
       shift_endTime := endTime createShiftDto;
       shift_actualStartTime := None;
       shift_actualEndTime := None;
       shift_breakDuration :=
         Some (match breakDuration createShiftDto with
               | Some b => b
               | None => 0
               end);
       shift_notes := notes createShiftDto;
       shift_status := SCHEDULED |} in
  do _ <- write (fun db => set_shifts db (shifts db ++ [shift]));
  ret shift.

Record ClockOutDto : Type := mkClockOutDto {
  shiftId : string;
  clockOut_notes : option string;
}.

(** What [clockOut] returns: the completed shift with the two
    calculated fields added. *)
Record ClockOutResult : Type := mkClockOutResult {
  completedShift : Shift;
  hoursWorked : Q;
  calculatedPay : option Q;
}.

Definition status_eqb (a b : ShiftStatus.t) : bool :=
  match a, b with
  | SCHEDULED, SCHEDULED | ACTIVE, ACTIVE
  | COMPLETED, COMPLETED | CANCELLED, CANCELLED => true
  | _, _ => false
  end.

(** [shift.actualStartTime || shift.startTime] *)
Definition startOf (s : Shift) : Z :=
  match shift_actualStartTime s with
  | Some t => t
  | None => shift_startTime s
  end.

(** [(now.getTime() - startTime.getTime()) / (1000 * 60 * 60)] *)
Definition hoursBetween (startTime now : Z) : Q :=
  (inject_Z (now - startTime) / inject_Z (1000 * 60 * 60))%Q.

(** [Math.max(0, hoursWorked - (shift.breakDuration || 0) / 60)] *)
Definition adjustedHoursOf (s : Shift) (now : Z) : Q :=
  Qmax 0 (hoursBetween (startOf s) now
          - inject_Z (match shift_breakDuration s with
                      | Some b => b
                      | None => 0
                      end) / inject_Z 60)%Q.

(** [hourlyWage ? adjustedHours * (hourlyWage / 100) : null]; a wage
    of zero is falsy, like [null]. *)
Definition calculatedPayOf (hourlyWage : option Z) (adjustedHours : Q)
    : option Q :=
  match hourlyWage with
  | Some w =>
      if Z.eqb w 0 then None
      else Some (adjustedHours * (inject_Z w / inject_Z 100))%Q
  | None => None
  end.

Definition clockOutNotes (old : option string) (dto : ClockOutDto) : string :=
  let line := "Clocked out: " ++ orElse (clockOut_notes dto) "No notes" in
  match old with
  | Some s => if truthy s then s ++ nl ++ line else line
  | None => line
  end.

Definition complete (dto : ClockOutDto) (now : Z) (old : option string)
    (s : Shift) : Shift :=
  {| shift_id := shift_id s;
     shift_employeeId := shift_employeeId s;
     shift_startTime := shift_startTime s;
     shift_endTime := shift_endTime s;
     shift_actualStartTime := shift_actualStartTime s;
     shift_actualEndTime := Some now;
     shift_breakDuration := shift_breakDuration s;
     shift_notes := Some (clockOutNotes old dto);
     shift_status := COMPLETED |}.

Definition clockOut (clockOutDto : ClockOutDto) (currentUser : User)
    (now : Z) : Service ClockOutResult :=
  do found <- query (fun db =>
    find (fun s => String.eqb (shift_id s) (shiftId clockOutDto))
         (shifts db));
  match found with
  | None => throw (NotFoundException "Shift not found")
  | Some shift =>
      do emp <- query (findEmployee (shift_employeeId shift));
      match emp with
      | None => throw (TypeError "Cannot read properties of null")
      | Some e =>
          do _ <- selfMismatch currentUser e
                    "You can only clock out from your own shifts";
          do _ <- ownerMismatch currentUser e
                    "You can only manage shifts in your own restaurants";
          do _ <- throwIf (negb (status_eqb (shift_status shift) ACTIVE))
                    (BadRequestException
                       "Can only clock out from active shifts");
          let adjustedHours := adjustedHoursOf shift now in
          do _ <- write (fun db =>
            set_shifts db
              (updateWhere
                 (fun s => String.eqb (shift_id s) (shiftId clockOutDto))
                 (complete clockOutDto now (shift_notes shift))
                 (shifts db)));
          ret {| completedShift :=
                   complete clockOutDto now (shift_notes shift) shift;
                 hoursWorked := adjustedHours;
                 calculatedPay :=
                   calculatedPayOf (employee_hourlyWage (employee e))
                                   adjustedHours |}
      end
  end.

(** *** Clocking in *)

Record ClockInDto : Type := mkClockInDto {
  clockIn_employeeId : string;
  clockIn_notes : option string;
}.

Definition clockInLine (dto : ClockInDto) : string :=
  "Clocked in: " ++ orElse (clockIn_notes dto) "No notes".

(** The data written on a scheduled shift that is clocked into. *)
Definition activate (dto : ClockInDto) (now : Z) (old : option string)
    (s : Shift) : Shift :=
  {| shift_id := shift_id s;
     shift_employeeId := shift_employeeId s;
     shift_startTime := shift_startTime s;
     shift_endTime := shift_endTime s;
     shift_actualStartTime := Some now;
     shift_actualEndTime := shift_actualEndTime s;
     shift_breakDuration := shift_breakDuration s;
     shift_notes :=
       Some (match old with
             | Some n => if truthy n then n ++ nl ++ clockInLine dto
                         else clockInLine dto
             | None => clockInLine dto
             end);
     shift_status := ACTIVE |}.

(** [where: { employeeId, status: 'ACTIVE' }] *)
Definition isActiveOf (employeeId : string) (s : Shift) : bool :=
  String.eqb (shift_employeeId s) employeeId
  && status_eqb (shift_status s) ACTIVE.

(** [where: { employeeId, status: 'SCHEDULED',
              startTime: { gte: todayStart, lt: todayEnd } }], the day
    being the server-local day of [now]. *)
Definition isScheduledToday (tz now : Z) (employeeId : string) (s : Shift)
    : bool :=
  String.eqb (shift_employeeId s) employeeId
  && status_eqb (shift_status s) SCHEDULED
  && (localMidnight tz now 0 <=? shift_startTime s)
  && (shift_startTime s <? localMidnight tz now 1).

(** [endOfDay.setHours(23, 59, 59, 999)] *)
Definition endOfDay (tz now : Z) : Z :=
  localMidnight tz now 0 + (23 * 3600000 + 59 * 60000 + 59 * 1000 + 999).

(** [clockIn].  [tz] is the server's time zone.  The shift created when
    none is scheduled is given no break duration by the method; it is
    modelled as absent, which [clockOut] reads as 0. *)
Definition clockIn (tz : Z) (clockInDto : ClockInDto) (currentUser : User)
    (now : Z) (newId : string) : Service Shift :=
  do _ <- findOne (clockIn_employeeId clockInDto) currentUser;
  do activeShift <- query (fun db =>
    find (isActiveOf (clockIn_employeeId clockInDto)) (shifts db));
  do _ <- throwIf (match activeShift with Some _ => true | None => false end)
            (BadRequestException "Employee is already clocked in");
  do scheduledShift <- query (fun db =>
    find (isScheduledToday tz now (clockIn_employeeId clockInDto))
         (shifts db));
  match scheduledShift with
  | Some shift =>
      do _ <- write (fun db =>
        set_shifts db
          (updateWhere (fun s => String.eqb (shift_id s) (shift_id shift))
             (activate clockInDto now (shift_notes shift))
             (shifts db)));
      ret (activate clockInDto now (shift_notes shift) shift)
  | None =>
      let shift :=
        {| shift_id := newId;
           shift_employeeId := clockIn_employeeId clockInDto;
           shift_startTime := now;
           shift_endTime := endOfDay tz now;
           shift_actualStartTime := Some now;
           shift_actualEndTime := None;
           shift_breakDuration := None;
           shift_notes :=
             Some ("Unscheduled shift. " ++ clockInLine clockInDto);
           shift_status := ACTIVE |} in
      do _ <- write (fun db => set_shifts db (shifts db ++ [shift]));
      ret shift
  end.

(** *** Invariants of the shifts table *)

(** Every shift starts before it ends. *)
Definition wellFormed (ss : list Shift) : Prop :=
  Forall (fun s => shift_startTime s < shift_endTime s) ss.

(** Two shifts clash when they are Scheduled or Active shifts of one
    employee whose half-open intervals share an instant. *)
Definition clash (a b : Shift) : Prop :=
  shift_employeeId a = shift_employeeId b
  /\ isOpen (shift_status a) = true
  /\ isOpen (shift_status b) = true
  /\ exists t, (shift_startTime a <= t < shift_endTime a)
               /\ (shift_startTime b <= t < shift_endTime b).

(** No two rows of the table clash. *)
Definition noClash (ss : list Shift) : Prop :=
  ForallOrdPairs (fun a b => ~ clash a b) ss.

(** The number of Active shifts of an employee. *)
Definition activeCount (employeeId : string) (db : Db) : nat :=
  List.length (List.filter (isActiveOf employeeId) (shifts db)).

(** *** Invite links *)

Module InviteLinkStatus.
Inductive t : Type := ACTIVE | USED | EXPIRED | REVOKED.
Definition eqb (a b : t) : bool :=
  match a, b with
  | ACTIVE, ACTIVE | USED, USED | EXPIRED, EXPIRED | REVOKED, REVOKED =>
      true
  | _, _ => false
  end.
End InviteLinkStatus.

Module EmployeeRole.
Inductive t : Type := MANAGER | CASHIER | COOK | WAITER | CLEANER.
End EmployeeRole.

Record InviteLink : Type := mkInviteLink {
  invite_id : string;
  invite_token : string;
  invite_role : EmployeeRole.t;
  invite_status : InviteLinkStatus.t;
  invite_expiresAt : Z;
  invite_hourlyWage : option Z;
  invite_notes : option string;
  invite_maxUses : Z;
  invite_usedCount : Z;
  invite_restaurantId : string;
  invite_createdBy : string;
}.

(** The database together with the invite link table, which the
    methods below are the only ones to use. *)
Record Store : Type := mkStore {
  store_db : Db;
  inviteLinks : list InviteLink;
}.

Definition Action (A : Type) : Type := Store -> Result A * Store.

Definition set_employees (db : Db) (es : list Employee) : Db :=
  mkDb (restaurants db) (tables db) (products db) (orders db)
       (orderItems db) (payments db) es (shifts db).

Definition findRestaurant (restaurantId : string) (db : Db)
    : option Restaurant :=
  find (fun r => String.eqb (restaurant_id r) restaurantId) (restaurants db).

(** [verifyRestaurantAccess] *)
Definition verifyRestaurantAccess (restaurantId : string)
    (currentUser : User) : Service unit :=
  if Role_eqb (user_role currentUser) SUPERADMIN then ret tt
  else
    do restaurant <- query (findRestaurant restaurantId);
    match restaurant with
    | None =>
        throw (NotFoundException
                 ("Restaurant with ID " ++ restaurantId ++ " not found"))
    | Some r =>
        throwIf (Role_eqb (user_role currentUser) RESTAURANT_OWNER
                 && negb (String.eqb (restaurant_ownerId r)
                                     (user_id currentUser)))
                (ForbiddenException
                   "You can only access your own restaurants")
    end.

(** [expiresAt] is the date the DTO's string denotes. *)
Record CreateInviteLinkDto : Type := mkCreateInviteLinkDto {
  invite_dto_restaurantId : string;
  invite_dto_role : EmployeeRole.t;
  invite_dto_expiresAt : Z;
  invite_dto_hourlyWage : option Z;
  invite_dto_notes : option string;
  invite_dto_maxUses : option Z;
}.

Definition newInviteLink (dto : CreateInviteLinkDto) (currentUser : User)
    (token newId : string) : InviteLink :=
  {| invite_id := newId;
     invite_token := token;
     invite_role := invite_dto_role dto;
     invite_status := InviteLinkStatus.ACTIVE;
     invite_expiresAt := invite_dto_expiresAt dto;
     invite_hourlyWage := invite_dto_hourlyWage dto;
     invite_notes := invite_dto_notes dto;
     invite_maxUses := match invite_dto_maxUses dto with
                       | Some n => n
                       | None => 1
                       end;
     invite_usedCount := 0;
     invite_restaurantId := invite_dto_restaurantId dto;
     invite_createdBy := user_id currentUser |}.

(** [createInviteLink].  [token] is the 32 random bytes in hex and
    [newId] the id the database gives the row. *)
Definition createInviteLink (createInviteLinkDto : CreateInviteLinkDto)
    (currentUser : User) (token newId : string) : Action InviteLink :=
  fun st =>
    match verifyRestaurantAccess
            (invite_dto_restaurantId createInviteLinkDto) currentUser
            (store_db st) with
    | (Throw e, _) => (Throw e, st)
    | (Ok _, _) =>
        let inviteLink :=
          newInviteLink createInviteLinkDto currentUser token newId in
        (Ok inviteLink,
         mkStore (store_db st) (inviteLinks st ++ [inviteLink]))
    end.

Record UseInviteLinkDto : Type := mkUseInviteLinkDto {
  use_token : string;
  use_name : string;
}.

(** [where: { userId: currentUser.id, restaurantId }] *)
Definition employedAt (userId restaurantId : string) (e : Employee) : bool :=
  match employee_userId e with
  | Some uid => String.eqb uid userId
  | None => false
  end
  && String.eqb (employee_restaurantId e) restaurantId.

(** The data of the update that records a use of [inviteLink]: the
    count is incremented in the row, the status is computed from the
    link as it was read. *)
Definition recordUse (inviteLink : InviteLink) (row : InviteLink)
    : InviteLink :=
  {| invite_id := invite_id row;
     invite_token := invite_token row;
     invite_role := invite_role row;
     invite_status :=
       if invite_usedCount inviteLink + 1 >=? invite_maxUses inviteLink
       then InviteLinkStatus.USED
       else invite_status inviteLink;
     invite_expiresAt := invite_expiresAt row;
     invite_hourlyWage := invite_hourlyWage row;
     invite_notes := invite_notes row;
     invite_maxUses := invite_maxUses row;
     invite_usedCount := invite_usedCount row + 1;
     invite_restaurantId := invite_restaurantId row;
     invite_createdBy := invite_createdBy row |}.

(** [useInviteLink].  Of the employee that is created the columns of
    [Employee] are kept; the phone, e-mail, role and active flag that
    are stored with it are read by none of the methods modelled here.
    The log line after the transaction reads the name of the link's
    restaurant, through a required relation. *)
Definition useInviteLink (useInviteLinkDto : UseInviteLinkDto)
    (currentUser : User) (now : Z) (newId : string) : Action Employee :=
  fun st =>
    match find (fun l => String.eqb (invite_token l)
                                    (use_token useInviteLinkDto))
               (inviteLinks st) with
    | None => (Throw (NotFoundException "Invalid invite link"), st)
    | Some inviteLink =>
        if negb (InviteLinkStatus.eqb (invite_status inviteLink)
                                      InviteLinkStatus.ACTIVE)
        then (Throw (BadRequestException "Invite link is no longer active"),
              st)
        else if now >? invite_expiresAt inviteLink
        then (Throw (BadRequestException "Invite link has expired"), st)
        else if invite_usedCount inviteLink >=? invite_maxUses inviteLink
        then (Throw (BadRequestException
                       "Invite link has reached maximum uses"), st)
        else
          match find (employedAt (user_id currentUser)
                                 (invite_restaurantId inviteLink))
                     (employees (store_db st)) with
          | Some _ =>
              (Throw (BadRequestException
                        "You are already an employee at this restaurant"),
               st)
          | None =>
              let employee :=
                {| employee_id := newId;
                   employee_name := use_name useInviteLinkDto;
                   employee_userId := Some (user_id currentUser);
                   employee_restaurantId := invite_restaurantId inviteLink;
                   employee_hourlyWage := invite_hourlyWage inviteLink |} in
              let st' :=
                mkStore
                  (set_employees (store_db st)
                     (employees (store_db st) ++ [employee]))
                  (updateWhere
                     (fun l => String.eqb (invite_id l)
                                          (invite_id inviteLink))
                     (recordUse inviteLink) (inviteLinks st)) in
              match findRestaurant (invite_restaurantId inviteLink)
                                   (store_db st) with
              | None =>
                  (Throw (TypeError "Cannot read properties of null"), st')
              | Some _ => (Ok employee, st')
              end
          end
    end.

Definition revoked (row : InviteLink) : InviteLink :=
  {| invite_id := invite_id row;
     invite_token := invite_token row;
     invite_role := invite_role row;
     invite_status := InviteLinkStatus.REVOKED;
     invite_expiresAt := invite_expiresAt row;
     invite_hourlyWage := invite_hourlyWage row;
     invite_notes := invite_notes row;
     invite_maxUses := invite_maxUses row;
     invite_usedCount := invite_usedCount row;
     invite_restaurantId := invite_restaurantId row;
     invite_createdBy := invite_createdBy row |}.

(** [revokeInviteLink] *)
Definition revokeInviteLink (id : string) (currentUser : User)
    : Action InviteLink :=
  fun st =>
    match find (fun l => String.eqb (invite_id l) id) (inviteLinks st) with
    | None => (Throw (NotFoundException "Invite link not found"), st)
    | Some inviteLink =>
        let update :=
          (Ok (revoked inviteLink),
           mkStore (store_db st)
             (updateWhere (fun l => String.eqb (invite_id l) id) revoked
                          (inviteLinks st))) in
        if Role_eqb (user_role currentUser) RESTAURANT_OWNER then
          match findRestaurant (invite_restaurantId inviteLink)
                               (store_db st) with
          | None => (Throw (TypeError "Cannot read properties of null"), st)
          | Some r =>
              if negb (String.eqb (restaurant_ownerId r)
                                  (user_id currentUser))
              then (Throw (ForbiddenException
                             "You can only revoke invite links from your own restaurants"),
                    st)
              else update
          end
        else update
    end.

End EmployeesService.

(** ** The specification's own notions *)

Module Spec.
Import OrderStatus.

(** The transition table of the specification, written from its
    words: Pending to Preparing or Cancelled, Preparing to Ready or
    Cancelled, Ready to Completed or Cancelled, and nothing else. *)
Inductive Allowed : OrderStatus.t -> OrderStatus.t -> Prop :=
| Pending_Preparing : Allowed PENDING PREPARING
| Pending_Cancelled : Allowed PENDING CANCELLED
| Preparing_Ready : Allowed PREPARING READY
| Preparing_Cancelled : Allowed PREPARING CANCELLED
| Ready_Completed : Allowed READY COMPLETED
| Ready_Cancelled : Allowed READY CANCELLED.

(** A terminal order status. *)
Definition terminal (s : OrderStatus.t) : bool :=
  match s with
  | COMPLETED | CANCELLED => true
  | _ => false
  end.

(** Two half-open intervals [[s, e)] and [[s', e')] intersect when
    some instant lies in both. *)
Definition intersect (s e s' e' : Z) : Prop :=
  exists t, (s <= t < e) /\ (s' <= t < e').


End Spec.

(** ** Concrete scenarios *)

Module Scenario.

Definition admin : User := mkUser "user-admin" SUPERADMIN "Ada".
Definition owner : User := mkUser "user-owner" RESTAURANT_OWNER "Olga".
Definition cashier : User := mkUser "user-emma" EMPLOYEE "Emma".
Definition customer : User := mkUser "user-carl" CUSTOMER "Carl".

Definition noodleBar : Restaurant :=
  mkRestaurant "rest-1" "Noodle Bar" "user-owner" "ACTIVE" "fc-1".

(** 2024-01-01T07:00:00Z *)
Definition morning : Z := 1704092400000.

(** An order of 1500 placed by the customer, being prepared. *)
Definition preparingOrder : Order :=
  {| order_id := "order-1";
     order_orderNumber := "20240101-001";
     order_status := OrderStatus.PREPARING;
     order_totalAmount := 1500;
     order_specialInstructions := None;
     order_estimatedTime := None;
     order_restaurantId := "rest-1";
     order_tableId := None;
     order_customerId := Some "user-carl";
     order_createdAt := morning;
     order_updatedAt := morning |}.

(** Its card payment, settled. *)
Definition settledPayment : Payment :=
  {| payment_id := "pay-1";
     payment_orderId := "order-1";
     payment_amount := 1500;
     payment_currency := "USD";
     payment_method := PaymentMethod.STRIPE;
     payment_status := PaymentStatus.COMPLETED;
     payment_commission := 75;
     payment_commissionAmount := 75;
     payment_netAmount := 1425;
     payment_provider := "stripe";
     payment_externalPaymentId := Some "pi_1";
     payment_paymentUrl := Some "https://checkout.stripe.com/pay/cs_1";
     payment_metadata := ∅ |}.

Definition paidDb : Db :=
  {| restaurants := [noodleBar]; tables := []; products := [];
     orders := [preparingOrder]; orderItems := [];
     payments := [settledPayment]; employees := []; shifts := [] |}.

(** The same order before any payment. *)
Definition unpaidDb : Db :=
  {| restaurants := [noodleBar]; tables := []; products := [];
     orders := [preparingOrder]; orderItems := [];
     payments := []; employees := []; shifts := [] |}.

(** A Stripe client and a YooKassa endpoint that answer every call
    with a 503. *)
Definition stripeDown : PaymentsService.StripeClient :=
  {| PaymentsService.paymentIntents_create :=
       fun _ _ => PaymentsService.Rejected "503 Service Unavailable";
     PaymentsService.refunds_create :=
       fun _ _ => PaymentsService.Rejected "503 Service Unavailable" |}.

Definition providersDown : PaymentsService.Config :=
  {| PaymentsService.stripe := Some stripeDown;
     PaymentsService.yookassaShopId := "shop";
     PaymentsService.yookassaSecretKey := "secret";
     PaymentsService.axios_post_payments :=
       fun _ _ => PaymentsService.Rejected "503 Service Unavailable";
     PaymentsService.axios_post_refunds :=
       fun _ _ => PaymentsService.Rejected "503 Service Unavailable" |}.

(** Providers that accept every call. *)
Definition stripeUp : PaymentsService.StripeClient :=
  {| PaymentsService.paymentIntents_create :=
       fun _ _ =>
         PaymentsService.Resolved
           (PaymentsService.mkStripePaymentIntent "pi_1" "cs_1");
     PaymentsService.refunds_create :=
       fun _ _ => PaymentsService.Resolved "re_1" |}.

Definition providersUp : PaymentsService.Config :=
  {| PaymentsService.stripe := Some stripeUp;
     PaymentsService.yookassaShopId := "shop";
     PaymentsService.yookassaSecretKey := "secret";
     PaymentsService.axios_post_payments :=
       fun _ _ =>
         PaymentsService.Resolved
           (PaymentsService.mkYookassaPayment "yk_1" "https://yk/confirm"
              "pending");
     PaymentsService.axios_post_refunds :=
       fun _ _ => PaymentsService.Resolved "rf_1" |}.

Definition cancelWithRefund : OrdersService.CancelOrderDto :=
  OrdersService.mkCancelOrderDto "kitchen closed" (Some true).

End Scenario.

(** ** PaymentsController: the three routes that create a payment *)

Module PaymentsController.
Import PaymentsService.

(** [POST /payments], [POST /payments/cash] and
    [POST /payments/card-terminal] with their bodies. *)
Inductive CreationRequest : Type :=
| PostPayments (createPaymentDto : CreatePaymentDto)
| PostCash (cashPaymentDto : CashPaymentDto)
| PostCardTerminal (terminalPaymentDto : CardTerminalPaymentDto).

(** Each route hands its body and the current user to the service. *)
Definition handle (cfg : Config) (request : CreationRequest)
    (currentUser : User) (now : Z) (newId : string) : Service Payment :=
  match request with
  | PostPayments dto => create cfg dto currentUser newId
  | PostCash dto => processCashPayment dto currentUser now newId
  | PostCardTerminal dto =>
      processCardTerminalPayment dto currentUser now newId
  end.

(** The order a request is for. *)
Definition orderIdOf (request : CreationRequest) : string :=
  match request with
  | PostPayments dto => orderId dto
  | PostCash dto => cash_orderId dto
  | PostCardTerminal dto => terminal_orderId dto
  end.

(** The cash and terminal routes, which staff settle by hand. *)
Definition manual (request : CreationRequest) : bool :=
  match request with
  | PostPayments _ => false
  | PostCash _ | PostCardTerminal _ => true
  end.
End PaymentsController.

Module PaymentScenario.
Import Scenario.

(** An order of 1099 without a payment. *)
Definition order1099 : Order :=
  {| order_id := "order-2";
     order_orderNumber := "20240101-002";
     order_status := OrderStatus.READY;
     order_totalAmount := 1099;
     order_specialInstructions := None;
     order_estimatedTime := None;
     order_restaurantId := "rest-1";
     order_tableId := None;
     order_customerId := Some "user-carl";
     order_createdAt := morning;
     order_updatedAt := morning |}.

Definition db1099 : Db :=
  {| restaurants := [noodleBar]; tables := []; products := [];
     orders := [order1099]; orderItems := [];
     payments := []; employees := []; shifts := [] |}.

(** The customer hands over 2000 for it and gets 901 back. *)
Definition cash2000 : PaymentsService.CashPaymentDto :=
  PaymentsService.mkCashPaymentDto "order-2" 2000 (Some 901) None.

Definition afterCash : Z := 1704092460000.

(** The payment the cash route inserts for it. *)
Definition cashPayment1099 : Payment :=
  {| payment_id := "pay-2";
     payment_orderId := "order-2";
     payment_amount := 1099;
     payment_currency := "USD";
     payment_method := PaymentMethod.CASH;
     payment_status := PaymentStatus.COMPLETED;
     payment_commission := 55;
     payment_commissionAmount := 55;
     payment_netAmount := 1044;
     payment_provider := "cash";
     payment_externalPaymentId := None;
     payment_paymentUrl := None;
     payment_metadata :=
       <["processedAt" := MInstant afterCash]>
         (<["processedBy" := MString "Emma"]>
            (<["changeGiven" := MNumber 901]>
               (<["amountReceived" := MNumber 2000]> ∅))) |}.

End PaymentScenario.

Module WebhookScenario.
Import Scenario.



(** Stripe's [payment_intent.succeeded] for the intent [pi_1]. *)
Definition succeeded : PaymentsService.PaymentWebhookDto :=
  {| PaymentsService.provider := "stripe";
     PaymentsService.payload :=
       {| PaymentsService.kind := "payment_intent.succeeded";
          PaymentsService.object :=
            {| PaymentsService.object_id := "pi_1";
               PaymentsService.object_raw := "{id: pi_1}";
               PaymentsService.object_failureReason := None |} |} |}.

Definition fullRefund : PaymentsService.RefundPaymentDto :=
  PaymentsService.mkRefundPaymentDto (Some 1500) "order cancelled".

Definition afterRefund : Z := 1704096000000.

(** The payment of the order after a full refund by the owner. *)
Definition refunded1500 : Payment :=
  PaymentsService.withStatus PaymentStatus.REFUNDED
    (<["refund" := MRefund 1500 "order cancelled" (Some "re_1") "Olga"
                     afterRefund]> ∅)
    settledPayment.

End WebhookScenario.

Module ShiftScenario.
Import Scenario.

(** Times of day on 2024-01-01, UTC, as time values. *)
Definition at_ (hours minutes : Z) : Z :=
  1704067200000 + (hours * 60 + minutes) * 60000.

Definition emma : Employee :=
  {| employee_id := "emp-1";
     employee_name := "Emma";
     employee_userId := Some "user-emma";
     employee_restaurantId := "rest-1";
     employee_hourlyWage := Some 1550 |}.

Definition scheduled (id : string) (from to : Z) : Shift :=
  {| shift_id := id;
     shift_employeeId := "emp-1";
     shift_startTime := from;
     shift_endTime := to;
     shift_actualStartTime := None;
     shift_actualEndTime := None;
     shift_breakDuration := Some 0;
     shift_notes := None;
     shift_status := ShiftStatus.SCHEDULED |}.

(** Emma is scheduled from 09:00 to 17:00. *)
Definition dayShift : Shift := scheduled "shift-1" (at_ 9 0) (at_ 17 0).

Definition rota : Db :=
  {| restaurants := [noodleBar]; tables := []; products := [];
     orders := []; orderItems := []; payments := [];
     employees := [emma]; shifts := [dayShift] |}.


(** Emma at work since 09:00, to clock out at 10:00. *)
Definition activeShift : Shift :=
  {| shift_id := "shift-2";
     shift_employeeId := "emp-1";
     shift_startTime := at_ 9 0;
     shift_endTime := at_ 17 0;
     shift_actualStartTime := Some (at_ 9 0);
     shift_actualEndTime := None;
     shift_breakDuration := Some 0;
     shift_notes := None;
     shift_status := ShiftStatus.ACTIVE |}.

Definition atWork : Db :=
  {| restaurants := [noodleBar]; tables := []; products := [];
     orders := []; orderItems := []; payments := [];
     employees := [emma]; shifts := [activeShift] |}.

Definition clockOutNow : EmployeesService.ClockOutDto :=
  EmployeesService.mkClockOutDto "shift-2" None.

(** What the clock-out at 10:00 returns and leaves. *)
Definition emmaClockedOut : EmployeesService.ClockOutResult :=
  {| EmployeesService.completedShift :=
       EmployeesService.complete clockOutNow (at_ 10 0) None activeShift;
     EmployeesService.hoursWorked :=
       EmployeesService.adjustedHoursOf activeShift (at_ 10 0);
     EmployeesService.calculatedPay :=
       EmployeesService.calculatedPayOf (Some 1550)
         (EmployeesService.adjustedHoursOf activeShift (at_ 10 0)) |}.

Definition afterClockOut : Db :=
  set_shifts atWork [EmployeesService.completedShift emmaClockedOut].

End ShiftScenario.

Module NumberingScenario.
Import Scenario.

(** A server three hours ahead of UTC. *)
Definition utcPlus3 : Z := 3 * 60 * 60 * 1000.

Definition ramen : Product :=
  {| product_id := "prod-1";
     product_name := "Ramen";
     product_price := 500;
     product_isAvailable := true;
     product_variants := None;
     product_category_restaurantId := "rest-1" |}.

Definition opening : Db :=
  {| restaurants := [noodleBar]; tables := []; products := [ramen];
     orders := []; orderItems := []; payments := [];
     employees := []; shifts := [] |}.

Definition oneRamen : OrdersService.CreateOrderDto :=
  {| OrdersService.restaurantId := "rest-1";
     OrdersService.tableId := None;
     OrdersService.items :=
       [OrdersService.mkOrderItemDto "prod-1" None 1 None];
     OrdersService.dto_specialInstructions := None |}.

(** 2024-01-01T07:00:00Z, 10:00 on 1 January for the server. *)
Definition firstOrderAt : Z := 1704092400000.
(** 2024-01-01T22:00:00Z, 01:00 on 2 January for the server. *)
Definition secondOrderAt : Z := 1704146400000.

End NumberingScenario.

(** ** OrdersController: bulk status update (src/src/orders/orders.controller.ts) *)

Module OrdersController.
Import OrdersService.

Record BulkUpdateDto : Type := mkBulkUpdateDto {
  orderIds : list string;
  bulk_status : OrderStatus.t;
  bulk_estimatedTime : option Z;
}.

(** One entry of [results]: the order id with the updated order, or with
    the exception caught. *)
Definition BulkResult : Type := (string * Result Order)%type.

(** The loop of [bulkUpdateStatus]: each id is updated in turn and an
    exception is caught and recorded; [clock] is the reading of the
    clock at each update. *)
Fixpoint bulkLoop (ids : list string) (dto : UpdateOrderStatusDto)
    (currentUser : User) (clock : nat -> Z) (n : nat) (db : Db)
    : list BulkResult * Db :=
  match ids with
  | [] => ([], db)
  | orderId :: rest =>
      let '(r, db1) := updateStatus orderId dto currentUser (clock n) db in
      let '(results, db2) := bulkLoop rest dto currentUser clock (S n) db1 in
      ((orderId, r) :: results, db2)
  end.

(** The stored status of the order [id], if there is one. *)
Definition statusOf (id : string) (db : Db) : option OrderStatus.t :=
  option_map order_status (find (hasId id) (orders db)).

Definition succeeded (r : BulkResult) : bool :=
  match snd r with Ok _ => true | Throw _ => false end.

Record BulkResponse : Type := mkBulkResponse {
  results : list BulkResult;
  successCount : nat;
  errorCount : nat;
}.

Definition bulkUpdateStatus (bulkUpdateDto : BulkUpdateDto)
    (currentUser : User) (clock : nat -> Z) (db : Db) : BulkResponse * Db :=
  let '(results, db') :=
    bulkLoop (orderIds bulkUpdateDto)
      (mkUpdateOrderStatusDto (bulk_status bulkUpdateDto)
                              (bulk_estimatedTime bulkUpdateDto))
      currentUser clock 0 db in
  ({| results := results;
      successCount := List.length (List.filter succeeded results);
      errorCount :=
        List.length (List.filter (fun r => negb (succeeded r)) results) |},
   db').

End OrdersController.

Module OrderScenario.
Import Scenario.

(** The order of 1500, served and closed. *)
Definition completedOrder : Order :=
  {| order_id := "order-1";
     order_orderNumber := "20240101-001";
     order_status := OrderStatus.COMPLETED;
     order_totalAmount := 1500;
     order_specialInstructions := None;
     order_estimatedTime := None;
     order_restaurantId := "rest-1";
     order_tableId := None;
     order_customerId := Some "user-carl";
     order_createdAt := morning;
     order_updatedAt := morning |}.

Definition closedDb : Db :=
  {| restaurants := [noodleBar]; tables := []; products := [];
     orders := [completedOrder]; orderItems := [];
     payments := [settledPayment]; employees := []; shifts := [] |}.

Definition toReady : OrdersService.UpdateOrderStatusDto :=
  OrdersService.mkUpdateOrderStatusDto OrderStatus.READY (Some 10).

End OrderScenario.

Module CreateScenario.
Import Scenario NumberingScenario.

(** Ramen comes in a large size for 150 more. *)
Definition ramenSizes : Product :=
  {| product_id := "prod-2";
     product_name := "Ramen";
     product_price := 500;
     product_isAvailable := true;
     product_variants := Some [mkVariant "large" (Some 150)];
     product_category_restaurantId := "rest-1" |}.

Definition soldOut : Product :=
  {| product_id := "prod-3";
     product_name := "Gyoza";
     product_price := 300;
     product_isAvailable := false;
     product_variants := None;
     product_category_restaurantId := "rest-1" |}.

Definition menu : Db :=
  {| restaurants := [noodleBar]; tables := [];
     products := [ramen; ramenSizes; soldOut];
     orders := []; orderItems := []; payments := [];
     employees := []; shifts := [] |}.


(** A plain ramen and the sold-out gyoza. *)
Definition withGyoza : OrdersService.CreateOrderDto :=
  {| OrdersService.restaurantId := "rest-1";
     OrdersService.tableId := None;
     OrdersService.items :=
       [OrdersService.mkOrderItemDto "prod-1" None 1 None;
        OrdersService.mkOrderItemDto "prod-3" None 1 None];
     OrdersService.dto_specialInstructions := None |}.


End CreateScenario.

(** ** Frames: what an operation leaves alone *)

Module Frame.

(** The part of the database that a write to the order [id] may touch
    is that order's row: every other table, the ids of the orders in
    their order, and every other order are as before. *)
Definition only_order_touched (id : string) (db db' : Db) : Prop :=
  restaurants db' = restaurants db
  /\ tables db' = tables db
  /\ products db' = products db
  /\ orderItems db' = orderItems db
  /\ payments db' = payments db
  /\ employees db' = employees db
  /\ shifts db' = shifts db
  /\ map order_id (orders db') = map order_id (orders db)
  /\ List.filter (fun o => negb (OrdersService.hasId id o)) (orders db')
     = List.filter (fun o => negb (OrdersService.hasId id o)) (orders db).

End Frame.

(** ** Sums over order items *)

Module Totals.

(** The sum of the line totals of a list of order items. *)
Definition sumOfLines (its : list OrderItem) : Z :=
  fold_right Z.add 0 (map item_totalPrice its).


End Totals.

(** ** What a webhook may not change *)

Module Ledger.

(** The identity and the money of a payment: everything but its
    status, its metadata and its link to the provider. *)
Definition entry (p : Payment) : string * string * Z * string * Z * Z * Z :=
  (payment_id p, payment_orderId p, payment_amount p, payment_currency p,
   payment_commission p, payment_commissionAmount p, payment_netAmount p).

(** The database apart from the payments table. *)
Definition others (db : Db)
    : list Restaurant * list Table * list Product * list Order
      * list OrderItem * list Employee * list Shift :=
  (restaurants db, tables db, products db, orders db, orderItems db,
   employees db, shifts db).

End Ledger.

Module RetryScenario.
Import Scenario PaymentScenario.

(** The customer pays the order of 1099 by card. *)
Definition byCard : PaymentsService.CreatePaymentDto :=
  {| PaymentsService.orderId := "order-2";
     PaymentsService.amount := 1099;
     PaymentsService.method := PaymentMethod.STRIPE;
     PaymentsService.currency := None;
     PaymentsService.customerEmail := None;
     PaymentsService.description := None;
     PaymentsService.returnUrl := None;
     PaymentsService.cancelUrl := None |}.

(** The row that is left when Stripe refuses the charge. *)
Definition pendingRow : Payment :=
  {| payment_id := "pay-3";
     payment_orderId := "order-2";
     payment_amount := 1099;
     payment_currency := "USD";
     payment_method := PaymentMethod.STRIPE;
     payment_status := PaymentStatus.PENDING;
     payment_commission := 55;
     payment_commissionAmount := 55;
     payment_netAmount := 1044;
     payment_provider := "stripe";
     payment_externalPaymentId := None;
     payment_paymentUrl := None;
     payment_metadata := ∅ |}.

(** Stripe's [payment_intent.payment_failed] for the intent [pi_1]. *)
Definition failed : PaymentsService.PaymentWebhookDto :=
  {| PaymentsService.provider := "stripe";
     PaymentsService.payload :=
       {| PaymentsService.kind := "payment_intent.payment_failed";
          PaymentsService.object :=
            {| PaymentsService.object_id := "pi_1";
               PaymentsService.object_raw := "{id: pi_1}";
               PaymentsService.object_failureReason :=
                 Some "card declined" |} |} |}.

(** A refund of 500 out of the 1500. *)
Definition partialRefund : PaymentsService.RefundPaymentDto :=
  PaymentsService.mkRefundPaymentDto (Some 500) "one dish returned".

(** The payment of 1500 after that refund by the owner. *)
Definition partlyRefunded : Payment :=
  PaymentsService.withStatus PaymentStatus.REFUNDED
    (<["refund" := MRefund 500 "one dish returned" (Some "re_1") "Olga"
                     WebhookScenario.afterRefund]> ∅)
    settledPayment.

End RetryScenario.

Module ClockScenario.
Import Scenario ShiftScenario.

(** Emma has nothing scheduled. *)
Definition dayOff : Db :=
  {| restaurants := [noodleBar]; tables := []; products := [];
     orders := []; orderItems := []; payments := [];
     employees := [emma]; shifts := [] |}.

Definition emmaClocksIn : EmployeesService.ClockInDto :=
  EmployeesService.mkClockInDto "emp-1" None.

(** The shift that her clock-in at 14:23 creates. *)
Definition onDemand : Shift :=
  {| shift_id := "shift-7";
     shift_employeeId := "emp-1";
     shift_startTime := at_ 14 23;
     shift_endTime := EmployeesService.endOfDay 0 (at_ 14 23);
     shift_actualStartTime := Some (at_ 14 23);
     shift_actualEndTime := None;
     shift_breakDuration := None;
     shift_notes := Some "Unscheduled shift. Clocked in: No notes";
     shift_status := ShiftStatus.ACTIVE |}.

Definition clockedIn : Db := set_shifts dayOff [onDemand].

(** A shift from 17:00 to 21:00, which touches the day shift. *)
Definition eveningShift : EmployeesService.CreateShiftDto :=
  EmployeesService.mkCreateShiftDto "emp-1" (at_ 17 0) (at_ 21 0) (Some 30)
    None.

End ClockScenario.

(** ** Histories of the invite link table *)

Module Invites.
Import EmployeesService.

(** A link has been used no more often than it allows. *)
Definition withinLimit (l : InviteLink) : Prop :=
  invite_usedCount l <= Z.max 0 (invite_maxUses l).

Definition ids (st : Store) : list string := map invite_id (inviteLinks st).
Definition tokens (st : Store) : list string :=
  map invite_token (inviteLinks st).

(** One call of a method on the invite link table, whatever it
    returns.  A created row gets an id that is not in the table. *)
Inductive step : Store -> Store -> Prop :=
| step_create dto u token newId st :
    ~ In newId (ids st) ->
    step st (snd (createInviteLink dto u token newId st))
| step_use dto u now newId st :
    step st (snd (useInviteLink dto u now newId st))
| step_revoke id u st :
    step st (snd (revokeInviteLink id u st)).

Inductive steps : Store -> Store -> Prop :=
| steps_refl st : steps st st
| steps_then st st' st'' : steps st st' -> step st' st'' -> steps st st''.

End Invites.

Module InviteScenario.
Import EmployeesService.

Definition empty : Store :=
  mkStore (mkDb [Scenario.noodleBar] [] [] [] [] [] [] []) [].

Definition forTwoCooks : CreateInviteLinkDto :=
  mkCreateInviteLinkDto (restaurant_id Scenario.noodleBar) EmployeeRole.COOK
    (ShiftScenario.at_ 23 0) (Some 1500) None (Some 2).

Definition forOneCook : CreateInviteLinkDto :=
  mkCreateInviteLinkDto (restaurant_id Scenario.noodleBar) EmployeeRole.COOK
    (ShiftScenario.at_ 23 0) (Some 1500) None None.

Definition kai : User := mkUser "user-kai" CUSTOMER "Kai".
Definition lin : User := mkUser "user-lin" CUSTOMER "Lin".

Definition join (name : string) : UseInviteLinkDto :=
  mkUseInviteLinkDto "c0ffee" name.

Definition invited : Store :=
  snd (createInviteLink forTwoCooks Scenario.owner "c0ffee" "invite-1" empty).

Definition kaiJoined : Store :=
  snd (useInviteLink (join "Kai") kai (ShiftScenario.at_ 9 0) "emp-kai"
         invited).

Definition invitedOnce : Store :=
  snd (createInviteLink forOneCook Scenario.owner "c0ffee" "invite-1" empty).

Definition kaiJoinedOnce : Store :=
  snd (useInviteLink (join "Kai") kai (ShiftScenario.at_ 9 0) "emp-kai"
         invitedOnce).

Definition withdrawn : Store :=
  snd (revokeInviteLink "invite-1" Scenario.owner invited).

End InviteScenario.

(** * Properties *)

(** ** Tables *)

Lemma find_map_preserving {A : Type} (key : A -> bool) (g : A -> A)
    (rows : list A) :
  (forall x, key (g x) = key x) ->
  find key (map g rows) = option_map g (find key rows).
Proof.
  intros Hk. induction rows as [|r rows IH]; cbn; [reflexivity|].
  rewrite Hk. destruct (key r); [reflexivity | exact IH].
Qed.

Lemma find_updateWhere {A : Type} (key sel : A -> bool) (f : A -> A)
    (rows : list A) (r : A) :
  (forall x, key (f x) = key x) ->
  find key rows = Some r ->
  find key (updateWhere sel f rows) = Some (if sel r then f r else r).
Proof.
  intros Hk Hf. unfold updateWhere.
  rewrite find_map_preserving, Hf; [reflexivity|].
  intros x. destruct (sel x); [apply Hk | reflexivity].
Qed.

(** ** The order lifecycle *)

Section OrderLifecycle.
Import OrderStatus OrdersService Spec.

Lemma includes_Allowed (from to : OrderStatus.t) :
  includes (validTransitions from) to = true <-> Allowed from to.
Proof.
  split.
  - destruct from, to; cbn; intros H; try discriminate H; constructor.
  - destruct 1; reflexivity.
Qed.

Lemma findOne_keeps_db id u db r db' :
  findOne id u db = (r, db') -> db' = db.
Proof.
  unfold findOne, bind, query, verifyOrderAccess.
  destruct (findUnique id db) as [o|]; cbn.
  - destruct (user_role u); cbn;
      try (intros [= _ <-]; reflexivity).
    + destruct (restaurant o) as [r0|]; cbn.
      * destruct (String.eqb _ _); cbn; intros [= _ <-]; reflexivity.
      * intros [= _ <-]; reflexivity.
    + destruct (isNot _ _); cbn; intros [= _ <-]; reflexivity.
  - intros [= _ <-]; reflexivity.
Qed.

Lemma findOne_found id u db o :
  findOne id u db = (Ok o, db) -> findUnique id db = Some o.
Proof.
  unfold findOne, bind, query.
  destruct (findUnique id db) as [o'|]; [|discriminate].
  destruct (verifyOrderAccess o' u db) as [[[]|e] db']; cbn;
    [intros [= ->]; reflexivity | discriminate].
Qed.

Lemma updateStatus_illegal id dto u now db o :
  findOne id u db = (Ok o, db) ->
  includes (validTransitions (order_status (row o))) (status dto) = false ->
  updateStatus id dto u now db
  = (Throw (BadRequestException
              ("Invalid status transition from "
               ++ toString (order_status (row o)) ++ " to "
               ++ toString (status dto))), db).
Proof.
  intros Hf Hi. unfold updateStatus, bind. rewrite Hf.
  unfold validateStatusTransition. rewrite Hi. reflexivity.
Qed.

Lemma updateStatus_legal id dto u now db o :
  findOne id u db = (Ok o, db) ->
  includes (validTransitions (order_status (row o))) (status dto) = true ->
  isStaff (user_role u) = true ->
  updateStatus id dto u now db
  = (Ok (applyStatus dto now (row o)),
     set_orders db (updateWhere (hasId id) (applyStatus dto now) (orders db))).
Proof.
  intros Hf Hi Hs. unfold updateStatus, bind. rewrite Hf.
  unfold validateStatusTransition. rewrite Hi, Hs. reflexivity.
Qed.

Lemma findUnique_row id db o :
  findUnique id db = Some o ->
  find (hasId id) (orders db) = Some (row o) /\ hasId id (row o) = true.
Proof.
  unfold findUnique. fold (hasId id).
  destruct (find (hasId id) (orders db)) as [r|] eqn:E; [|discriminate].
  intros [= <-]. split; [reflexivity|].
  apply find_some in E. apply E.
Qed.

(** C4.  The transitions [validateStatusTransition] lets through are
    exactly those of the specification's table; a status update that
    asks for any other pair is refused with the bad-request exception
    "Invalid status transition from ... to ..." and leaves the
    database as it was, while an allowed one, made by staff, stores
    the new status on the order. *)
Theorem order_transitions_match_table
    (db : Db) (id : string) (dto : UpdateOrderStatusDto) (u : User)
    (now : Z) (o : OrderWithRelations) :
  findOne id u db = (Ok o, db) ->
  let from := order_status (row o) in
  let to := status dto in
  (validateStatusTransition from to db = (Ok tt, db) <-> Allowed from to)
  /\ (~ Allowed from to ->
      updateStatus id dto u now db
      = (Throw (BadRequestException
                  ("Invalid status transition from " ++ toString from
                   ++ " to " ++ toString to)), db))
  /\ (Allowed from to -> isStaff (user_role u) = true ->
      exists db',
        updateStatus id dto u now db = (Ok (applyStatus dto now (row o)), db')
        /\ option_map (fun x => order_status (row x)) (findUnique id db')
           = Some to).
Proof.
  intros Hf from to. repeat split.
  - unfold validateStatusTransition, throwIf.
    destruct (includes (validTransitions from) to) eqn:E; cbn.
    + intros _. now apply includes_Allowed.
    + discriminate.
  - intros Ha. apply includes_Allowed in Ha.
    unfold validateStatusTransition. now rewrite Ha.
  - intros Hn. apply updateStatus_illegal; [exact Hf|].
    destruct (includes _ _) eqn:E; [|reflexivity].
    exfalso. apply Hn. now apply includes_Allowed.
  - intros Ha Hs. apply includes_Allowed in Ha.
    eexists. split; [now apply updateStatus_legal|].
    apply findOne_found, findUnique_row in Hf as [Hr Hid].
    unfold findUnique. cbn. fold (hasId id).
    rewrite (find_updateWhere _ _ _ _ (row o)); [|reflexivity|exact Hr].
    rewrite Hid. reflexivity.
Qed.

(** An illegal request of the table: Preparing to Completed. *)
Lemma order_transitions_match_table_witness :
  updateStatus "order-1" (mkUpdateOrderStatusDto COMPLETED None)
    Scenario.owner 1704092460000 Scenario.paidDb
  = (Throw (BadRequestException
              "Invalid status transition from PREPARING to COMPLETED"),
     Scenario.paidDb).
Proof.
  refine (proj1 (proj2 (order_transitions_match_table Scenario.paidDb
            "order-1" (mkUpdateOrderStatusDto COMPLETED None)
            Scenario.owner 1704092460000
            {| row := Scenario.preparingOrder;
               restaurant := Some Scenario.noodleBar;
               payment := Some Scenario.settledPayment |} _)) _).
  - reflexivity.
  - intros H. inversion H.
Defined.

End OrderLifecycle.

(** ** Cancelling an order *)

Section Cancel.
Import OrderStatus OrdersService Spec.

Lemma cancel_open id dto u now db o :
  findOne id u db = (Ok o, db) ->
  terminal (order_status (row o)) = false ->
  cancel id dto u now db
  = (Ok (cancelled dto now o),
     set_orders db
       (updateWhere (hasId id)
          (applyCancel dto now (order_specialInstructions (row o)))
          (orders db))).
Proof.
  intros Hf Ht. unfold cancel, bind. rewrite Hf.
  destruct (order_status (row o)); try discriminate Ht; cbn;
    destruct (refund dto) as [[]|]; cbn; try reflexivity;
    destruct (payment o); reflexivity.
Qed.

Lemma cancel_terminal id dto u now db o :
  findOne id u db = (Ok o, db) ->
  terminal (order_status (row o)) = true ->
  exists e, cancel id dto u now db = (Throw e, db).
Proof.
  intros Hf Ht. unfold cancel, bind. rewrite Hf.
  destruct (order_status (row o)); try discriminate Ht; cbn; eauto.
Qed.

Lemma cancel_no_access id dto u now db e :
  findOne id u db = (Throw e, db) ->
  cancel id dto u now db = (Throw e, db).
Proof. intros Hf. unfold cancel, bind. now rewrite Hf. Qed.

Lemma findOne_customer id u db :
  user_role u = CUSTOMER ->
  forall o,
    findOne id u db = (Ok o, db)
    <-> findUnique id db = Some o
        /\ order_customerId (row o) = Some (user_id u).
Proof.
  intros Hr o. unfold findOne, bind, query, verifyOrderAccess. rewrite Hr.
  destruct (findUnique id db) as [o'|]; cbn.
  - unfold isNot. destruct (order_customerId (row o')) as [c|] eqn:Ec; cbn.
    + destruct (String.eqb c (user_id u)) eqn:E; cbn.
      * apply String.eqb_eq in E. subst c. split.
        -- intros [= ->]. now rewrite Ec.
        -- intros [[= ->] _]. reflexivity.
      * apply String.eqb_neq in E. split; [discriminate|].
        intros [[= <-] Hc]. rewrite Ec in Hc. congruence.
    + split; [discriminate|]. intros [[= <-] Hc]. congruence.
  - split; [discriminate | intros [[=] _]].
Qed.

(** C9, as the code has it.  A customer's cancel request succeeds
    exactly when the order exists, was placed by that customer and is
    neither Completed nor Cancelled: Pending, Preparing and Ready
    orders are all cancelled. *)
Theorem customer_cancels_own_open_orders
    (db : Db) (id : string) (dto : CancelOrderDto) (u : User) (now : Z) :
  user_role u = CUSTOMER ->
  (exists o db', cancel id dto u now db = (Ok o, db'))
  <-> (exists o, findUnique id db = Some o
                 /\ order_customerId (row o) = Some (user_id u)
                 /\ terminal (order_status (row o)) = false).
Proof.
  intros Hr. split.
  - intros (c & db' & Hc).
    destruct (findOne id u db) as [[o|e] db0] eqn:Hf.
    + pose proof (findOne_keeps_db _ _ _ _ _ Hf); subst db0.
      exists o. pose proof (proj1 (findOne_customer id u db Hr o) Hf) as [? ?].
      repeat split; try assumption.
      destruct (terminal (order_status (row o))) eqn:Ht; [|reflexivity].
      destruct (cancel_terminal id dto u now db o Hf Ht) as [e He].
      congruence.
    + pose proof (findOne_keeps_db _ _ _ _ _ Hf); subst db0.
      rewrite (cancel_no_access _ _ _ _ _ _ Hf) in Hc. discriminate.
  - intros (o & Hu & Hc & Ht).
    assert (Hf : findOne id u db = (Ok o, db))
      by (apply findOne_customer; auto).
    eexists _, _. apply cancel_open; eassumption.
Qed.

Lemma customer_cancels_own_open_orders_witness :
  exists o db',
    cancel "order-1" Scenario.cancelWithRefund Scenario.customer
      1704092460000 Scenario.unpaidDb = (Ok o, db').
Proof.
  apply (proj2 (customer_cancels_own_open_orders Scenario.unpaidDb "order-1"
           Scenario.cancelWithRefund Scenario.customer 1704092460000
           eq_refl)).
  exists {| row := Scenario.preparingOrder;
            restaurant := Some Scenario.noodleBar;
            payment := None |}.
  repeat split; reflexivity.
Defined.

(** C9 as stated fails: the customer's own order is being prepared,
    the customer asks to cancel it, and the request is not denied:
    the order is stored as Cancelled. *)
Lemma customer_cancels_preparing_order :
  order_status Scenario.preparingOrder = PREPARING
  /\ order_customerId Scenario.preparingOrder
     = Some (user_id Scenario.customer)
  /\ user_role Scenario.customer = CUSTOMER
  /\ exists o db',
       cancel "order-1" (mkCancelOrderDto "changed my mind" None)
         Scenario.customer 1704092460000 Scenario.unpaidDb = (Ok o, db')
       /\ option_map order_status
            (find (hasId "order-1") (orders db')) = Some CANCELLED.
Proof.
  repeat split. eexists _, _. split; reflexivity.
Qed.

(** [cancel] never calls the payment service: for an order that is not
    Completed or Cancelled it succeeds whatever [refund] says and
    whatever payment the order has, stores the order as Cancelled with
    the reason, and leaves the payments table as it was. *)
Theorem cancel_never_refunds
    (db : Db) (id : string) (dto : CancelOrderDto) (u : User) (now : Z)
    (o : OrderWithRelations) :
  findOne id u db = (Ok o, db) ->
  terminal (order_status (row o)) = false ->
  exists db',
    cancel id dto u now db = (Ok (cancelled dto now o), db')
    /\ payments db' = payments db
    /\ payment (cancelled dto now o) = payment o
    /\ option_map order_status (find (hasId id) (orders db'))
       = Some CANCELLED.
Proof.
  intros Hf Ht. eexists. split; [now apply cancel_open|].
  repeat split.
  apply findOne_found, findUnique_row in Hf as [Hr Hid]. cbn.
  rewrite (find_updateWhere _ _ _ _ (row o)); [|reflexivity|exact Hr].
  now rewrite Hid.
Qed.

Lemma cancel_never_refunds_witness :
  exists db',
    cancel "order-1" Scenario.cancelWithRefund Scenario.owner 1704092460000
      Scenario.paidDb
    = (Ok (cancelled Scenario.cancelWithRefund 1704092460000
             {| row := Scenario.preparingOrder;
                restaurant := Some Scenario.noodleBar;
                payment := Some Scenario.settledPayment |}), db')
    /\ payments db' = payments Scenario.paidDb
    /\ payment (cancelled Scenario.cancelWithRefund 1704092460000
             {| row := Scenario.preparingOrder;
                restaurant := Some Scenario.noodleBar;
                payment := Some Scenario.settledPayment |})
       = Some Scenario.settledPayment
    /\ option_map order_status (find (hasId "order-1") (orders db'))
       = Some CANCELLED.
Proof.
  apply (cancel_never_refunds Scenario.paidDb "order-1"
           Scenario.cancelWithRefund Scenario.owner 1704092460000
           {| row := Scenario.preparingOrder;
              restaurant := Some Scenario.noodleBar;
              payment := Some Scenario.settledPayment |});
    reflexivity.
Defined.

(** C3, at its failing input (scenario S6).  The order is being
    prepared and its payment is Completed; every refund provider
    answers 503, so a refund of the payment fails; the owner cancels
    with [refund = true].  The refund that the request asks for is
    never attempted: the cancel is not rejected and the order is
    stored as Cancelled, where it should have stayed Preparing. *)
Theorem cancel_succeeds_though_refund_fails :
  fst (PaymentsService.refund Scenario.providersDown "pay-1"
         (PaymentsService.mkRefundPaymentDto None "kitchen closed")
         Scenario.owner 1704092460000 Scenario.paidDb)
  = Throw (BadRequestException "Refund failed: 503 Service Unavailable")
  /\ exists o db',
       cancel "order-1" Scenario.cancelWithRefund Scenario.owner
         1704092460000 Scenario.paidDb = (Ok o, db')
       /\ option_map order_status (find (hasId "order-1") (orders db'))
          = Some CANCELLED
       /\ option_map order_status
            (find (hasId "order-1") (orders Scenario.paidDb))
          = Some PREPARING
       /\ payments db' = payments Scenario.paidDb.
Proof.
  split; [reflexivity|]. eexists _, _. repeat split.
Qed.

End Cancel.

(** ** Commission and the amount charged *)

Section Commission.
Import PaymentStatus PaymentMethod PaymentsService PaymentsController.


Lemma In_updateWhere {A : Type} (sel : A -> bool) (f : A -> A)
    (rows : list A) (r : A) :
  In r rows -> sel r = true -> In (f r) (updateWhere sel f rows).
Proof.
  intros Hin Hs. unfold updateWhere. apply in_map_iff.
  exists r. now rewrite Hs.
Qed.

Lemma processCashPayment_ok dto u now newId db p db' :
  processCashPayment dto u now newId db = (Ok p, db') ->
  exists order,
    isStaff (user_role u) = true
    /\ findOrder (cash_orderId dto) db = Some order
    /\ paymentOf order db = None
    /\ payment_amount p = order_totalAmount order
    /\ payment_commissionAmount p = commissionOf (order_totalAmount order)
    /\ payment_commission p = payment_commissionAmount p
    /\ payment_netAmount p = payment_amount p - payment_commissionAmount p
    /\ payment_status p = COMPLETED
    /\ payment_metadata p !! "amountReceived"
       = Some (MNumber (amountReceived dto))
    /\ payments db' = (payments db ++ [p])%list.
Proof.
  unfold processCashPayment, bind, query, throwIf, insertPayment.
  destruct (isStaff (user_role u)); cbn; [|discriminate].
  destruct (findOrder (cash_orderId dto) db) as [order|]; cbn;
    [|discriminate].
  destruct (paymentOf order db) eqn:Hp; cbn; [discriminate|].
  intros [= <- <-]. exists order. cbn.
  repeat split; try reflexivity; assumption.
Qed.

Lemma processCardTerminalPayment_ok dto u now newId db p db' :
  processCardTerminalPayment dto u now newId db = (Ok p, db') ->
  exists order,
    isStaff (user_role u) = true
    /\ findOrder (terminal_orderId dto) db = Some order
    /\ paymentOf order db = None
    /\ payment_amount p = order_totalAmount order
    /\ payment_commissionAmount p = commissionOf (order_totalAmount order)
    /\ payment_commission p = payment_commissionAmount p
    /\ payment_netAmount p = payment_amount p - payment_commissionAmount p
    /\ payment_status p = COMPLETED
    /\ payments db' = (payments db ++ [p])%list.
Proof.
  unfold processCardTerminalPayment, bind, query, throwIf, insertPayment.
  destruct (isStaff (user_role u)); cbn; [|discriminate].
  destruct (findOrder (terminal_orderId dto) db) as [order|]; cbn;
    [|discriminate].
  destruct (paymentOf order db) eqn:Hp; cbn; [discriminate|].
  intros [= <- <-]. exists order. cbn.
  repeat split; try reflexivity; assumption.
Qed.





(** C10.  A cash or terminal payment that succeeds is for an order
    that had no payment, charges the order's stored total, and is
    inserted with status Completed; the amount received of a cash
    payment is kept under the metadata key [amountReceived] and, the
    total being read from the order, has no part in the amount. *)
Theorem manual_payment_charges_order_total
    (cfg : Config) (request : CreationRequest) (u : User) (now : Z)
    (newId : string) (db db' : Db) (p : Payment) :
  manual request = true ->
  handle cfg request u now newId db = (Ok p, db') ->
  exists order,
    findOrder (orderIdOf request) db = Some order
    /\ payment_amount p = order_totalAmount order
    /\ payment_status p = COMPLETED
    /\ payments db' = (payments db ++ [p])%list
    /\ (forall dto, request = PostCash dto ->
        payment_metadata p !! "amountReceived"
        = Some (MNumber (amountReceived dto))
        /\ forall received,
             exists q db'',
               processCashPayment
                 (mkCashPaymentDto (cash_orderId dto) received
                    (changeGiven dto) (processedBy dto))
                 u now newId db = (Ok q, db'')
               /\ payment_amount q = payment_amount p
               /\ payment_status q = COMPLETED).
Proof.
  intros Hm H. destruct request as [dto|dto|dto]; cbn in *;
    [discriminate| |].
  - pose proof H as H0.
    apply processCashPayment_ok in H
      as (o & Hs & Hf & Hp & Ha & _ & _ & _ & Hst & Hmd & Hdb).
    exists o. repeat split; auto; injection H as <-; auto.
    intros received. unfold processCashPayment, bind, query, throwIf.
    rewrite Hs. cbn. rewrite Hf. cbn. rewrite Hp. cbn.
    eexists _, _. split; [reflexivity|]. cbn. auto.
  - apply processCardTerminalPayment_ok in H
      as (o & _ & Hf & _ & Ha & _ & _ & _ & Hst & Hdb).
    exists o. repeat split; auto; discriminate.
Qed.

Lemma manual_payment_charges_order_total_witness :
  exists order,
    findOrder "order-2" PaymentScenario.db1099 = Some order
    /\ payment_amount PaymentScenario.cashPayment1099
       = order_totalAmount order
    /\ payment_status PaymentScenario.cashPayment1099 = COMPLETED.
Proof.
  destruct (manual_payment_charges_order_total Scenario.providersUp
              (PostCash PaymentScenario.cash2000) Scenario.cashier
              PaymentScenario.afterCash "pay-2" PaymentScenario.db1099
              (set_payments PaymentScenario.db1099
                 [PaymentScenario.cashPayment1099])
              PaymentScenario.cashPayment1099
              eq_refl eq_refl) as (o & Hf & Ha & Hs & _).
  exists o. auto.
Defined.

End Commission.

(** ** Webhooks *)

Section HandlerShape.
Import PaymentStatus PaymentsService.

(** A handler that looks the payment up by the object's id and
    writes a status and new metadata on it. *)
Variable s : PaymentStatus.t.
Variable mdf : ProviderObject -> Z -> gmap string MetaValue
               -> gmap string MetaValue.
Variable h : ProviderObject -> Z -> Service unit.

Hypothesis h_shape : forall obj now db,
  h obj now db
  = match findByExternalId (object_id obj) db with
    | Some p =>
        (Ok tt,
         set_payments db
           (updateWhere (hasId (payment_id p))
              (withStatus s (mdf obj now (payment_metadata p)))
              (payments db)))
    | None => (Ok tt, db)
    end.

(** A later delivery overwrites what an earlier one stored. *)
Hypothesis mdf_absorbs : forall obj t t' m,
  mdf obj t' (mdf obj t m) = mdf obj t' m.

Lemma hasId_refl (p : Payment) : hasId (payment_id p) p = true.
Proof. apply String.eqb_refl. Qed.

Lemma found_after_update obj now db p :
  findByExternalId (object_id obj) db = Some p ->
  findByExternalId (object_id obj) (snd (h obj now db))
  = Some (withStatus s (mdf obj now (payment_metadata p)) p).
Proof.
  intros Hf. rewrite h_shape, Hf. cbn. unfold findByExternalId in *. cbn.
  erewrite find_updateWhere; [|reflexivity|exact Hf].
  now rewrite hasId_refl.
Qed.



End HandlerShape.

Section Webhooks.
Import PaymentStatus PaymentsService.

Local Abbreviation stripeOk :=
  (fun (obj : ProviderObject) (now : Z) (m : gmap string MetaValue) =>
     <["completedAt" := MInstant now]>
       (<["stripePaymentIntent" := MProviderObject (object_raw obj)]> m)).
Local Abbreviation stripeKo :=
  (fun (obj : ProviderObject) (now : Z) (m : gmap string MetaValue) =>
     <["failureReason" :=
         MString (orElse (object_failureReason obj) "Payment failed")]>
       (<["failedAt" := MInstant now]>
          (<["stripePaymentIntent" := MProviderObject (object_raw obj)]>
             m))).
Local Abbreviation yookassaOk :=
  (fun (obj : ProviderObject) (now : Z) (m : gmap string MetaValue) =>
     <["completedAt" := MInstant now]>
       (<["yookassaPayment" := MProviderObject (object_raw obj)]> m)).
Local Abbreviation yookassaKo :=
  (fun (obj : ProviderObject) (now : Z) (m : gmap string MetaValue) =>
     <["failureReason" :=
         MString (orElse (object_failureReason obj) "Payment failed")]>
       (<["failedAt" := MInstant now]>
          (<["yookassaPayment" := MProviderObject (object_raw obj)]> m))).


Ltac handler_shape :=
  intros obj now db;
  match goal with |- ?f obj now db = _ => unfold f end;
  unfold bind, query, updatePayment;
  destruct (findByExternalId (object_id obj) db); reflexivity.

Lemma stripe_success_shape : forall obj now db,
  handleStripePaymentSuccess obj now db
  = match findByExternalId (object_id obj) db with
    | Some p =>
        (Ok tt,
         set_payments db
           (updateWhere (hasId (payment_id p))
              (withStatus COMPLETED
                 (<["completedAt" := MInstant now]>
                    (<["stripePaymentIntent" :=
                         MProviderObject (object_raw obj)]>
                       (payment_metadata p))))
              (payments db)))
    | None => (Ok tt, db)
    end.
Proof. handler_shape. Qed.

Lemma stripe_failed_shape : forall obj now db,
  handleStripePaymentFailed obj now db
  = match findByExternalId (object_id obj) db with
    | Some p =>
        (Ok tt,
         set_payments db
           (updateWhere (hasId (payment_id p))
              (withStatus FAILED
                 (<["failureReason" :=
                      MString (orElse (object_failureReason obj)
                                      "Payment failed")]>
                    (<["failedAt" := MInstant now]>
                       (<["stripePaymentIntent" :=
                            MProviderObject (object_raw obj)]>
                          (payment_metadata p)))))
              (payments db)))
    | None => (Ok tt, db)
    end.
Proof. handler_shape. Qed.

Lemma yookassa_success_shape : forall obj now db,
  handleYookassaPaymentSuccess obj now db
  = match findByExternalId (object_id obj) db with
    | Some p =>
        (Ok tt,
         set_payments db
           (updateWhere (hasId (payment_id p))
              (withStatus COMPLETED
                 (<["completedAt" := MInstant now]>
                    (<["yookassaPayment" :=
                         MProviderObject (object_raw obj)]>
                       (payment_metadata p))))
              (payments db)))
    | None => (Ok tt, db)
    end.
Proof. handler_shape. Qed.

Lemma yookassa_failed_shape : forall obj now db,
  handleYookassaPaymentFailed obj now db
  = match findByExternalId (object_id obj) db with
    | Some p =>
        (Ok tt,
         set_payments db
           (updateWhere (hasId (payment_id p))
              (withStatus FAILED
                 (<["failureReason" :=
                      MString (orElse (object_failureReason obj)
                                      "Payment failed")]>
                    (<["failedAt" := MInstant now]>
                       (<["yookassaPayment" :=
                            MProviderObject (object_raw obj)]>
                          (payment_metadata p)))))
              (payments db)))
    | None => (Ok tt, db)
    end.
Proof. handler_shape. Qed.




Lemma handleWebhook_writes dto t db p st :
  writes dto = Some st ->
  findByExternalId (object_id (object (payload dto))) db = Some p ->
  fst (handleWebhook dto t db) = Ok tt
  /\ exists md,
      findByExternalId (object_id (object (payload dto)))
        (snd (handleWebhook dto t db))
      = Some (withStatus st md p).
Proof.
  unfold writes, handleWebhook, handleStripeWebhook, handleYookassaWebhook.
  intros Hw Hf.
  destruct (String.eqb (provider dto) "stripe").
  - destruct (String.eqb (kind (payload dto)) "payment_intent.succeeded").
    + injection Hw as <-. split; [now rewrite stripe_success_shape, Hf|]. eexists.
      apply (found_after_update COMPLETED stripeOk _ stripe_success_shape _ t db p Hf).
    + destruct (String.eqb (kind (payload dto))
                           "payment_intent.payment_failed");
        [|discriminate].
      injection Hw as <-. split; [now rewrite stripe_failed_shape, Hf|]. eexists.
      apply (found_after_update FAILED stripeKo _ stripe_failed_shape _ t db p Hf).
  - destruct (String.eqb (provider dto) "yookassa"); [|discriminate].
    destruct (String.eqb (kind (payload dto)) "payment.succeeded").
    + injection Hw as <-. split; [now rewrite yookassa_success_shape, Hf|]. eexists.
      apply (found_after_update COMPLETED yookassaOk _ yookassa_success_shape _ t db p Hf).
    + destruct (String.eqb (kind (payload dto)) "payment.canceled");
        [|discriminate].
      injection Hw as <-. split; [now rewrite yookassa_failed_shape, Hf|]. eexists.
      apply (found_after_update FAILED yookassaKo _ yookassa_failed_shape _ t db p Hf).
Qed.





End Webhooks.

(** ** Refunds *)

Section Refund.
Import PaymentStatus PaymentMethod PaymentsService.

Lemma refund_ok cfg id dto u now db q db' :
  refund cfg id dto u now db = (Ok q, db') ->
  exists p ext,
    find (hasId id) (payments db) = Some p
    /\ payment_status p = COMPLETED
    /\ callRefundProvider cfg p (refundAmountOf dto p) = Resolved ext
    /\ q = withStatus REFUNDED
             (<["refund" := MRefund (refundAmountOf dto p) (refund_reason dto)
                              ext (user_name u) now]> (payment_metadata p))
             p
    /\ db' = set_payments db (updateWhere (hasId (payment_id p))
               (withStatus REFUNDED
                  (<["refund" := MRefund (refundAmountOf dto p)
                                   (refund_reason dto) ext (user_name u)
                                   now]> (payment_metadata p)))
               (payments db)).
Proof.
  unfold refund, bind, query, throwIf.
  destruct (find (hasId id) (payments db)) as [p|] eqn:Hf; [|discriminate].
  destruct (payment_status p) eqn:Hs; cbn; try discriminate.
  destruct (Role_eqb (user_role u) RESTAURANT_OWNER); cbn.
  - destruct (ownerOf p db) as [o|]; cbn; [|discriminate].
    destruct (String.eqb o (user_id u)); cbn; [|discriminate].
    destruct (callRefundProvider cfg p (refundAmountOf dto p)) as [ext|m]
      eqn:Hc; [|discriminate].
    unfold updatePayment. intros [= <- <-]. exists p, ext. auto.
  - destruct (callRefundProvider cfg p (refundAmountOf dto p)) as [ext|m]
      eqn:Hc; [|discriminate].
    unfold updatePayment. intros [= <- <-]. exists p, ext. auto.
Qed.

(** C5, as the code has it.  A refund that succeeds was asked of a
    Completed payment; when it is for the full amount it stores the
    status Refunded and, under the metadata key [refund], a refund of
    that amount, and it leaves the amount, both commission columns
    and the net as they were written when the payment was created. *)
Theorem full_refund_keeps_commission
    (cfg : Config) (id : string) (dto : RefundPaymentDto) (u : User)
    (now : Z) (db db' : Db) (p q : Payment) :
  find (hasId id) (payments db) = Some p ->
  refundAmountOf dto p = payment_amount p ->
  refund cfg id dto u now db = (Ok q, db') ->
  payment_status p = COMPLETED
  /\ payment_status q = REFUNDED
  /\ (exists ext,
         payment_metadata q !! "refund"
         = Some (MRefund (payment_amount p) (refund_reason dto) ext
                         (user_name u) now))
  /\ payment_amount q = payment_amount p
  /\ payment_commission q = payment_commission p
  /\ payment_commissionAmount q = payment_commissionAmount p
  /\ payment_netAmount q = payment_netAmount p
  /\ find (hasId id) (payments db') = Some q.
Proof.
  intros Hf Hfull H.
  apply refund_ok in H as (p' & ext & Hf' & Hs & _ & -> & ->).
  rewrite Hf in Hf'. injection Hf' as <-. rewrite Hfull.
  repeat split; auto.
  - exists ext. cbn. apply lookup_insert_eq.
  - cbn. rewrite (find_updateWhere _ _ _ _ p); [|reflexivity|exact Hf].
    now rewrite hasId_refl.
Qed.

Lemma full_refund_keeps_commission_witness :
  payment_status WebhookScenario.refunded1500 = REFUNDED
  /\ payment_commissionAmount WebhookScenario.refunded1500 = 75
  /\ payment_netAmount WebhookScenario.refunded1500 = 1425.
Proof.
  destruct (full_refund_keeps_commission Scenario.providersUp "pay-1"
              WebhookScenario.fullRefund Scenario.owner
              WebhookScenario.afterRefund Scenario.paidDb
              (set_payments Scenario.paidDb [WebhookScenario.refunded1500])
              Scenario.settledPayment WebhookScenario.refunded1500
              eq_refl eq_refl eq_refl)
    as (_ & Hs & _ & _ & _ & Hc & Hn & _).
  split; [exact Hs|]. split; [exact Hc | exact Hn].
Defined.

(** C5 as stated fails.  The payment of 1500 with commission 75 and
    net 1425 is refunded in full: it is stored as Refunded with both
    figures unchanged, not zero. *)
Lemma full_refund_does_not_zero_commission :
  refund Scenario.providersUp "pay-1" WebhookScenario.fullRefund
    Scenario.owner WebhookScenario.afterRefund Scenario.paidDb
  = (Ok WebhookScenario.refunded1500,
     set_payments Scenario.paidDb [WebhookScenario.refunded1500])
  /\ payment_status WebhookScenario.refunded1500 = REFUNDED
  /\ payment_commissionAmount WebhookScenario.refunded1500 = 75
  /\ payment_commission WebhookScenario.refunded1500 = 75
  /\ payment_netAmount WebhookScenario.refunded1500 = 1425
  /\ payment_commissionAmount WebhookScenario.refunded1500 <> 0
  /\ payment_netAmount WebhookScenario.refunded1500 <> 0.
Proof. repeat split; discriminate. Qed.

End Refund.

(** ** Scheduling shifts *)

Section Shifts.
Import ShiftStatus EmployeesService Spec.

(** The three-way SQL test is the intersection of the half-open
    intervals, for a stored shift that starts before it ends. *)
Lemma timesOverlap_intersect (s : Shift) (startTime endTime : Z) :
  shift_startTime s < shift_endTime s ->
  startTime < endTime ->
  timesOverlap s startTime endTime = true
  <-> intersect (shift_startTime s) (shift_endTime s) startTime endTime.
Proof.
  intros Hs Hd. unfold timesOverlap, intersect.
  rewrite !orb_true_iff, !andb_true_iff, !Z.leb_le, !Z.ltb_lt,
    !Z.gtb_lt, !Z.geb_le.
  split.
  - intros H. exists (Z.max (shift_startTime s) startTime). lia.
  - intros (t & H1 & H2). lia.
Qed.


Lemma createShift_checks dto u newId db e :
  findOne (employeeId dto) u db = (Ok e, db) ->
  createShift dto u newId db
  = if startTime dto >=? endTime dto
    then (Throw (BadRequestException "Start time must be before end time"),
          db)
    else if 0 <? Z.of_nat (List.length
                             (overlappingShift (employeeId dto)
                                (startTime dto) (endTime dto) db))
    then (Throw (BadRequestException
                   "Employee has overlapping shift scheduled"), db)
    else
      let shift :=
        {| shift_id := newId;
           shift_employeeId := employeeId dto;
           shift_startTime := startTime dto;
           shift_endTime := endTime dto;
           shift_actualStartTime := None;
           shift_actualEndTime := None;
           shift_breakDuration :=
             Some (match breakDuration dto with
                   | Some b => b
                   | None => 0
                   end);
           shift_notes := notes dto;
           shift_status := SCHEDULED |} in
      (Ok shift, set_shifts db (shifts db ++ [shift])).
Proof.
  intros Hf. unfold createShift, bind. rewrite Hf.
  destruct (startTime dto >=? endTime dto); [reflexivity|].
  cbn. destruct (0 <? _); reflexivity.
Qed.



End Shifts.

(** ** Clocking out *)

Section ClockOut.
Import ShiftStatus EmployeesService.





End ClockOut.

(** ** Order numbers *)

Section Numbering.
Import OrdersService.

Lemma validateItems_keeps_db rid items : forall total acc db r db',
  validateItems rid items total acc db = (r, db') -> db' = db.
Proof.
  induction items as [|item rest IH]; intros total acc db r db'; cbn.
  - intros [= _ <-]. reflexivity.
  - unfold bind, query, throwIf.
    destruct (find _ (products db)) as [product|]; cbn.
    + destruct (String.eqb (product_category_restaurantId product) rid);
        cbn; [|intros [= _ <-]; reflexivity].
      destruct (product_isAvailable product); cbn;
        [|intros [= _ <-]; reflexivity].
      apply IH.
    + intros [= _ <-]. reflexivity.
Qed.



End Numbering.

Section OrderNumbers.
Import OrdersService NumberingScenario.

(** C6, at its failing input.  The date of an order number is the
    UTC date, the count behind it is taken over the server's local
    day.  On a server three hours ahead of UTC, a restaurant's first
    order at 07:00 UTC on 1 January gets 20240101-001; its next
    order at 22:00 UTC, which is past local midnight and still
    1 January in UTC, gets 20240101-001 again. *)
Theorem order_number_repeats_after_local_midnight :
  exists first db1 second db2,
    create utcPlus3 oneRamen Scenario.customer firstOrderAt "order-a" opening
    = (Ok first, db1)
    /\ create utcPlus3 oneRamen Scenario.customer secondOrderAt "order-b" db1
       = (Ok second, db2)
    /\ order_orderNumber first = "20240101-001"
    /\ order_orderNumber second = "20240101-001"
    /\ order_restaurantId first = order_restaurantId second
    /\ order_id first <> order_id second
    /\ List.length (orders db2) = 2%nat.
Proof.
  eexists _, _, _, _.
  split; [vm_compute; reflexivity|].
  split; [vm_compute; reflexivity|].
  repeat split. discriminate.
Qed.

(** On a server in UTC the same two requests are numbered 001 and
    002. *)
Lemma order_numbers_in_utc :
  exists first db1 second db2,
    create 0 oneRamen Scenario.customer firstOrderAt "order-a" opening
    = (Ok first, db1)
    /\ create 0 oneRamen Scenario.customer secondOrderAt "order-b" db1
       = (Ok second, db2)
    /\ order_orderNumber first = "20240101-001"
    /\ order_orderNumber second = "20240101-002".
Proof.
  eexists _, _, _, _.
  split; [vm_compute; reflexivity|].
  split; [vm_compute; reflexivity|].
  split; reflexivity.
Qed.

End OrderNumbers.

(** * Further properties of the services *)

(** ** Orders: what a status update and a cancel can and cannot do *)

Section OrderUpdates.
Import OrderStatus OrdersService Spec.

Lemma no_self_transition (s : OrderStatus.t) :
  includes (validTransitions s) s = false.
Proof. destruct s; reflexivity. Qed.

Lemma no_transition_from_terminal (s to : OrderStatus.t) :
  terminal s = true -> includes (validTransitions s) to = false.
Proof. destruct s; try discriminate; reflexivity. Qed.

(** The three ways a status update ends. *)
Lemma updateStatus_cases id dto u now db :
  (exists e, updateStatus id dto u now db = (Throw e, db))
  \/ (exists o,
        findOne id u db = (Ok o, db)
        /\ includes (validTransitions (order_status (row o))) (status dto)
           = true
        /\ isStaff (user_role u) = true
        /\ updateStatus id dto u now db
           = (Ok (applyStatus dto now (row o)),
              set_orders db
                (updateWhere (hasId id) (applyStatus dto now) (orders db)))).
Proof.
  destruct (findOne id u db) as [[o|e] db0] eqn:Hf;
    pose proof (findOne_keeps_db _ _ _ _ _ Hf); subst db0.
  - destruct (includes (validTransitions (order_status (row o))) (status dto))
      eqn:Hi.
    + destruct (isStaff (user_role u)) eqn:Hs.
      * right. exists o.
        split; [first [assumption | reflexivity]|].
        split; [first [assumption | reflexivity]|].
        split; [first [assumption | reflexivity]|].
        apply updateStatus_legal; assumption.
      * left. unfold updateStatus, bind. rewrite Hf.
        unfold validateStatusTransition. rewrite Hi, Hs. cbn. eauto.
    + left. eexists. eapply updateStatus_illegal; eassumption.
  - left. exists e. unfold updateStatus, bind. now rewrite Hf.
Qed.

(** X1.  An order that is Completed or Cancelled is frozen: whoever
    asks and whatever is asked, a status update and a cancel both throw
    and leave the database as it was. *)
Theorem terminal_order_is_frozen
    (db : Db) (id : string) (u : User) (now : Z) (o : OrderWithRelations) :
  findUnique id db = Some o ->
  terminal (order_status (row o)) = true ->
  (forall dto, exists e, updateStatus id dto u now db = (Throw e, db))
  /\ (forall dto, exists e, cancel id dto u now db = (Throw e, db)).
Proof.
  intros Hu Ht. split; intros dto.
  - destruct (updateStatus_cases id dto u now db)
      as [He | (o' & Hf & Hi & _)]; [exact He|].
    apply findOne_found in Hf. rewrite Hu in Hf. injection Hf as <-.
    rewrite (no_transition_from_terminal _ _ Ht) in Hi. discriminate.
  - destruct (findOne id u db) as [[o'|e] db0] eqn:Hf;
      pose proof (findOne_keeps_db _ _ _ _ _ Hf); subst db0.
    + pose proof (findOne_found _ _ _ _ Hf) as Hu'. rewrite Hu in Hu'.
      injection Hu' as <-. eapply cancel_terminal; eassumption.
    + exists e. apply cancel_no_access; assumption.
Qed.

Lemma terminal_order_is_frozen_witness :
  exists e,
    updateStatus "order-1" OrderScenario.toReady Scenario.owner 1704092460000
      OrderScenario.closedDb = (Throw e, OrderScenario.closedDb).
Proof.
  apply (terminal_order_is_frozen OrderScenario.closedDb "order-1"
           Scenario.owner 1704092460000
           (include OrderScenario.closedDb OrderScenario.completedOrder)
           eq_refl eq_refl).
Defined.

(** X2.  A customer never changes the status of an order, their own
    included: every status update by a customer throws and leaves the
    database as it was. *)
Theorem customer_never_updates_status
    (db : Db) (id : string) (dto : UpdateOrderStatusDto) (u : User) (now : Z) :
  user_role u = CUSTOMER ->
  exists e, updateStatus id dto u now db = (Throw e, db).
Proof.
  intros Hr.
  destruct (updateStatus_cases id dto u now db)
    as [He | (o & _ & _ & Hs & _)]; [exact He|].
  rewrite Hr in Hs. discriminate.
Qed.

Lemma customer_never_updates_status_witness :
  exists e,
    updateStatus "order-1" OrderScenario.toReady Scenario.customer
      1704092460000 Scenario.paidDb = (Throw e, Scenario.paidDb).
Proof.
  apply (customer_never_updates_status Scenario.paidDb "order-1"
           OrderScenario.toReady Scenario.customer 1704092460000 eq_refl).
Defined.

Lemma findUnique_after_update id f db o :
  (forall x, order_id (f x) = order_id x) ->
  findUnique id db = Some o ->
  option_map row
    (findUnique id (set_orders db (updateWhere (hasId id) f (orders db))))
  = Some (f (row o)).
Proof.
  intros Hid Hu. apply findUnique_row in Hu as [Hr Hh].
  unfold findUnique. cbn. fold (hasId id).
  rewrite (find_updateWhere _ _ _ _ (row o)); [| |exact Hr].
  - now rewrite Hh.
  - intros x. unfold hasId. now rewrite Hid.
Qed.

(** X3.  A status update is not repeatable: once it has succeeded, the
    same update of the same order, by anyone and at any time, throws
    and changes nothing, because no status is allowed to follow
    itself. *)
Theorem status_update_cannot_be_repeated
    (db db' : Db) (id : string) (dto : UpdateOrderStatusDto) (u : User)
    (now : Z) (r : Order) :
  updateStatus id dto u now db = (Ok r, db') ->
  order_status r = status dto
  /\ forall u' now', exists e,
       updateStatus id dto u' now' db' = (Throw e, db').
Proof.
  intros H.
  destruct (updateStatus_cases id dto u now db)
    as [(e & He) | (o & Hf & _ & _ & Hok)]; [congruence|].
  rewrite Hok in H. injection H as <- <-. split; [reflexivity|].
  intros u' now'.
  destruct (updateStatus_cases id dto u' now'
              (set_orders db
                 (updateWhere (hasId id) (applyStatus dto now) (orders db))))
    as [He | (o' & Hf' & Hi' & _)]; [exact He|].
  exfalso. apply findOne_found in Hf, Hf'.
  pose proof (findUnique_after_update id (applyStatus dto now) db o
                (fun _ => eq_refl) Hf) as Hrow.
  rewrite Hf' in Hrow. injection Hrow as Hrow. rewrite Hrow in Hi'.
  cbn in Hi'. rewrite no_self_transition in Hi'. discriminate.
Qed.

Lemma status_update_cannot_be_repeated_witness :
  exists e,
    updateStatus "order-1" OrderScenario.toReady Scenario.admin 1704092520000
      (set_orders Scenario.paidDb
         [applyStatus OrderScenario.toReady 1704092460000
            Scenario.preparingOrder])
    = (Throw e,
       set_orders Scenario.paidDb
         [applyStatus OrderScenario.toReady 1704092460000
            Scenario.preparingOrder]).
Proof.
  apply (status_update_cannot_be_repeated Scenario.paidDb _ "order-1"
           OrderScenario.toReady Scenario.owner 1704092460000
           (applyStatus OrderScenario.toReady 1704092460000
              Scenario.preparingOrder) eq_refl).
Defined.

End OrderUpdates.

Section OrderCancelAndFrame.
Import OrderStatus OrdersService Spec Frame.

Lemma include_set_orders db os o :
  include (set_orders db os) o = include db o.
Proof. reflexivity. Qed.

Lemma verifyOrderAccess_same o1 o2 u db1 db2 r d :
  restaurant o1 = restaurant o2 ->
  order_customerId (row o1) = order_customerId (row o2) ->
  verifyOrderAccess o1 u db1 = (r, d) ->
  d = db1 /\ verifyOrderAccess o2 u db2 = (r, db2).
Proof.
  intros Hr Hc. unfold verifyOrderAccess. rewrite Hr, Hc.
  destruct (user_role u); cbn; try (intros [= <- <-]; now split).
  - destruct (restaurant o2) as [x|]; cbn.
    + destruct (String.eqb _ _); cbn; intros [= <- <-]; now split.
    + intros [= <- <-]; now split.
  - destruct (isNot _ _); cbn; intros [= <- <-]; now split.
Qed.

Lemma findOne_after_row_update id u db o f :
  (forall x, order_id (f x) = order_id x) ->
  (forall x, order_restaurantId (f x) = order_restaurantId x) ->
  (forall x, order_customerId (f x) = order_customerId x) ->
  findOne id u db = (Ok o, db) ->
  let db' := set_orders db (updateWhere (hasId id) f (orders db)) in
  findOne id u db' = (Ok (include db' (f (row o))), db').
Proof.
  intros Hid Hrest Hcust Hf db'.
  pose proof (findOne_found _ _ _ _ Hf) as Hu.
  pose proof (findUnique_row _ _ _ Hu) as [Hr Hh].
  assert (Hu' : findUnique id db' = Some (include db' (f (row o)))).
  { unfold findUnique, db'. cbn. fold (hasId id).
    rewrite (find_updateWhere _ _ _ _ (row o)); [| |exact Hr].
    - now rewrite Hh.
    - intros x. unfold hasId. now rewrite Hid. }
  assert (Ho : o = include db (row o)).
  { unfold findUnique in Hu.
    destruct (find _ (orders db)); [|discriminate].
    now injection Hu as <-. }
  revert Hf. unfold findOne, bind, query. rewrite Hu, Hu'.
  destruct (verifyOrderAccess o u db) as [[[]|e] d] eqn:Hv; [|discriminate].
  intros _.
  destruct (verifyOrderAccess_same o (include db' (f (row o))) u db db'
              (Ok tt) d) as [_ ->]; auto.
  - rewrite Ho. unfold include, db'. cbn. now rewrite Hrest.
  - cbn. now rewrite Hcust.
Qed.

(** X4.  A cancel is not repeatable: after a cancel has succeeded, a
    second cancel of the order by the same caller, whatever its reason,
    is refused with "Order is already cancelled" and changes
    nothing. *)
Theorem cancel_cannot_be_repeated
    (db db' : Db) (id : string) (dto : CancelOrderDto) (u : User) (now : Z)
    (c : OrderWithRelations) :
  cancel id dto u now db = (Ok c, db') ->
  order_status (row c) = CANCELLED
  /\ forall dto' now',
       cancel id dto' u now' db'
       = (Throw (BadRequestException "Order is already cancelled"), db').
Proof.
  intros H.
  destruct (findOne id u db) as [[o|e] db0] eqn:Hf;
    pose proof (findOne_keeps_db _ _ _ _ _ Hf); subst db0.
  - destruct (terminal (order_status (row o))) eqn:Ht.
    + destruct (cancel_terminal id dto u now db o Hf Ht) as [e He].
      congruence.
    + rewrite (cancel_open id dto u now db o Hf Ht) in H.
      injection H as <- <-. split; [reflexivity|].
      intros dto' now'.
      pose proof (findOne_after_row_update id u db o
                    (applyCancel dto now (order_specialInstructions (row o)))
                    (fun _ => eq_refl) (fun _ => eq_refl) (fun _ => eq_refl)
                    Hf) as Hf'.
      cbv zeta in Hf'. unfold cancel, bind. rewrite Hf'. reflexivity.
  - rewrite (cancel_no_access _ _ _ _ _ _ Hf) in H. discriminate.
Qed.

Lemma cancel_cannot_be_repeated_witness :
  cancel "order-1" (mkCancelOrderDto "again" None) Scenario.owner
    1704092520000
    (set_orders Scenario.paidDb
       [applyCancel Scenario.cancelWithRefund 1704092460000 None
          Scenario.preparingOrder])
  = (Throw (BadRequestException "Order is already cancelled"),
     set_orders Scenario.paidDb
       [applyCancel Scenario.cancelWithRefund 1704092460000 None
          Scenario.preparingOrder]).
Proof.
  apply (cancel_cannot_be_repeated Scenario.paidDb _ "order-1"
           Scenario.cancelWithRefund Scenario.owner 1704092460000
           (cancelled Scenario.cancelWithRefund 1704092460000
              (include Scenario.paidDb Scenario.preparingOrder)) eq_refl).
Defined.

Lemma updateWhere_frame {A : Type} (sel keep : A -> bool) (f : A -> A)
    (rows : list A) :
  (forall x, keep x = true -> sel x = false) ->
  (forall x, keep (f x) = keep x) ->
  List.filter keep (updateWhere sel f rows) = List.filter keep rows.
Proof.
  intros Hdis Hkeep. induction rows as [|r rows IH]; [reflexivity|].
  cbn. destruct (sel r) eqn:Es.
  - rewrite Hkeep. destruct (keep r) eqn:Ek.
    + rewrite (Hdis r Ek) in Es. discriminate.
    + exact IH.
  - destruct (keep r); [f_equal|]; exact IH.
Qed.

Lemma only_order_touched_refl id db : only_order_touched id db db.
Proof. repeat split. Qed.

Lemma only_order_touched_update id f db :
  (forall x, order_id (f x) = order_id x) ->
  only_order_touched id db
    (set_orders db (updateWhere (hasId id) f (orders db))).
Proof.
  intros Hid. repeat split; cbn.
  - unfold updateWhere. rewrite map_map. apply map_ext.
    intros x. destruct (hasId id x); [apply Hid | reflexivity].
  - apply updateWhere_frame.
    + intros x Hx. now apply negb_true_iff.
    + intros x. unfold hasId. now rewrite Hid.
Qed.

(** X5.  A status update and a cancel write to one order only: whether
    they succeed or throw, every other table is left as it was, the
    orders keep their ids and their order, and every order with
    another id is unchanged; in particular no payment is touched and
    no order item is removed. *)
Theorem order_writes_touch_one_order
    (db db' : Db) (id : string) (u : User) (now : Z)
    (statusDto : UpdateOrderStatusDto) (cancelDto : CancelOrderDto) :
  snd (updateStatus id statusDto u now db) = db'
  \/ snd (cancel id cancelDto u now db) = db' ->
  only_order_touched id db db'.
Proof.
  intros [H | H]; subst db'.
  - destruct (updateStatus_cases id statusDto u now db)
      as [(e & He) | (o & _ & _ & _ & Hok)].
    + rewrite He. apply only_order_touched_refl.
    + rewrite Hok. now apply only_order_touched_update.
  - destruct (findOne id u db) as [[o|e] db0] eqn:Hf;
      pose proof (findOne_keeps_db _ _ _ _ _ Hf); subst db0.
    + destruct (terminal (order_status (row o))) eqn:Ht.
      * destruct (cancel_terminal id cancelDto u now db o Hf Ht) as [e He].
        rewrite He. apply only_order_touched_refl.
      * rewrite (cancel_open id cancelDto u now db o Hf Ht).
        now apply only_order_touched_update.
    + rewrite (cancel_no_access _ _ _ _ _ _ Hf).
      apply only_order_touched_refl.
Qed.

Lemma order_writes_touch_one_order_witness :
  payments
    (snd (cancel "order-1" Scenario.cancelWithRefund Scenario.owner
            1704092460000 Scenario.paidDb))
  = payments Scenario.paidDb.
Proof.
  apply (order_writes_touch_one_order Scenario.paidDb _ "order-1"
           Scenario.owner 1704092460000 OrderScenario.toReady
           Scenario.cancelWithRefund (or_intror eq_refl)).
Defined.

End OrderCancelAndFrame.

(** ** Orders: creation *)

Section OrderCreation.
Import OrderStatus OrdersService Totals.

Lemma sumOfLines_app (a b : list OrderItem) :
  sumOfLines (a ++ b) = sumOfLines a + sumOfLines b.
Proof.
  unfold sumOfLines. induction a as [|x a IH]; cbn; [reflexivity|].
  rewrite IH. lia.
Qed.





(** The steps of [create] before the order is numbered. *)
Lemma create_steps tz dto u now newId db :
  (exists e, create tz dto u now newId db = (Throw e, db))
  \/ (exists r v,
        find (fun r => String.eqb (restaurant_id r) (restaurantId dto))
             (restaurants db) = Some r
        /\ restaurant_status r = "ACTIVE"
        /\ validateItems (restaurantId dto) (items dto) 0 [] db = (Ok v, db)
        /\ exists o,
             create tz dto u now newId db
             = (Ok o,
                set_orderItems (set_orders db (orders db ++ [o]))
                  (orderItems db ++ map (withOrderId newId) (snd v)))
             /\ order_id o = newId
             /\ order_status o = PENDING
             /\ order_totalAmount o = fst v
             /\ order_customerId o
                = (if Role_eqb (user_role u) CUSTOMER
                   then Some (user_id u) else None)).
Proof.
  unfold create, bind, query, throwIf.
  destruct (find _ (restaurants db)) as [r|] eqn:Hr; [|left; eauto].
  destruct (String.eqb (restaurant_status r) "ACTIVE") eqn:Hs; cbn;
    [|left; eauto].
  apply String.eqb_eq in Hs.
  destruct (tableId dto) as [tid|]; cbn;
    [destruct (String.eqb tid ""); cbn;
     [|unfold bind, query; destruct (find _ (tables db)); cbn;
       [|left; eauto]]|];
    (destruct (validateItems (restaurantId dto) (items dto) 0 [] db)
       as [[v|e] db1] eqn:Hv;
     pose proof (validateItems_keeps_db _ _ _ _ _ _ _ Hv); subst db1;
     [|left; eauto];
     right; exists r, v; split; [reflexivity|]; split; [exact Hs|];
     split; [reflexivity|];
     unfold generateOrderNumber, bind, query, ret, write; cbn;
     eexists; split; [reflexivity|]; cbn; auto).
Qed.



(** X7.  [create] is all or nothing: when it throws (unknown or closed
    restaurant, table of another food court, unknown, foreign or
    unavailable product) nothing has been written, not even for the
    items that were valid. *)
Theorem failed_create_writes_nothing
    (tz : Z) (dto : CreateOrderDto) (u : User) (now : Z) (newId : string)
    (db db' : Db) (e : HttpException) :
  create tz dto u now newId db = (Throw e, db') -> db' = db.
Proof.
  intros H.
  destruct (create_steps tz dto u now newId db)
    as [(e' & He) | (r & v & _ & _ & _ & o' & Hc & _)]; congruence.
Qed.

Lemma failed_create_writes_nothing_witness :
  create 0 CreateScenario.withGyoza Scenario.customer
    NumberingScenario.firstOrderAt "order-a" CreateScenario.menu
  = (Throw (BadRequestException
              ("Product " ++ String (ascii_of_nat 34) "" ++ "Gyoza"
               ++ String (ascii_of_nat 34) "" ++ " is currently unavailable")),
     CreateScenario.menu).
Proof.
  assert (H : exists e db',
             create 0 CreateScenario.withGyoza Scenario.customer
               NumberingScenario.firstOrderAt "order-a" CreateScenario.menu
             = (Throw e, db')
             /\ e = BadRequestException
                      ("Product " ++ String (ascii_of_nat 34) "" ++ "Gyoza"
                       ++ String (ascii_of_nat 34) ""
                       ++ " is currently unavailable"))
    by (eexists _, _; split; reflexivity).
  destruct H as (e & db' & H & ->).
  rewrite H. f_equal.
  exact (failed_create_writes_nothing _ _ _ _ _ _ _ _ H).
Defined.





End OrderCreation.

(** ** Orders: bulk status update *)

Section BulkUpdate.
Import OrderStatus OrdersService OrdersController.

Lemma updateStatus_keeps_target id id' dto u now db :
  statusOf id db = Some (status dto) ->
  statusOf id (snd (updateStatus id' dto u now db)) = Some (status dto).
Proof.
  intros H.
  destruct (updateStatus_cases id' dto u now db)
    as [(e & ->) | (o & _ & _ & _ & ->)]; [exact H|].
  unfold statusOf in *. cbn. unfold updateWhere.
  rewrite find_map_preserving.
  - destruct (find (hasId id) (orders db)) as [r|]; [|discriminate].
    cbn in *. destruct (hasId id' r); [reflexivity | exact H].
  - intros x. now destruct (hasId id' x).
Qed.

Lemma updateStatus_reaches_target id dto u now db r db' :
  updateStatus id dto u now db = (Ok r, db') ->
  statusOf id db' = Some (status dto).
Proof.
  intros H.
  destruct (updateStatus_cases id dto u now db)
    as [(e & He) | (o & Hf & _ & _ & Hok)]; [congruence|].
  rewrite Hok in H. injection H as _ <-.
  apply findOne_found, findUnique_row in Hf as [Hr Hh].
  unfold statusOf. cbn.
  rewrite (find_updateWhere _ _ _ _ (row o)); [|reflexivity|exact Hr].
  now rewrite Hh.
Qed.

Lemma bulkLoop_keeps_target id ids dto u clock : forall n db,
  statusOf id db = Some (status dto) ->
  statusOf id (snd (bulkLoop ids dto u clock n db)) = Some (status dto).
Proof.
  induction ids as [|x ids IH]; intros n db H; [exact H|].
  cbn. pose proof (updateStatus_keeps_target id x dto u (clock n) db H) as H1.
  destruct (updateStatus x dto u (clock n) db) as [r db1]. cbn in H1.
  specialize (IH (S n) db1 H1).
  destruct (bulkLoop ids dto u clock (S n) db1) as [res db2]. exact IH.
Qed.

Lemma bulkLoop_spec ids dto u clock : forall n db,
  map fst (fst (bulkLoop ids dto u clock n db)) = ids
  /\ forall id r,
       In (id, Ok r) (fst (bulkLoop ids dto u clock n db)) ->
       statusOf id (snd (bulkLoop ids dto u clock n db)) = Some (status dto).
Proof.
  induction ids as [|x ids IH]; intros n db; [split; [reflexivity|]|].
  - intros id r [].
  - cbn. destruct (updateStatus x dto u (clock n) db) as [r1 db1] eqn:H1.
    specialize (IH (S n) db1).
    pose proof (bulkLoop_keeps_target x ids dto u clock (S n) db1) as Hk.
    destruct (bulkLoop ids dto u clock (S n) db1) as [res db2].
    cbn in *. destruct IH as [IHm IHs]. split; [now rewrite IHm|].
    intros id r [[= <- ->] | Hin].
    + apply Hk. eapply updateStatus_reaches_target; eassumption.
    + eapply IHs; eassumption.
Qed.

Lemma filter_partition_length {A : Type} (p : A -> bool) (l : list A) :
  (List.length (List.filter p l)
   + List.length (List.filter (fun x => negb (p x)) l))%nat
  = List.length l.
Proof.
  induction l as [|x l IH]; [reflexivity|].
  cbn. destruct (p x); cbn; lia.
Qed.

(** X10.  The bulk update answers for every id it was given, in the
    given sequence, with a success or the exception caught for it, and
    the two counts add up to the number of ids.  An id that failed did
    not stop the ones after it, and every order reported as updated
    has the requested status when the bulk update returns, even when
    its id was listed more than once. *)
Theorem bulk_update_reports_every_id
    (dto : BulkUpdateDto) (u : User) (clock : nat -> Z) (db db' : Db)
    (response : BulkResponse) :
  bulkUpdateStatus dto u clock db = (response, db') ->
  map fst (results response) = orderIds dto
  /\ (successCount response + errorCount response)%nat
     = List.length (orderIds dto)
  /\ forall id r,
       In (id, Ok r) (results response) ->
       statusOf id db' = Some (bulk_status dto).
Proof.
  unfold bulkUpdateStatus.
  pose proof (bulkLoop_spec (orderIds dto)
                (mkUpdateOrderStatusDto (bulk_status dto)
                                        (bulk_estimatedTime dto))
                u clock 0%nat db) as [Hm Hs].
  destruct (bulkLoop _ _ u clock 0%nat db) as [res db2].
  intros [= <- <-]. cbn in *. split; [exact Hm|]. split; [|exact Hs].
  rewrite filter_partition_length, <- Hm. symmetry. apply length_map.
Qed.

(** The order being prepared is asked to become Ready twice in one
    request, along with an order that does not exist. *)
Lemma bulk_update_reports_every_id_witness :
  exists response db',
    bulkUpdateStatus
      (mkBulkUpdateDto ["order-1"; "order-0"; "order-1"] READY None)
      Scenario.owner (fun n => 1704092460000 + Z.of_nat n) Scenario.paidDb
    = (response, db')
    /\ successCount response = 1%nat
    /\ errorCount response = 2%nat
    /\ map fst (results response) = ["order-1"; "order-0"; "order-1"].
Proof.
  eexists _, _. split; [vm_compute; reflexivity|].
  split; [reflexivity|]. split; [reflexivity|].
  apply (bulk_update_reports_every_id
           (mkBulkUpdateDto ["order-1"; "order-0"; "order-1"] READY None)
           Scenario.owner (fun n => 1704092460000 + Z.of_nat n)
           Scenario.paidDb _ _ eq_refl).
Defined.

End BulkUpdate.

(** ** Payments: one payment for an order *)

Section OnePayment.
Import PaymentStatus PaymentMethod PaymentsService PaymentsController.

Lemma find_app_l {A : Type} (f : A -> bool) (l1 l2 : list A) (x : A) :
  find f l1 = Some x -> find f (l1 ++ l2) = Some x.
Proof.
  induction l1 as [|a l1 IH]; cbn; [discriminate|].
  destruct (f a); auto.
Qed.

Lemma find_app_r {A : Type} (f : A -> bool) (l1 l2 : list A) :
  find f l1 = None -> find f (l1 ++ l2) = find f l2.
Proof.
  induction l1 as [|a l1 IH]; cbn; [reflexivity|].
  destruct (f a); [discriminate | exact IH].
Qed.

Lemma findOrder_id id db o : findOrder id db = Some o -> order_id o = id.
Proof.
  intros H. apply find_some in H as [_ H]. now apply String.eqb_eq.
Qed.





(** An order that has a payment is closed to all three routes. *)
Lemma paid_order_blocks_creation cfg request u now newId db order :
  findOrder (orderIdOf request) db = Some order ->
  isSome (paymentOf order db) = true ->
  exists e, handle cfg request u now newId db = (Throw e, db).
Proof.
  intros Hf Hp. destruct request as [dto|dto|dto]; cbn in *.
  - unfold create, bind, query, throwIf. rewrite Hf. cbn. rewrite Hp.
    cbn. eauto.
  - unfold processCashPayment, bind, query, throwIf.
    destruct (isStaff (user_role u)); cbn; [|eauto].
    rewrite Hf. cbn. rewrite Hp. cbn. eauto.
  - unfold processCardTerminalPayment, bind, query, throwIf.
    destruct (isStaff (user_role u)); cbn; [|eauto].
    rewrite Hf. cbn. rewrite Hp. cbn. eauto.
Qed.

Lemma paymentOf_inserted order db p :
  payment_orderId p = order_id order ->
  isSome (paymentOf order (set_payments db (payments db ++ [p]))) = true.
Proof.
  intros Hid. unfold paymentOf. cbn.
  destruct (find (fun q => String.eqb (payment_orderId q) (order_id order))
                 (payments db)) as [x|] eqn:E.
  - now rewrite (find_app_l _ _ [p] _ E).
  - rewrite (find_app_r _ _ [p] E). cbn. rewrite Hid, String.eqb_refl.
    reflexivity.
Qed.

Lemma paymentOf_updated order db sel ext url md :
  isSome (paymentOf order db) = true ->
  isSome (paymentOf order
            (set_payments db
               (updateWhere sel (withExternal ext url md) (payments db))))
  = true.
Proof.
  unfold paymentOf. cbn. unfold updateWhere. intros H.
  rewrite find_map_preserving.
  - destruct (find _ (payments db)); [reflexivity | discriminate].
  - intros x. now destruct (sel x).
Qed.

(** After a creation that succeeded, the order is found as before and
    has a payment. *)
Lemma handle_ok_pays cfg request u now newId db p db' :
  handle cfg request u now newId db = (Ok p, db') ->
  exists order,
    findOrder (orderIdOf request) db' = Some order
    /\ isSome (paymentOf order db') = true.
Proof.
  destruct request as [dto|dto|dto]; cbn.
  - unfold create, bind, query, throwIf, insertPayment.
    destruct (findOrder (orderId dto) db) as [order|] eqn:Hf; cbn;
      [|discriminate].
    destruct (isSome (paymentOf order db)); cbn; [discriminate|].
    destruct (Role_eqb (user_role u) CUSTOMER && _); cbn; [discriminate|].
    pose proof (findOrder_id _ _ _ Hf) as Hid.
    destruct (method dto); cbn.
    + unfold processStripePayment. destruct (stripe cfg) as [client|]; cbn;
        [|discriminate].
      destruct (paymentIntents_create client _ _) as [intent|m]; cbn;
        [|discriminate].
      unfold updatePayment. intros [= _ <-]. exists order.
      split; [exact Hf|].
      apply (paymentOf_updated order
               (set_payments db (payments db ++ [_]))).
      now apply paymentOf_inserted.
    + unfold processYookassaPayment.
      destruct (negb (truthy (yookassaShopId cfg)) || _); cbn;
        [discriminate|].
      destruct (axios_post_payments cfg _ _) as [yk|m]; cbn; [|discriminate].
      unfold updatePayment. intros [= _ <-]. exists order.
      split; [exact Hf|].
      apply (paymentOf_updated order
               (set_payments db (payments db ++ [_]))).
      now apply paymentOf_inserted.
    + intros [= _ <-]. exists order. split; [exact Hf|].
      now apply paymentOf_inserted.
    + intros [= _ <-]. exists order. split; [exact Hf|].
      now apply paymentOf_inserted.
  - unfold processCashPayment, bind, query, throwIf, insertPayment.
    destruct (isStaff (user_role u)); cbn; [|discriminate].
    destruct (findOrder (cash_orderId dto) db) as [order|] eqn:Hf; cbn;
      [|discriminate].
    destruct (paymentOf order db); cbn; [discriminate|].
    intros [= _ <-]. exists order. split; [exact Hf|].
    apply paymentOf_inserted. cbn. symmetry. eapply findOrder_id, Hf.
  - unfold processCardTerminalPayment, bind, query, throwIf, insertPayment.
    destruct (isStaff (user_role u)); cbn; [|discriminate].
    destruct (findOrder (terminal_orderId dto) db) as [order|] eqn:Hf; cbn;
      [|discriminate].
    destruct (paymentOf order db); cbn; [discriminate|].
    intros [= _ <-]. exists order. split; [exact Hf|].
    apply paymentOf_inserted. cbn. symmetry. eapply findOrder_id, Hf.
Qed.

(** X12.  An order is paid once.  After a payment has been created for
    an order on any of the three routes, every further creation for
    that order, on any route, by anyone and with any provider
    configuration, throws and leaves the database as it is. *)
Theorem order_is_paid_once
    (cfg cfg' : Config) (request request' : CreationRequest) (u u' : User)
    (now now' : Z) (newId newId' : string) (db db' : Db) (p : Payment) :
  handle cfg request u now newId db = (Ok p, db') ->
  orderIdOf request' = orderIdOf request ->
  exists e, handle cfg' request' u' now' newId' db' = (Throw e, db').
Proof.
  intros H Hsame. apply handle_ok_pays in H as (order & Hf & Hp).
  rewrite <- Hsame in Hf. eapply paid_order_blocks_creation; eassumption.
Qed.

Lemma order_is_paid_once_witness :
  exists e,
    handle Scenario.providersUp (PostPayments RetryScenario.byCard)
      Scenario.customer 1704092520000 "pay-3"
      (set_payments PaymentScenario.db1099 [PaymentScenario.cashPayment1099])
    = (Throw e,
       set_payments PaymentScenario.db1099 [PaymentScenario.cashPayment1099]).
Proof.
  apply (order_is_paid_once Scenario.providersUp Scenario.providersUp
           (PostCash PaymentScenario.cash2000)
           (PostPayments RetryScenario.byCard)
           Scenario.cashier Scenario.customer PaymentScenario.afterCash
           1704092520000 "pay-2" "pay-3" PaymentScenario.db1099
           (set_payments PaymentScenario.db1099
              [PaymentScenario.cashPayment1099])
           PaymentScenario.cashPayment1099 eq_refl eq_refl).
Defined.

(** X13.  A charge that the provider refuses is not rolled back.  When
    [create] throws although the order exists, has no payment and may
    be paid by the caller, the Pending payment it had inserted stays in
    the table, with the amount and commission computed for it; from
    then on every creation for that order throws, so the payment can
    not be retried. *)
Theorem refused_charge_leaves_pending_payment
    (cfg : Config) (dto : CreatePaymentDto) (u : User) (newId : string)
    (db db' : Db) (order : Order) (e : HttpException) :
  findOrder (orderId dto) db = Some order ->
  paymentOf order db = None ->
  Role_eqb (user_role u) CUSTOMER
  && isNot (order_customerId order) (user_id u) = false ->
  create cfg dto u newId db = (Throw e, db') ->
  (exists p,
      payments db' = (payments db ++ [p])%list
      /\ payment_id p = newId
      /\ payment_orderId p = orderId dto
      /\ payment_status p = PENDING
      /\ payment_amount p = amount dto
      /\ payment_commissionAmount p = commissionOf (amount dto)
      /\ payment_externalPaymentId p = None)
  /\ forall cfg' request' u' now' newId',
       orderIdOf request' = orderId dto ->
       exists e',
         handle cfg' request' u' now' newId' db' = (Throw e', db').
Proof.
  intros Hf Hp Ha. unfold create, bind, query, throwIf, insertPayment.
  rewrite Hf. cbn. rewrite Hp. cbn. rewrite Ha. cbn.
  pose proof (findOrder_id _ _ _ Hf) as Hid.
  assert (Hblock : forall p,
             payment_orderId p = orderId dto ->
             forall cfg' request' u' now' newId',
               orderIdOf request' = orderId dto ->
               exists e',
                 handle cfg' request' u' now' newId'
                   (set_payments db (payments db ++ [p]))
                 = (Throw e', set_payments db (payments db ++ [p]))).
  { intros p Hpo cfg' request' u' now' newId' Hsame.
    apply (paid_order_blocks_creation _ _ _ _ _ _ order).
    - rewrite Hsame. exact Hf.
    - apply paymentOf_inserted. now rewrite Hpo. }
  destruct (method dto); cbn.
  - unfold processStripePayment. destruct (stripe cfg) as [client|]; cbn.
    + destruct (paymentIntents_create client _ _) as [intent|m]; cbn;
        [unfold updatePayment; discriminate|].
      intros [= _ <-]. split; [eexists; repeat split|].
      now apply Hblock.
    + intros [= _ <-]. split; [eexists; repeat split|].
      now apply Hblock.
  - unfold processYookassaPayment.
    destruct (negb (truthy (yookassaShopId cfg)) || _); cbn.
    + intros [= _ <-]. split; [eexists; repeat split|].
      now apply Hblock.
    + destruct (axios_post_payments cfg _ _) as [yk|m]; cbn;
        [unfold updatePayment; discriminate|].
      intros [= _ <-]. split; [eexists; repeat split|].
      now apply Hblock.
  - discriminate.
  - discriminate.
Qed.

Lemma refused_charge_leaves_pending_payment_witness :
  create Scenario.providersDown RetryScenario.byCard Scenario.customer
    "pay-3" PaymentScenario.db1099
  = (Throw (BadRequestException
              "Stripe payment failed: 503 Service Unavailable"),
     set_payments PaymentScenario.db1099 [RetryScenario.pendingRow])
  /\ exists e',
       create Scenario.providersUp RetryScenario.byCard Scenario.customer
         "pay-4"
         (set_payments PaymentScenario.db1099 [RetryScenario.pendingRow])
       = (Throw e',
          set_payments PaymentScenario.db1099 [RetryScenario.pendingRow]).
Proof.
  assert (H : create Scenario.providersDown RetryScenario.byCard
                Scenario.customer "pay-3" PaymentScenario.db1099
              = (Throw (BadRequestException
                          "Stripe payment failed: 503 Service Unavailable"),
                 set_payments PaymentScenario.db1099
                   [RetryScenario.pendingRow])) by reflexivity.
  split; [exact H|].
  destruct (refused_charge_leaves_pending_payment Scenario.providersDown
              RetryScenario.byCard Scenario.customer "pay-3"
              PaymentScenario.db1099 _ PaymentScenario.order1099 _
              eq_refl eq_refl eq_refl H) as [_ Hb].
  exact (Hb Scenario.providersUp (PostPayments RetryScenario.byCard)
            Scenario.customer 0 "pay-4" eq_refl).
Defined.

End OnePayment.

(** ** Payments: refunds and webhooks *)

Section RefundsAndWebhooks.
Import PaymentStatus PaymentMethod PaymentsService Ledger.

(** X14.  Any refund that succeeds closes the payment to refunds.  It
    stores the status Refunded whatever the amount asked for, a part
    of the payment as well as all of it, and from then on every refund
    of that payment is refused with "Can only refund completed
    payments", so that what is left of a partial refund can not be
    refunded. *)
Theorem refund_closes_payment
    (cfg : Config) (id : string) (dto : RefundPaymentDto) (u : User)
    (now : Z) (db db' : Db) (q : Payment) :
  refund cfg id dto u now db = (Ok q, db') ->
  payment_status q = REFUNDED
  /\ payment_amount q
     = match find (hasId id) (payments db) with
       | Some p => payment_amount p
       | None => 0
       end
  /\ forall cfg' dto' u' now',
       refund cfg' id dto' u' now' db'
       = (Throw (BadRequestException "Can only refund completed payments"),
          db').
Proof.
  intros H. apply refund_ok in H as (p & ext & Hf & Hs & _ & -> & ->).
  rewrite Hf. split; [reflexivity|]. split; [reflexivity|].
  intros cfg' dto' u' now'. unfold refund, bind, query. cbn.
  rewrite (find_updateWhere _ _ _ _ p); [|reflexivity|exact Hf].
  apply find_some in Hf as [_ Hh].
  assert (Hp : hasId (payment_id p) p = true) by apply hasId_refl.
  rewrite Hp. reflexivity.
Qed.

Lemma refund_closes_payment_witness :
  payment_status RetryScenario.partlyRefunded = REFUNDED
  /\ refund Scenario.providersUp "pay-1"
       (mkRefundPaymentDto (Some 1000) "the rest") Scenario.owner
       (WebhookScenario.afterRefund + 1)
       (set_payments Scenario.paidDb [RetryScenario.partlyRefunded])
     = (Throw (BadRequestException "Can only refund completed payments"),
        set_payments Scenario.paidDb [RetryScenario.partlyRefunded]).
Proof.
  destruct (refund_closes_payment Scenario.providersUp "pay-1"
              RetryScenario.partialRefund Scenario.owner
              WebhookScenario.afterRefund Scenario.paidDb
              (set_payments Scenario.paidDb [RetryScenario.partlyRefunded])
              RetryScenario.partlyRefunded eq_refl) as (Hs & _ & Hr).
  split; [exact Hs | apply Hr].
Defined.

(** X15.  A refund that throws has written nothing: a payment that is
    not found or not Completed, a caller who does not own the
    restaurant, and a provider that rejects the refund all leave the
    database as it was.  A payment that is not Completed is refused
    before anything else is looked at. *)
Theorem failed_refund_writes_nothing
    (cfg : Config) (id : string) (dto : RefundPaymentDto) (u : User)
    (now : Z) (db db' : Db) (e : HttpException) :
  refund cfg id dto u now db = (Throw e, db') ->
  db' = db
  /\ forall p, find (hasId id) (payments db) = Some p ->
       payment_status p <> COMPLETED ->
       e = BadRequestException "Can only refund completed payments".
Proof.
  unfold refund, bind, query, throwIf.
  destruct (find (hasId id) (payments db)) as [p|]; cbn;
    [|intros [= <- <-]; split; [reflexivity | discriminate]].
  destruct (status_eqb (payment_status p) COMPLETED) eqn:Hs; cbn.
  - assert (Hc : payment_status p = COMPLETED)
      by (destruct (payment_status p); try discriminate; reflexivity).
    assert (Hdone : forall X : Prop, X ->
               X /\ forall p0, Some p = Some p0 ->
                      payment_status p0 <> COMPLETED ->
                      e = BadRequestException
                            "Can only refund completed payments").
    { intros X HX. split; [exact HX|]. intros p0 [= <-] Hn. contradiction. }
    destruct (Role_eqb (user_role u) RESTAURANT_OWNER); cbn.
    + destruct (ownerOf p db) as [o|]; cbn;
        [|intros [= _ <-]; now apply Hdone].
      destruct (String.eqb o (user_id u)); cbn;
        [|intros [= _ <-]; now apply Hdone].
      destruct (callRefundProvider cfg p (refundAmountOf dto p));
        [unfold updatePayment; discriminate|].
      intros [= _ <-]; now apply Hdone.
    + destruct (callRefundProvider cfg p (refundAmountOf dto p));
        [unfold updatePayment; discriminate|].
      intros [= _ <-]; now apply Hdone.
  - intros [= <- <-]. split; [reflexivity|]. reflexivity.
Qed.

Lemma failed_refund_writes_nothing_witness :
  snd (refund Scenario.providersDown "pay-1" WebhookScenario.fullRefund
         Scenario.owner WebhookScenario.afterRefund Scenario.paidDb)
  = Scenario.paidDb.
Proof.
  exact (proj1 (failed_refund_writes_nothing Scenario.providersDown "pay-1"
                  WebhookScenario.fullRefund Scenario.owner
                  WebhookScenario.afterRefund Scenario.paidDb
                  (snd (refund Scenario.providersDown "pay-1"
                          WebhookScenario.fullRefund Scenario.owner
                          WebhookScenario.afterRefund Scenario.paidDb))
                  (BadRequestException
                     "Refund failed: 503 Service Unavailable")
                  eq_refl)).
Defined.

(** A handler that looks the payment up by the object's id and writes
    a status and new metadata on it touches nothing else. *)
Lemma shaped_handler_keeps_ledger
    (s : PaymentStatus.t)
    (mdf : ProviderObject -> Z -> gmap string MetaValue
           -> gmap string MetaValue)
    (h : ProviderObject -> Z -> Service unit) :
  (forall obj now db,
      h obj now db
      = match findByExternalId (object_id obj) db with
        | Some p =>
            (Ok tt,
             set_payments db
               (updateWhere (hasId (payment_id p))
                  (withStatus s (mdf obj now (payment_metadata p)))
                  (payments db)))
        | None => (Ok tt, db)
        end) ->
  forall obj now db,
    map entry (payments (snd (h obj now db))) = map entry (payments db)
    /\ map payment_externalPaymentId (payments (snd (h obj now db)))
       = map payment_externalPaymentId (payments db)
    /\ others (snd (h obj now db)) = others db
    /\ (findByExternalId (object_id obj) db = None -> h obj now db = (Ok tt, db)).
Proof.
  intros Hshape obj now db. rewrite Hshape.
  destruct (findByExternalId (object_id obj) db) as [p|]; [|now repeat split].
  cbn. unfold updateWhere. rewrite !map_map.
  repeat split; try discriminate;
    apply map_ext; intros x; now destruct (hasId (payment_id p) x).
Qed.

Local Abbreviation stripeOk :=
  (fun (obj : ProviderObject) (now : Z) (m : gmap string MetaValue) =>
     <["completedAt" := MInstant now]>
       (<["stripePaymentIntent" := MProviderObject (object_raw obj)]> m)).
Local Abbreviation stripeKo :=
  (fun (obj : ProviderObject) (now : Z) (m : gmap string MetaValue) =>
     <["failureReason" :=
         MString (orElse (object_failureReason obj) "Payment failed")]>
       (<["failedAt" := MInstant now]>
          (<["stripePaymentIntent" := MProviderObject (object_raw obj)]>
             m))).
Local Abbreviation yookassaOk :=
  (fun (obj : ProviderObject) (now : Z) (m : gmap string MetaValue) =>
     <["completedAt" := MInstant now]>
       (<["yookassaPayment" := MProviderObject (object_raw obj)]> m)).
Local Abbreviation yookassaKo :=
  (fun (obj : ProviderObject) (now : Z) (m : gmap string MetaValue) =>
     <["failureReason" :=
         MString (orElse (object_failureReason obj) "Payment failed")]>
       (<["failedAt" := MInstant now]>
          (<["yookassaPayment" := MProviderObject (object_raw obj)]> m))).

(** X16.  A webhook changes nothing but the status and the metadata of
    payments: whatever the event, the payments keep their number,
    sequence, ids, orders, amounts, currencies, commissions, nets and
    external ids, and every other table is untouched.  An event whose
    object matches no payment changes nothing at all. *)
Theorem webhook_keeps_ledger
    (dto : PaymentWebhookDto) (now : Z) (db db' : Db) (r : Result unit) :
  handleWebhook dto now db = (r, db') ->
  map entry (payments db') = map entry (payments db)
  /\ map payment_externalPaymentId (payments db')
     = map payment_externalPaymentId (payments db)
  /\ others db' = others db
  /\ (findByExternalId (object_id (object (payload dto))) db = None ->
      db' = db).
Proof.
  unfold handleWebhook, handleStripeWebhook, handleYookassaWebhook.
  assert (Hsame : forall r0, (r0, db) = (r, db') ->
             map entry (payments db') = map entry (payments db)
             /\ map payment_externalPaymentId (payments db')
                = map payment_externalPaymentId (payments db)
             /\ others db' = others db
             /\ (findByExternalId (object_id (object (payload dto))) db
                 = None -> db' = db)).
  { intros r0 [= _ <-]. now repeat split. }
  assert (Hshaped : forall s mdf h,
             (forall obj now db,
                 h obj now db
                 = match findByExternalId (object_id obj) db with
                   | Some p =>
                       (Ok tt,
                        set_payments db
                          (updateWhere (hasId (payment_id p))
                             (withStatus s (mdf obj now (payment_metadata p)))
                             (payments db)))
                   | None => (Ok tt, db)
                   end) ->
             h (object (payload dto)) now db = (r, db') ->
             map entry (payments db') = map entry (payments db)
             /\ map payment_externalPaymentId (payments db')
                = map payment_externalPaymentId (payments db)
             /\ others db' = others db
             /\ (findByExternalId (object_id (object (payload dto))) db
                 = None -> db' = db)).
  { intros s mdf h Hshape H.
    destruct (shaped_handler_keeps_ledger s mdf h Hshape
                (object (payload dto)) now db) as (H1 & H2 & H3 & H4).
    rewrite H in *. cbn in *. repeat split; auto.
    intros Hn. specialize (H4 Hn). congruence. }
  destruct (String.eqb (provider dto) "stripe").
  - destruct (String.eqb (kind (payload dto)) "payment_intent.succeeded").
    + apply (Hshaped COMPLETED stripeOk _ stripe_success_shape).
    + destruct (String.eqb (kind (payload dto))
                           "payment_intent.payment_failed");
        [|apply Hsame].
      apply (Hshaped FAILED stripeKo _ stripe_failed_shape).
  - destruct (String.eqb (provider dto) "yookassa"); [|apply Hsame].
    destruct (String.eqb (kind (payload dto)) "payment.succeeded").
    + apply (Hshaped COMPLETED yookassaOk _ yookassa_success_shape).
    + destruct (String.eqb (kind (payload dto)) "payment.canceled");
        [|apply Hsame].
      apply (Hshaped FAILED yookassaKo _ yookassa_failed_shape).
Qed.

Lemma webhook_keeps_ledger_witness :
  map entry
    (payments (snd (handleWebhook RetryScenario.failed 10 Scenario.paidDb)))
  = map entry (payments Scenario.paidDb).
Proof.
  apply (webhook_keeps_ledger RetryScenario.failed 10 Scenario.paidDb
           (snd (handleWebhook RetryScenario.failed 10 Scenario.paidDb))
           (fst (handleWebhook RetryScenario.failed 10 Scenario.paidDb))).
  now destruct (handleWebhook RetryScenario.failed 10 Scenario.paidDb).
Defined.

(** X17.  The last event wins.  When two events for the same payment
    are handled one after the other, the payment ends with the status
    of the second, whatever the first had stored and whatever the
    payment's status was before: a failure after a success leaves it
    Failed, and a success after a failure leaves it Completed. *)
Theorem last_webhook_wins
    (first second : PaymentWebhookDto) (t1 t2 : Z) (db : Db) (p : Payment)
    (s1 s2 : PaymentStatus.t) :
  object_id (object (payload second)) = object_id (object (payload first)) ->
  findByExternalId (object_id (object (payload first))) db = Some p ->
  writes first = Some s1 ->
  writes second = Some s2 ->
  option_map payment_status
    (findByExternalId (object_id (object (payload first)))
       (snd (handleWebhook second t2 (snd (handleWebhook first t1 db)))))
  = Some s2.
Proof.
  intros Hid Hf H1 H2.
  destruct (handleWebhook_writes first t1 db p s1 H1 Hf) as [_ [md Hf1]].
  rewrite <- Hid in Hf1 |- *.
  destruct (handleWebhook_writes second t2 _ _ s2 H2 Hf1) as [_ [md' Hf2]].
  rewrite Hf2. reflexivity.
Qed.

Lemma last_webhook_wins_witness :
  option_map payment_status
    (findByExternalId "pi_1"
       (snd (handleWebhook RetryScenario.failed 20
               (snd (handleWebhook WebhookScenario.succeeded 10
                       Scenario.paidDb)))))
  = Some FAILED.
Proof.
  apply (last_webhook_wins WebhookScenario.succeeded RetryScenario.failed
           10 20 Scenario.paidDb Scenario.settledPayment COMPLETED FAILED
           eq_refl eq_refl eq_refl eq_refl).
Defined.

End RefundsAndWebhooks.

(** ** Shifts: scheduling, clocking in and out *)

Section ShiftInvariants.
Import ShiftStatus EmployeesService.

Lemma findOne_keeps_db_employee id u db r db' :
  findOne id u db = (r, db') -> db' = db.
Proof.
  unfold findOne, bind, query, ownerMismatch, selfMismatch, throwIf.
  destruct (findEmployee id db) as [e|]; cbn;
    [|intros [= _ <-]; reflexivity].
  destruct (Role_eqb (user_role u) RESTAURANT_OWNER); cbn.
  - destruct (restaurant_owner e); cbn; [|intros [= _ <-]; reflexivity].
    destruct (String.eqb _ _); cbn; [|intros [= _ <-]; reflexivity].
    destruct (Role_eqb (user_role u) EMPLOYEE && _); cbn;
      intros [= _ <-]; reflexivity.
  - destruct (Role_eqb (user_role u) EMPLOYEE && _); cbn;
      intros [= _ <-]; reflexivity.
Qed.

(** [findOne] reads the employees and the restaurants only. *)
Lemma findOne_same_staff id u db1 db2 r :
  employees db2 = employees db1 ->
  restaurants db2 = restaurants db1 ->
  findOne id u db1 = (r, db1) -> findOne id u db2 = (r, db2).
Proof.
  intros He Hr.
  unfold findOne, bind, query, findEmployee, includeRestaurant,
    ownerMismatch, selfMismatch, throwIf.
  rewrite He, Hr.
  destruct (find _ (employees db1)) as [e|]; cbn;
    [|intros [= <-]; reflexivity].
  destruct (Role_eqb (user_role u) RESTAURANT_OWNER); cbn.
  - destruct (option_map _ _); cbn; [|intros [= <-]; reflexivity].
    destruct (String.eqb _ _); cbn; [|intros [= <-]; reflexivity].
    destruct (Role_eqb (user_role u) EMPLOYEE && _); cbn;
      intros [= <-]; reflexivity.
  - destruct (Role_eqb (user_role u) EMPLOYEE && _); cbn;
      intros [= <-]; reflexivity.
Qed.

Lemma createShift_ok_inv dto u newId db s db' :
  createShift dto u newId db = (Ok s, db') ->
  startTime dto < endTime dto
  /\ List.filter (overlapping (employeeId dto) (startTime dto) (endTime dto))
       (shifts db) = []
  /\ shifts db' = (shifts db ++ [s])%list
  /\ shift_employeeId s = employeeId dto
  /\ shift_startTime s = startTime dto
  /\ shift_endTime s = endTime dto
  /\ shift_status s = SCHEDULED
  /\ shift_id s = newId.
Proof.
  destruct (findOne (employeeId dto) u db) as [[e|x] db0] eqn:Hf;
    pose proof (findOne_keeps_db_employee _ _ _ _ _ Hf); subst db0.
  - rewrite (createShift_checks dto u newId db e Hf).
    destruct (startTime dto >=? endTime dto) eqn:Hge; [discriminate|].
    rewrite Z.geb_leb in Hge. apply Z.leb_gt in Hge.
    unfold overlappingShift.
    destruct (List.filter _ (shifts db)) as [|y l] eqn:E; cbn;
      [|discriminate].
    intros [= <- <-]. cbn. auto 10.
  - unfold createShift, bind. rewrite Hf. discriminate.
Qed.

Lemma ForallOrdPairs_snoc {A : Type} (R : A -> A -> Prop) (l : list A)
    (x : A) :
  ForallOrdPairs R l -> Forall (fun a => R a x) l ->
  ForallOrdPairs R (l ++ [x]).
Proof.
  induction 1 as [|a l Ha Hl IH]; intros Hx; cbn.
  - constructor; constructor.
  - inversion Hx; subst. constructor.
    + apply List.Forall_app. split; [exact Ha|]. constructor; [assumption|].
      constructor.
    + now apply IH.
Qed.

(** X18.  Scheduling keeps the rota free of clashes.  Over a table in
    which every shift starts before it ends and no two Scheduled or
    Active shifts of one employee share an instant, a [createShift]
    that succeeds leaves a table with the same two properties: the
    shift it appends starts before it ends and clashes with none of
    the others. *)
Theorem scheduling_keeps_rota_clash_free
    (db db' : Db) (dto : CreateShiftDto) (u : User) (newId : string)
    (s : Shift) :
  wellFormed (shifts db) ->
  noClash (shifts db) ->
  createShift dto u newId db = (Ok s, db') ->
  wellFormed (shifts db') /\ noClash (shifts db').
Proof.
  intros Hwf Hnc H.
  apply createShift_ok_inv in H
    as (Hlt & Hfil & -> & Hemp & Hst & Hen & Hstat & _).
  split.
  - apply List.Forall_app. split; [exact Hwf|].
    constructor; [lia | constructor].
  - apply ForallOrdPairs_snoc; [exact Hnc|].
    apply List.Forall_forall. intros a Hin (He & Hoa & _ & t & Ha & Hb).
    assert (Hov : overlapping (employeeId dto) (startTime dto) (endTime dto) a
                  = true).
    { unfold overlapping. rewrite Hoa, He, Hemp, String.eqb_refl. cbn.
      apply timesOverlap_intersect.
      - eapply List.Forall_forall in Hwf; eassumption.
      - exact Hlt.
      - exists t. lia. }
    assert (Hin' : In a (List.filter (overlapping (employeeId dto)
                                        (startTime dto) (endTime dto))
                           (shifts db)))
      by (apply filter_In; auto).
    rewrite Hfil in Hin'. contradiction.
Qed.

Lemma scheduling_keeps_rota_clash_free_witness :
  exists s db',
    createShift ClockScenario.eveningShift Scenario.owner "shift-8"
      ShiftScenario.rota = (Ok s, db')
    /\ wellFormed (shifts db') /\ noClash (shifts db').
Proof.
  assert (H : exists s db',
             createShift ClockScenario.eveningShift Scenario.owner "shift-8"
               ShiftScenario.rota = (Ok s, db'))
    by (eexists _, _; vm_compute; reflexivity).
  destruct H as (s & db' & H). exists s, db'. split; [exact H|].
  apply (scheduling_keeps_rota_clash_free ShiftScenario.rota db'
           ClockScenario.eveningShift Scenario.owner "shift-8" s).
  - constructor; [reflexivity | constructor].
  - constructor; constructor.
  - exact H.
Defined.

End ShiftInvariants.

Section Clock.
Import ShiftStatus EmployeesService.

Lemma clockIn_inv tz dto u now newId db s db' :
  clockIn tz dto u now newId db = (Ok s, db') ->
  (exists e, findOne (clockIn_employeeId dto) u db = (Ok e, db))
  /\ find (isActiveOf (clockIn_employeeId dto)) (shifts db) = None
  /\ shift_employeeId s = clockIn_employeeId dto
  /\ shift_status s = ACTIVE
  /\ shift_actualStartTime s = Some now
  /\ ((exists sch,
          find (isScheduledToday tz now (clockIn_employeeId dto)) (shifts db)
          = Some sch
          /\ s = activate dto now (shift_notes sch) sch
          /\ db' = set_shifts db
                     (updateWhere
                        (fun x => String.eqb (shift_id x) (shift_id sch))
                        (activate dto now (shift_notes sch)) (shifts db)))
      \/ (find (isScheduledToday tz now (clockIn_employeeId dto)) (shifts db)
          = None
          /\ shift_id s = newId
          /\ shift_startTime s = now
          /\ shift_breakDuration s = None
          /\ db' = set_shifts db (shifts db ++ [s]))).
Proof.
  unfold clockIn, bind, query, throwIf, write, ret.
  destruct (findOne (clockIn_employeeId dto) u db) as [[e|x] db0] eqn:Hf;
    pose proof (findOne_keeps_db_employee _ _ _ _ _ Hf); subst db0;
    [|discriminate].
  destruct (find (isActiveOf _) (shifts db)) eqn:Ha; cbn; [discriminate|].
  destruct (find (isScheduledToday _ _ _) (shifts db)) as [sch|] eqn:Hs; cbn.
  - intros [= <- <-]. pose proof Hs as Hs'.
    apply find_some in Hs' as [Hin Hp].
    unfold isScheduledToday in Hp. rewrite !andb_true_iff in Hp.
    destruct Hp as [[[He Hst] _] _]. apply String.eqb_eq in He.
    split; [eauto|]. split; [reflexivity|]. split; [exact He|].
    split; [reflexivity|]. split; [reflexivity|]. left. eauto.
  - intros [= <- <-]. split; [eauto|]. repeat split. right. auto.
Qed.

Lemma find_exists {A : Type} (f : A -> bool) (l : list A) (x : A) :
  In x l -> f x = true -> exists y, find f l = Some y.
Proof.
  intros Hin Hf. destruct (find f l) as [y|] eqn:E; [eauto|].
  rewrite (find_none _ _ E x Hin) in Hf. discriminate.
Qed.

Lemma clockIn_leaves_active tz dto u now newId db s db' :
  clockIn tz dto u now newId db = (Ok s, db') ->
  employees db' = employees db
  /\ restaurants db' = restaurants db
  /\ exists a, find (isActiveOf (clockIn_employeeId dto)) (shifts db')
               = Some a.
Proof.
  intros H. apply clockIn_inv in H
    as (_ & _ & He & Hst & _ & [(sch & Hs & -> & ->) | (_ & _ & _ & _ & ->)]).
  - split; [reflexivity|]. split; [reflexivity|]. cbn.
    apply find_some in Hs as [Hin _].
    apply (find_exists _ _ (activate dto now (shift_notes sch) sch)).
    + apply In_updateWhere; [exact Hin | apply String.eqb_refl].
    + unfold isActiveOf. cbn in *. rewrite He, String.eqb_refl. reflexivity.
  - split; [reflexivity|]. split; [reflexivity|]. cbn.
    apply (find_exists _ _ s).
    + apply in_or_app. right. now left.
    + unfold isActiveOf. rewrite He, Hst, String.eqb_refl. reflexivity.
Qed.

(** X19.  An employee clocks in once.  After a clock-in has succeeded
    the employee has an Active shift that started at the clock-in, and
    a further clock-in for that employee by the same caller, at any
    time and with any notes, is refused with "Employee is already
    clocked in" and changes nothing. *)
Theorem second_clock_in_is_refused
    (tz : Z) (dto : ClockInDto) (u : User) (now : Z) (newId : string)
    (db db' : Db) (s : Shift) :
  clockIn tz dto u now newId db = (Ok s, db') ->
  shift_status s = ACTIVE
  /\ shift_actualStartTime s = Some now
  /\ shift_employeeId s = clockIn_employeeId dto
  /\ forall notes' now' newId',
       clockIn tz (mkClockInDto (clockIn_employeeId dto) notes') u now'
         newId' db'
       = (Throw (BadRequestException "Employee is already clocked in"), db').
Proof.
  intros H. pose proof (clockIn_leaves_active _ _ _ _ _ _ _ _ H)
    as (Hemp & Hres & a & Ha).
  apply clockIn_inv in H as ((e & Hf) & _ & He & Hst & Hs & _).
  split; [exact Hst|]. split; [exact Hs|]. split; [exact He|].
  intros notes' now' newId'. unfold clockIn, bind, query.
  cbn [clockIn_employeeId].
  rewrite (findOne_same_staff _ _ _ db' _ Hemp Hres Hf), Ha. reflexivity.
Qed.

(** Scenario S5: a clock-in at 14:23 without a schedule, then another
    at 14:30. *)
Lemma second_clock_in_is_refused_witness :
  clockIn 0 ClockScenario.emmaClocksIn Scenario.owner
    (ShiftScenario.at_ 14 23) "shift-7" ClockScenario.dayOff
  = (Ok ClockScenario.onDemand, ClockScenario.clockedIn)
  /\ clockIn 0 (mkClockInDto "emp-1" (Some "again")) Scenario.owner
       (ShiftScenario.at_ 14 30) "shift-8" ClockScenario.clockedIn
     = (Throw (BadRequestException "Employee is already clocked in"),
        ClockScenario.clockedIn).
Proof.
  assert (H : clockIn 0 ClockScenario.emmaClocksIn Scenario.owner
                (ShiftScenario.at_ 14 23) "shift-7" ClockScenario.dayOff
              = (Ok ClockScenario.onDemand, ClockScenario.clockedIn))
    by (vm_compute; reflexivity).
  split; [exact H|].
  apply (second_clock_in_is_refused _ _ _ _ _ _ _ _ H).
Defined.

Lemma filter_none {A : Type} (f : A -> bool) (l : list A) :
  find f l = None -> List.filter f l = [].
Proof.
  induction l as [|a l IH]; cbn; [reflexivity|].
  destruct (f a); [discriminate | exact IH].
Qed.

(** With unique ids, the rows selected by the id of a row of the table
    are that row alone. *)
Lemma filter_updated_by_id (f : Shift -> Shift) (p : Shift -> bool)
    (l : list Shift) (s : Shift) :
  List.NoDup (map shift_id l) ->
  In s l ->
  List.filter p l = [] ->
  p (f s) = true ->
  List.filter p
    (updateWhere (fun x => String.eqb (shift_id x) (shift_id s)) f l)
  = [f s].
Proof.
  induction l as [|a l IH]; intros Hnd Hin Hp Hfs; [destruct Hin|].
  cbn in *. inversion Hnd as [|? ? Hnotin Hnd']; subst.
  destruct (p a) eqn:Hpa; [discriminate|].
  destruct Hin as [-> | Hin].
  - rewrite String.eqb_refl, Hfs. f_equal.
    (* the rest of the table has other ids *)
    clear IH Hnd. induction l as [|b l IHl]; [reflexivity|].
    cbn in *. destruct (p b) eqn:Hpb; [discriminate|].
    destruct (String.eqb (shift_id b) (shift_id s)) eqn:E.
    + apply String.eqb_eq in E. exfalso. apply Hnotin. now left.
    + rewrite Hpb. apply IHl; auto.
      * now inversion Hnd'.
  - destruct (String.eqb (shift_id a) (shift_id s)) eqn:E.
    + apply String.eqb_eq in E. exfalso. apply Hnotin.
      rewrite E. now apply in_map.
    + rewrite Hpa. now apply IH.
Qed.

(** X20.  A clock-in leaves the employee with exactly one Active
    shift, in a table whose shift ids are unique: none was Active
    before, and the clock-in activates one scheduled shift or appends
    one. *)
Theorem clock_in_leaves_one_active_shift
    (tz : Z) (dto : ClockInDto) (u : User) (now : Z) (newId : string)
    (db db' : Db) (s : Shift) :
  List.NoDup (map shift_id (shifts db)) ->
  clockIn tz dto u now newId db = (Ok s, db') ->
  activeCount (clockIn_employeeId dto) db = 0%nat
  /\ List.filter (isActiveOf (clockIn_employeeId dto)) (shifts db') = [s].
Proof.
  intros Hnd H. apply clockIn_inv in H
    as (_ & Ha & He & Hst & _ & [(sch & Hs & -> & ->) | (_ & _ & _ & _ & ->)]);
    (split; [unfold activeCount; now rewrite (filter_none _ _ Ha)|]).
  - cbn [shifts set_shifts]. apply find_some in Hs as [Hin _].
    apply filter_updated_by_id; auto.
    + now apply filter_none.
    + unfold isActiveOf. cbn in *. rewrite He, String.eqb_refl. reflexivity.
  - cbn [shifts set_shifts]. rewrite List.filter_app, (filter_none _ _ Ha).
    cbn. unfold isActiveOf. rewrite He, Hst, String.eqb_refl. reflexivity.
Qed.

Lemma clock_in_leaves_one_active_shift_witness :
  List.filter (isActiveOf "emp-1") (shifts ClockScenario.clockedIn)
  = [ClockScenario.onDemand].
Proof.
  apply (clock_in_leaves_one_active_shift 0 ClockScenario.emmaClocksIn
           Scenario.owner (ShiftScenario.at_ 14 23) "shift-7"
           ClockScenario.dayOff ClockScenario.clockedIn
           ClockScenario.onDemand).
  - constructor.
  - vm_compute. reflexivity.
Defined.

End Clock.

Section ClockOutAgain.
Import ShiftStatus EmployeesService.

Lemma mismatch_keeps_db u e m1 m2 db :
  (exists x, selfMismatch u e m1 db = (x, db))
  /\ (exists x, ownerMismatch u e m2 db = (x, db)).
Proof.
  unfold selfMismatch, ownerMismatch, throwIf. split.
  - destruct (Role_eqb (user_role u) EMPLOYEE && _); cbn; eauto.
  - destruct (Role_eqb (user_role u) RESTAURANT_OWNER); cbn; eauto.
    destruct (restaurant_owner e); cbn; eauto.
    destruct (String.eqb _ _); cbn; eauto.
Qed.

Lemma clockOut_inv dto u now db r db' :
  clockOut dto u now db = (Ok r, db') ->
  exists shift e,
    find (fun s => String.eqb (shift_id s) (shiftId dto)) (shifts db)
    = Some shift
    /\ findEmployee (shift_employeeId shift) db = Some e
    /\ shift_status shift = ACTIVE
    /\ r = {| completedShift := complete dto now (shift_notes shift) shift;
              hoursWorked := adjustedHoursOf shift now;
              calculatedPay :=
                calculatedPayOf (employee_hourlyWage (employee e))
                                (adjustedHoursOf shift now) |}
    /\ db' = set_shifts db
               (updateWhere
                  (fun s => String.eqb (shift_id s) (shiftId dto))
                  (complete dto now (shift_notes shift)) (shifts db)).
Proof.
  unfold clockOut, bind, query.
  destruct (find _ (shifts db)) as [shift|] eqn:Hf; [|discriminate].
  destruct (findEmployee (shift_employeeId shift) db) as [e|] eqn:He;
    [|discriminate].
  destruct (mismatch_keeps_db u e
              "You can only clock out from your own shifts"
              "You can only manage shifts in your own restaurants" db)
    as [[x1 H1] [x2 H2]].
  rewrite H1. destruct x1 as [[]|]; [|discriminate].
  rewrite H2. destruct x2 as [[]|]; [|discriminate].
  destruct (shift_status shift) eqn:Hs; cbn; try discriminate.
  intros [= <- <-]. exists shift, e. auto.
Qed.

(** X21.  A shift is clocked out of once.  After a clock-out has
    succeeded the shift is stored as Completed with the clock-out time
    as its actual end, and every further clock-out of that shift, by
    anyone, at any time and with any notes, throws and changes
    nothing. *)
Theorem second_clock_out_is_refused
    (dto : ClockOutDto) (u : User) (now : Z) (db db' : Db)
    (r : ClockOutResult) :
  clockOut dto u now db = (Ok r, db') ->
  option_map (fun s => (shift_status s, shift_actualEndTime s))
    (find (fun s => String.eqb (shift_id s) (shiftId dto)) (shifts db'))
  = Some (COMPLETED, Some now)
  /\ forall notes' u' now', exists e,
       clockOut (mkClockOutDto (shiftId dto) notes') u' now' db'
       = (Throw e, db').
Proof.
  intros H. apply clockOut_inv in H as (shift & e & Hf & He & Hs & -> & ->).
  assert (Hf' : find (fun s => String.eqb (shift_id s) (shiftId dto))
                  (shifts
                     (set_shifts db
                        (updateWhere
                           (fun s => String.eqb (shift_id s) (shiftId dto))
                           (complete dto now (shift_notes shift))
                           (shifts db))))
                = Some (complete dto now (shift_notes shift) shift)).
  { cbn. rewrite (find_updateWhere _ _ _ _ shift); [|reflexivity|exact Hf].
    apply find_some in Hf as [_ ->]. reflexivity. }
  split; [now rewrite Hf'|].
  intros notes' u' now'. unfold clockOut, bind, query.
  cbn [shiftId]. rewrite Hf'.
  change (findEmployee
            (shift_employeeId (complete dto now (shift_notes shift) shift))
            (set_shifts db
               (updateWhere
                  (fun s => String.eqb (shift_id s) (shiftId dto))
                  (complete dto now (shift_notes shift)) (shifts db))))
    with (findEmployee (shift_employeeId shift) db).
  rewrite He.
  match goal with
  | |- context [selfMismatch u' e ?m1 ?d] =>
      destruct (mismatch_keeps_db u' e m1
                  "You can only manage shifts in your own restaurants" d)
        as [[x1 H1] [x2 H2]]
  end.
  rewrite H1. destruct x1 as [[]|]; [|eauto].
  rewrite H2. destruct x2 as [[]|]; [|eauto].
  cbn. eauto.
Qed.

Lemma second_clock_out_is_refused_witness :
  exists e,
    clockOut (mkClockOutDto "shift-2" (Some "again")) Scenario.admin
      (ShiftScenario.at_ 11 0) ShiftScenario.afterClockOut
    = (Throw e, ShiftScenario.afterClockOut).
Proof.
  apply (second_clock_out_is_refused ShiftScenario.clockOutNow
           Scenario.owner (ShiftScenario.at_ 10 0) ShiftScenario.atWork
           ShiftScenario.afterClockOut ShiftScenario.emmaClockedOut eq_refl).
Defined.






End ClockOutAgain.

Section InviteLinks.
Import EmployeesService Invites.

Lemma ids_updateWhere (sel : InviteLink -> bool) (f : InviteLink -> InviteLink)
    (ls : list InviteLink) :
  (forall x, invite_id (f x) = invite_id x) ->
  map invite_id (updateWhere sel f ls) = map invite_id ls.
Proof.
  intros Hf. unfold updateWhere. rewrite map_map. apply map_ext.
  intros x. destruct (sel x); [apply Hf | reflexivity].
Qed.

Lemma unique_by_id (ls : list InviteLink) (a b : InviteLink) :
  List.NoDup (map invite_id ls) -> In a ls -> In b ls ->
  invite_id a = invite_id b -> a = b.
Proof.
  induction ls as [|x ls IH]; intros Hnd Ha Hb E; [destruct Ha|].
  inversion Hnd as [|? ? Hnotin Hnd']; subst.
  destruct Ha as [-> | Ha], Hb as [-> | Hb]; auto.
  - exfalso. apply Hnotin. rewrite E. now apply in_map.
  - exfalso. apply Hnotin. rewrite <- E. now apply in_map.
Qed.

Lemma NoDup_snoc (l : list string) (a : string) :
  List.NoDup l -> ~ In a l -> List.NoDup (l ++ [a]).
Proof.
  induction l as [|x l IH]; intros Hnd Hn; cbn.
  - constructor; [intros []|constructor].
  - inversion Hnd as [|? ? Hx Hnd']; subst. constructor.
    + intros Hin. apply in_app_or in Hin as [Hin | [-> | []]]; [auto|].
      apply Hn. now left.
    + apply IH; [exact Hnd'|]. intros Hin. apply Hn. now right.
Qed.

Lemma createInviteLink_links dto u token newId st :
  inviteLinks (snd (createInviteLink dto u token newId st)) = inviteLinks st
  \/ inviteLinks (snd (createInviteLink dto u token newId st))
     = (inviteLinks st ++ [newInviteLink dto u token newId])%list.
Proof.
  unfold createInviteLink.
  destruct (verifyRestaurantAccess _ _ _) as [[|] ?]; cbn; auto.
Qed.

Lemma useInviteLink_links dto u now newId st :
  inviteLinks (snd (useInviteLink dto u now newId st)) = inviteLinks st
  \/ exists l,
       In l (inviteLinks st)
       /\ invite_usedCount l < invite_maxUses l
       /\ inviteLinks (snd (useInviteLink dto u now newId st))
          = updateWhere (fun x => String.eqb (invite_id x) (invite_id l))
              (recordUse l) (inviteLinks st).
Proof.
  unfold useInviteLink.
  destruct (find _ (inviteLinks st)) as [l|] eqn:Hf; cbn; auto.
  destruct (negb _); cbn; auto.
  destruct (now >? _); cbn; auto.
  destruct (invite_usedCount l >=? invite_maxUses l) eqn:Hc; cbn; auto.
  destruct (find _ (employees _)); cbn; auto.
  right. exists l. apply find_some in Hf as [Hin _].
  split; [exact Hin|]. split; [lia|].
  destruct (findRestaurant _ _); reflexivity.
Qed.

Lemma revokeInviteLink_links id u st :
  inviteLinks (snd (revokeInviteLink id u st)) = inviteLinks st
  \/ inviteLinks (snd (revokeInviteLink id u st))
     = updateWhere (fun x => String.eqb (invite_id x) id) revoked
         (inviteLinks st).
Proof.
  unfold revokeInviteLink.
  destruct (find _ (inviteLinks st)); cbn; auto.
  destruct (Role_eqb _ _); cbn; auto.
  destruct (findRestaurant _ _); cbn; auto.
  destruct (negb _); cbn; auto.
Qed.

Lemma step_keeps_limits st st' :
  step st st' ->
  List.NoDup (ids st) /\ Forall withinLimit (inviteLinks st) ->
  List.NoDup (ids st') /\ Forall withinLimit (inviteLinks st').
Proof.
  intros Hstep [Hnd Hall]. unfold ids in *.
  destruct Hstep as [dto u token newId st Hfresh | dto u now newId st
                    | id u st].
  - destruct (createInviteLink_links dto u token newId st) as [-> | ->];
      [auto|].
    split.
    + rewrite map_app. cbn. apply NoDup_snoc; auto.
    + apply List.Forall_app. split; [exact Hall|].
      constructor; [|constructor]. unfold withinLimit. cbn. lia.
  - destruct (useInviteLink_links dto u now newId st)
      as [-> | (l & Hin & Hlt & ->)]; [auto|].
    split; [rewrite ids_updateWhere; auto|].
    unfold updateWhere. apply List.Forall_forall. intros y Hy.
    apply in_map_iff in Hy as (x & <- & Hx).
    destruct (String.eqb (invite_id x) (invite_id l)) eqn:E.
    + apply String.eqb_eq in E.
      assert (x = l) by (eapply unique_by_id; eauto). subst x.
      unfold withinLimit. cbn. lia.
    + rewrite List.Forall_forall in Hall. now apply Hall.
  - destruct (revokeInviteLink_links id u st) as [-> | ->]; [auto|].
    split; [rewrite ids_updateWhere; auto|].
    unfold updateWhere. apply List.Forall_forall. intros y Hy.
    apply in_map_iff in Hy as (x & <- & Hx).
    rewrite List.Forall_forall in Hall.
    destruct (String.eqb (invite_id x) id); [|now apply Hall].
    specialize (Hall x Hx). unfold withinLimit in *. cbn. exact Hall.
Qed.

(** X23.  An invite link is never used more often than it allows.  In
    an invite link table with unique ids in which every link's use
    count is at most its (non-negative) limit, that stays so after any
    sequence of calls of [createInviteLink], [useInviteLink] and
    [revokeInviteLink], by any users with any arguments, succeeding or
    not, as long as created rows get new ids. *)
Theorem invite_link_is_never_overused (st st' : Store) :
  List.NoDup (ids st) ->
  Forall withinLimit (inviteLinks st) ->
  steps st st' ->
  List.NoDup (ids st') /\ Forall withinLimit (inviteLinks st').
Proof.
  intros Hnd Hall Hsteps.
  induction Hsteps as [st | st st1 st2 _ IH Hstep]; [auto|].
  eapply step_keeps_limits; [exact Hstep|]. now apply IH.
Qed.

Lemma invite_link_is_never_overused_witness :
  List.NoDup (ids InviteScenario.kaiJoined)
  /\ Forall withinLimit (inviteLinks InviteScenario.kaiJoined).
Proof.
  apply (invite_link_is_never_overused InviteScenario.empty).
  - constructor.
  - constructor.
  - apply (steps_then _ InviteScenario.invited).
    + apply (steps_then _ InviteScenario.empty); [apply steps_refl|].
      apply (step_create InviteScenario.forTwoCooks Scenario.owner
               "c0ffee" "invite-1" InviteScenario.empty).
      intros [].
    + apply (step_use (InviteScenario.join "Kai") InviteScenario.kai
               (ShiftScenario.at_ 9 0) "emp-kai" InviteScenario.invited).
Defined.

(** X24.  The use that exhausts an invite link closes it.  When a use
    succeeds on a link whose count thereby reaches its limit (the only
    use, for a link created without [maxUses]), the link is stored as
    Used, and every later use of its token, by anyone at any time, is
    refused as no longer active and changes nothing. *)
Theorem used_up_link_admits_nobody
    (dto : UseInviteLinkDto) (u : User) (now : Z) (newId : string)
    (st st' : Store) (l : InviteLink) (e : Employee) :
  find (fun x => String.eqb (invite_token x) (use_token dto))
       (inviteLinks st) = Some l ->
  invite_maxUses l <= invite_usedCount l + 1 ->
  useInviteLink dto u now newId st = (Ok e, st') ->
  forall name' u' now' newId',
    useInviteLink (mkUseInviteLinkDto (use_token dto) name') u' now' newId'
      st'
    = (Throw (BadRequestException "Invite link is no longer active"), st').
Proof.
  intros Hf Hmax Huse name' u' now' newId'.
  unfold useInviteLink in Huse. rewrite Hf in Huse.
  destruct (negb _); [discriminate|].
  destruct (now >? _); [discriminate|].
  destruct (invite_usedCount l >=? invite_maxUses l); [discriminate|].
  destruct (find _ (employees _)); [discriminate|].
  destruct (findRestaurant _ _); [|discriminate].
  injection Huse as _ <-.
  unfold useInviteLink. cbn [use_token inviteLinks].
  rewrite (find_updateWhere _ _ _ _ l); [|reflexivity|exact Hf].
  rewrite String.eqb_refl. cbn [recordUse invite_status].
  replace (invite_usedCount l + 1 >=? invite_maxUses l) with true
    by (symmetry; apply Z.geb_le; lia).
  reflexivity.
Qed.

Lemma used_up_link_admits_nobody_witness :
  useInviteLink (mkUseInviteLinkDto "c0ffee" "Lin") InviteScenario.lin
    (ShiftScenario.at_ 10 0) "emp-lin" InviteScenario.kaiJoinedOnce
  = (Throw (BadRequestException "Invite link is no longer active"),
     InviteScenario.kaiJoinedOnce).
Proof.
  apply (used_up_link_admits_nobody (InviteScenario.join "Kai")
           InviteScenario.kai (ShiftScenario.at_ 9 0) "emp-kai"
           InviteScenario.invitedOnce InviteScenario.kaiJoinedOnce
           (newInviteLink InviteScenario.forOneCook Scenario.owner
              "c0ffee" "invite-1")
           (mkEmployee "emp-kai" "Kai" (Some "user-kai") "rest-1"
              (Some 1500))).
  - reflexivity.
  - vm_compute. discriminate.
  - reflexivity.
Defined.

Lemma find_by_unique_token (ls : list InviteLink) (l : InviteLink) :
  List.NoDup (map invite_token ls) -> In l ls ->
  find (fun x => String.eqb (invite_token x) (invite_token l)) ls = Some l.
Proof.
  induction ls as [|a ls IH]; intros Hnd Hin; [destruct Hin|].
  inversion Hnd as [|? ? Hnotin Hnd']; subst. cbn.
  destruct Hin as [-> | Hin]; [now rewrite String.eqb_refl|].
  destruct (String.eqb (invite_token a) (invite_token l)) eqn:E.
  - apply String.eqb_eq in E. exfalso. apply Hnotin. rewrite E.
    now apply in_map.
  - now apply IH.
Qed.

(** X25.  A revoked invite link admits nobody.  With unique tokens in
    the table, once [revokeInviteLink] has succeeded every use of the
    revoked link's token, by anyone at any time, is refused as no
    longer active and changes nothing. *)
Theorem revoked_link_admits_nobody
    (id : string) (u : User) (st st' : Store) (l : InviteLink) :
  List.NoDup (tokens st) ->
  revokeInviteLink id u st = (Ok l, st') ->
  invite_status l = InviteLinkStatus.REVOKED
  /\ forall name' u' now' newId',
       useInviteLink (mkUseInviteLinkDto (invite_token l) name') u' now'
         newId' st'
       = (Throw (BadRequestException "Invite link is no longer active"),
          st').
Proof.
  intros Hnd Hrev. unfold revokeInviteLink in Hrev.
  destruct (find _ (inviteLinks st)) as [l0|] eqn:Hf; [|discriminate].
  assert (Hupd : l = revoked l0
                 /\ st' = mkStore (store_db st)
                            (updateWhere
                               (fun x => String.eqb (invite_id x) id)
                               revoked (inviteLinks st))).
  { destruct (Role_eqb _ _).
    - destruct (findRestaurant _ _); [|discriminate].
      destruct (negb _); [discriminate|].
      injection Hrev as <- <-. auto.
    - injection Hrev as <- <-. auto. }
  destruct Hupd as [-> ->]. split; [reflexivity|].
  intros name' u' now' newId'.
  apply find_some in Hf as [Hin Hid].
  unfold useInviteLink. cbn [use_token inviteLinks revoked invite_token].
  rewrite (find_updateWhere _ _ _ _ l0);
    [|reflexivity|now apply find_by_unique_token].
  rewrite Hid. reflexivity.
Qed.

Lemma revoked_link_admits_nobody_witness :
  useInviteLink (mkUseInviteLinkDto "c0ffee" "Kai") InviteScenario.kai
    (ShiftScenario.at_ 9 0) "emp-kai" InviteScenario.withdrawn
  = (Throw (BadRequestException "Invite link is no longer active"),
     InviteScenario.withdrawn).
Proof.
  apply (revoked_link_admits_nobody "invite-1" Scenario.owner
           InviteScenario.invited InviteScenario.withdrawn
           (revoked (newInviteLink InviteScenario.forTwoCooks
                       Scenario.owner "c0ffee" "invite-1"))).
  - vm_compute. constructor; [intros []|constructor].
  - reflexivity.
Defined.

(** X26.  A user joins a restaurant through invite links once.  After
    a user has become an employee by [useInviteLink], every further
    use by that user of a link to the same restaurant, the same link
    or another, throws and changes nothing. *)
Theorem user_joins_restaurant_once
    (dto dto' : UseInviteLinkDto) (u : User) (now now' : Z)
    (newId newId' : string) (st st' : Store) (e : Employee)
    (l' : InviteLink) :
  useInviteLink dto u now newId st = (Ok e, st') ->
  find (fun x => String.eqb (invite_token x) (use_token dto'))
       (inviteLinks st') = Some l' ->
  invite_restaurantId l' = employee_restaurantId e ->
  exists err, useInviteLink dto' u now' newId' st' = (Throw err, st').
Proof.
  intros Huse Hf' Hsame.
  assert (Hin : In e (employees (store_db st'))
                /\ employedAt (user_id u) (employee_restaurantId e) e
                   = true).
  { unfold useInviteLink in Huse.
    destruct (find _ (inviteLinks st)) as [l|]; [|discriminate].
    destruct (negb _); [discriminate|].
    destruct (now >? _); [discriminate|].
    destruct (invite_usedCount l >=? invite_maxUses l); [discriminate|].
    destruct (find _ (employees _)); [discriminate|].
    destruct (findRestaurant _ _); [|discriminate].
    injection Huse as <- <-. cbn. split.
    - apply in_or_app. right. now left.
    - unfold employedAt. cbn. now rewrite !String.eqb_refl. }
  destruct Hin as [Hin Hemp].
  unfold useInviteLink. rewrite Hf'.
  destruct (negb _); [eauto|].
  destruct (now' >? _); [eauto|].
  destruct (invite_usedCount l' >=? invite_maxUses l'); [eauto|].
  rewrite Hsame.
  destruct (find _ (employees (store_db st'))) eqn:Hnone; [eauto|].
  exfalso. apply (find_none _ _ Hnone) in Hin. congruence.
Qed.

Lemma user_joins_restaurant_once_witness :
  exists err,
    useInviteLink (InviteScenario.join "Kai again") InviteScenario.kai
      (ShiftScenario.at_ 10 0) "emp-kai-2" InviteScenario.kaiJoined
    = (Throw err, InviteScenario.kaiJoined).
Proof.
  apply (user_joins_restaurant_once (InviteScenario.join "Kai")
           (InviteScenario.join "Kai again") InviteScenario.kai
           (ShiftScenario.at_ 9 0) (ShiftScenario.at_ 10 0) "emp-kai"
           "emp-kai-2" InviteScenario.invited InviteScenario.kaiJoined
           (mkEmployee "emp-kai" "Kai" (Some "user-kai") "rest-1"
              (Some 1500))
           (recordUse
              (newInviteLink InviteScenario.forTwoCooks Scenario.owner
                 "c0ffee" "invite-1")
              (newInviteLink InviteScenario.forTwoCooks Scenario.owner
                 "c0ffee" "invite-1"))).
  - reflexivity.
  - reflexivity.
  - reflexivity.
Defined.




End InviteLinks.
